(** * Booking server: a shallow embedding of [server.js]

    The first part follows the source file top-down: JavaScript strings and
    values, the regular expressions of the validators, the sanitizers,
    [parseInt]/[toInt], the [Date] arithmetic used for the calendar
    attachment, [buildICS], and finally the [POST /api/bookings] handler,
    written in a small state-and-exception monad over a world made of the
    booking table and a log of the effects performed.

    The second part proves what the specification says of the handler: the
    matcher decides the two regular expressions, [toISOString] is read back
    exactly, every run has one of a few shapes, and then the claims, one by
    one. *)

From Stdlib Require Import List ZArith NArith Lia Bool String Ascii DecimalString.
Import ListNotations.

Set Implicit Arguments.

(** ** JavaScript strings

    A JavaScript string is a sequence of UTF-16 code units.  The regular
    expressions of the source carry no [u] flag, and [trim] and [slice] work
    on code units too, so code units are the right granularity. *)

Module JS.

Definition code_unit := N.
Definition jsstring := list code_unit.

(** Literals: an ASCII Rocq string read as code units. *)
Definition str (s : string) : jsstring :=
  map N_of_ascii (list_ascii_of_string s).

Definition jsstring_eqb (a b : jsstring) : bool :=
  if list_eq_dec N.eq_dec a b then true else false.

(** ECMAScript WhiteSpace and LineTerminator code points: what [\s] matches,
    what [String.prototype.trim] strips and what [parseInt] skips. *)
Definition is_ws (c : code_unit) : bool :=
  ((9 <=? c) && (c <=? 13)            (* TAB LF VT FF CR *)
   || (c =? 32)                        (* SPACE *)
   || (c =? 160)                       (* NO-BREAK SPACE *)
   || (c =? 5760)                      (* U+1680 *)
   || ((8192 <=? c) && (c <=? 8202))   (* U+2000 .. U+200A *)
   || (c =? 8232) || (c =? 8233)       (* LINE / PARAGRAPH SEPARATOR *)
   || (c =? 8239) || (c =? 8287)       (* U+202F, U+205F *)
   || (c =? 12288)                     (* U+3000 *)
   || (c =? 65279))%N.                 (* U+FEFF *)

Fixpoint drop_ws (s : jsstring) : jsstring :=
  match s with
  | c :: s' => if is_ws c then drop_ws s' else s
  | [] => []
  end.

(** [String.prototype.trim] *)
Definition trim (s : jsstring) : jsstring :=
  rev (drop_ws (rev (drop_ws s))).

(** [s.slice(0, n)] *)
Definition slice0 (n : nat) (s : jsstring) : jsstring := firstn n s.

(** [lines.join(sep)] *)
Fixpoint join (sep : jsstring) (l : list jsstring) : jsstring :=
  match l with
  | [] => []
  | [x] => x
  | x :: l' => x ++ sep ++ join sep l'
  end.

(** ** Values of a submitted field

    The handler receives a mapping from field names to strings (the form
    client posts the entries of a [FormData]); a key that is absent
    destructures to [undefined]. *)
Inductive jsval :=
| JUndefined
| JString (s : jsstring).

(** [ToBoolean] *)
Definition truthy (v : jsval) : bool :=
  match v with
  | JUndefined => false
  | JString [] => false
  | JString (_ :: _) => true
  end.

Definition falsy (v : jsval) : bool := negb (truthy v).

(** [ToString], as applied by [String(v)], [RegExp.prototype.test] and
    [parseInt]. *)
Definition ToString (v : jsval) : jsstring :=
  match v with
  | JUndefined => str "undefined"
  | JString s => s
  end.

(** [a || b] *)
Definition or_else (a b : jsval) : jsval := if truthy a then a else b.

(** Environment variables and other optional strings, read as values. *)
Definition of_option (o : option jsstring) : jsval :=
  match o with
  | Some s => JString s
  | None => JUndefined
  end.

End JS.
Export JS.

(** ** Regular expressions

    The two patterns of the source are anchored at both ends and use only
    character classes, concatenation and bounded repetition, so [test] is a
    whole-string match.  Matching is by derivatives. *)

Module Regex.

Inductive re :=
| Void
| Eps
| Class (p : code_unit -> bool)
| Seq (r1 r2 : re)
| Alt (r1 r2 : re)
| Star (r : re).

(** [r+] *)
Definition Plus (r : re) : re := Seq r (Star r).

(** [r{n,}] *)
Fixpoint AtLeast (n : nat) (r : re) : re :=
  match n with
  | O => Star r
  | S n' => Seq r (AtLeast n' r)
  end.

Definition Lit (c : code_unit) : re := Class (N.eqb c).

Fixpoint nullable (r : re) : bool :=
  match r with
  | Void => false
  | Eps => true
  | Class _ => false
  | Seq r1 r2 => nullable r1 && nullable r2
  | Alt r1 r2 => nullable r1 || nullable r2
  | Star _ => true
  end.

Fixpoint deriv (c : code_unit) (r : re) : re :=
  match r with
  | Void => Void
  | Eps => Void
  | Class p => if p c then Eps else Void
  | Seq r1 r2 =>
      if nullable r1 then Alt (Seq (deriv c r1) r2) (deriv c r2)
      else Seq (deriv c r1) r2
  | Alt r1 r2 => Alt (deriv c r1) (deriv c r2)
  | Star r1 => Seq (deriv c r1) (Star r1)
  end.

(** [/^r$/.test(s)] *)
Fixpoint test (r : re) (s : jsstring) : bool :=
  match s with
  | [] => nullable r
  | c :: s' => test (deriv c r) s'
  end.

(** The language of a regular expression, as a relation. *)
Inductive matches : re -> jsstring -> Prop :=
| MEps : matches Eps []
| MClass p c : p c = true -> matches (Class p) [c]
| MSeq r1 r2 s1 s2 :
    matches r1 s1 -> matches r2 s2 -> matches (Seq r1 r2) (s1 ++ s2)
| MAltL r1 r2 s : matches r1 s -> matches (Alt r1 r2) s
| MAltR r1 r2 s : matches r2 s -> matches (Alt r1 r2) s
| MStarNil r : matches (Star r) []
| MStarCons r c s1 s2 :
    matches r (c :: s1) -> matches (Star r) s2 ->
    matches (Star r) (c :: s1 ++ s2).

End Regex.

(** ** The validators and sanitizers of [server.js] *)

Definition chr_at : code_unit := 64%N.     (* @ *)
Definition chr_dot : code_unit := 46%N.    (* . *)
Definition chr_minus : code_unit := 45%N.  (* - *)
Definition chr_plus : code_unit := 43%N.   (* + *)
Definition chr_lpar : code_unit := 40%N.   (* ( *)
Definition chr_rpar : code_unit := 41%N.   (* ) *)
Definition chr_0 : code_unit := 48%N.
Definition chr_9 : code_unit := 57%N.

Definition is_digit (c : code_unit) : bool := ((chr_0 <=? c) && (c <=? chr_9))%N.

(** [[^\s@]] *)
Definition not_ws_at (c : code_unit) : bool :=
  negb (is_ws c || (c =? chr_at)%N).

(** [[0-9\-\+\(\)\s]] *)
Definition phone_char (c : code_unit) : bool :=
  is_digit c || (c =? chr_minus)%N || (c =? chr_plus)%N
  || (c =? chr_lpar)%N || (c =? chr_rpar)%N || is_ws c.

(** [/^[^\s@]+@[^\s@]+\.[^\s@]+$/] *)
Definition email_re : Regex.re :=
  Regex.Seq (Regex.Plus (Regex.Class not_ws_at))
   (Regex.Seq (Regex.Lit chr_at)
     (Regex.Seq (Regex.Plus (Regex.Class not_ws_at))
       (Regex.Seq (Regex.Lit chr_dot)
         (Regex.Plus (Regex.Class not_ws_at))))).

(** [/^[0-9\-\+\(\)\s]{7,}$/] *)
Definition phone_re : Regex.re := Regex.AtLeast 7 (Regex.Class phone_char).

Definition isEmail (v : jsval) : bool := Regex.test email_re (ToString v).
Definition isPhone (v : jsval) : bool := Regex.test phone_re (ToString v).

(** [String(v || '').trim().slice(0, 2000)] *)
Definition sanitizeText (v : jsval) : jsstring :=
  slice0 2000 (trim (ToString (or_else v (JString [])))).

(** [String(v || '').trim().slice(0, 200)] *)
Definition sanitizeSmallText (v : jsval) : jsstring :=
  slice0 200 (trim (ToString (or_else v (JString [])))).

(** ** Numbers and [parseInt]

    [parseInt] only ever produces [NaN], an infinity, or an integer-valued
    double.  Negative zero is identified with zero: the handler cannot tell
    them apart ([??] and template strings treat both alike). *)

Module Num.

Inductive jsnumber :=
| NaN
| Infinity (negative : bool)
| Finite (z : Z).

(** The Number value of a mathematical integer: round to nearest, ties to
    even, with 53 bits of precision; magnitudes that round to [2^1024]
    overflow to an infinity. *)
Definition round_binary64 (a : Z) : Z :=
  if (a <? 2 ^ 53)%Z then a
  else
    let e := (Z.log2 a - 52)%Z in
    let q := Z.shiftr a e in
    let r := Z.land a (Z.ones e) in
    let half := Z.shiftl 1 (e - 1) in
    let q' := if (half <? r)%Z || ((r =? half)%Z && Z.odd q)
              then (q + 1)%Z else q in
    Z.shiftl q' e.

Definition Number_of_int (m : Z) : jsnumber :=
  let v := round_binary64 (Z.abs m) in
  if (v <? 2 ^ 1024)%Z then Finite (Z.sgn m * v) else Infinity (m <? 0)%Z.

Definition digit_val (c : code_unit) : Z := Z.of_N (c - chr_0).

Fixpoint take_digits (s : jsstring) : jsstring :=
  match s with
  | c :: s' => if is_digit c then c :: take_digits s' else []
  | [] => []
  end.

(** The integer written by a run of decimal digits. *)
Definition digits_value (ds : jsstring) : Z :=
  fold_left (fun acc c => (10 * acc + digit_val c)%Z) ds 0%Z.

(** [parseInt(v, 10)]: skip leading white space, read an optional sign, then
    the longest run of decimal digits; no digits gives [NaN]. *)
Definition parseInt10 (v : jsval) : jsnumber :=
  let s := drop_ws (ToString v) in
  let '(sign, s1) :=
    match s with
    | c :: s' =>
        if (c =? chr_minus)%N then ((-1)%Z, s')
        else if (c =? chr_plus)%N then (1%Z, s')
        else (1%Z, s)
    | [] => (1%Z, [])
    end in
  match take_digits s1 with
  | [] => NaN
  | ds => Number_of_int (sign * digits_value ds)
  end.

(** [Number.isFinite] *)
Definition isFinite (n : jsnumber) : bool :=
  match n with
  | Finite _ => true
  | _ => false
  end.

End Num.
Export Num.

(** [toInt(v, def)]: a number, or [def]; [None] is [null]. *)
Definition toInt (v : jsval) (def : option jsnumber) : option jsnumber :=
  let n := parseInt10 v in
  if isFinite n then Some n else def.

(** ** Dates

    A [Date] holds a time value: milliseconds since the epoch, or [NaN] for
    an invalid date ([None] here).  Calendar fields are computed from the day
    number by the usual era-based algorithm for the proleptic Gregorian
    calendar. *)

Module DateTime.

Local Open Scope Z_scope.

Definition Date := option Z.

Definition msPerDay : Z := 86400000.
Definition maxTime : Z := 8640000000000000.

(** [TimeClip] *)
Definition TimeClip (t : option Z) : Date :=
  match t with
  | Some v => if Z.abs v <=? maxTime then Some v else None
  | None => None
  end.

Definition Day (t : Z) : Z := t / msPerDay.
Definition TimeWithinDay (t : Z) : Z := t mod msPerDay.
Definition HourFromTime (t : Z) : Z := TimeWithinDay t / 3600000.
Definition MinFromTime (t : Z) : Z := (TimeWithinDay t / 60000) mod 60.
Definition SecFromTime (t : Z) : Z := (TimeWithinDay t / 1000) mod 60.
Definition msFromTime (t : Z) : Z := TimeWithinDay t mod 1000.

(** Year, month (1..12) and day of the month (1..31) of a day number.
    Days are counted within a 400-year era that starts on a 1st of March:
    [doe] is the day of the era, [yoe] the year of the era, [doy] the day of
    that year and [mp] its month, March being 0. *)
Definition yoe_of (doe : Z) : Z :=
  (doe - doe / 1460 + doe / 36524 - doe / 146096) / 365.

Definition doy_of (doe : Z) : Z :=
  let yoe := yoe_of doe in
  doe - (365 * yoe + yoe / 4 - yoe / 100).

Definition mp_of (doy : Z) : Z := (5 * doy + 2) / 153.

Definition civil_from_days (z : Z) : Z * Z * Z :=
  let z := z + 719468 in
  let era := z / 146097 in
  let doe := z - era * 146097 in
  let y := yoe_of doe + era * 400 in
  let doy := doy_of doe in
  let mp := mp_of doy in
  let d := doy - (153 * mp + 2) / 5 + 1 in
  let m := if mp <? 10 then mp + 3 else mp - 9 in
  (if m <=? 2 then y + 1 else y, m, d).

(** The day number of a calendar date ([MakeDay]). *)
Definition days_from_civil (y m d : Z) : Z :=
  let y' := if m <=? 2 then y - 1 else y in
  let era := y' / 400 in
  let yoe := y' - era * 400 in
  let mp := if 2 <? m then m - 3 else m + 9 in
  let doy := (153 * mp + 2) / 5 + d - 1 in
  let doe := yoe * 365 + yoe / 4 - yoe / 100 + doy in
  era * 146097 + doe - 719468.

Definition is_leap (y : Z) : bool :=
  ((y mod 4 =? 0) && negb (y mod 100 =? 0)) || (y mod 400 =? 0).

Definition days_in_month (y m : Z) : Z :=
  if m =? 2 then (if is_leap y then 29 else 28)
  else if (m =? 4) || (m =? 6) || (m =? 9) || (m =? 11) then 30
  else 31.

(** [MakeDate(MakeDay(y, m, d), MakeTime(h, mi, s, ms))] *)
Definition make_time (y m d h mi s ms : Z) : Z :=
  days_from_civil y m d * msPerDay + h * 3600000 + mi * 60000 + s * 1000 + ms.

Definition digit_chr (d : Z) : code_unit := (chr_0 + Z.to_N d)%N.

(** [String(n).padStart(w, '0')] for [0 <= n < 10^w]. *)
Fixpoint pad_acc (w : nat) (n : Z) (acc : jsstring) : jsstring :=
  match w with
  | O => acc
  | S w' => pad_acc w' (n / 10) (digit_chr (n mod 10) :: acc)
  end.

Definition pad (w : nat) (n : Z) : jsstring := pad_acc w n [].

(** The year of the ISO format: four digits, or a sign and six digits
    outside 0..9999. *)
Definition iso_year (y : Z) : jsstring :=
  if (0 <=? y) && (y <=? 9999) then pad 4 y
  else (if y <? 0 then chr_minus else chr_plus) :: pad 6 (Z.abs y).

(** [Date.prototype.toISOString] on a valid time value. *)
Definition iso_of_time (t : Z) : jsstring :=
  let '(y, m, d) := civil_from_days (Day t) in
  iso_year y ++ str "-" ++ pad 2 m ++ str "-" ++ pad 2 d ++ str "T"
  ++ pad 2 (HourFromTime t) ++ str ":" ++ pad 2 (MinFromTime t) ++ str ":"
  ++ pad 2 (SecFromTime t) ++ str "." ++ pad 3 (msFromTime t) ++ str "Z".

(** *** Reading fixed-width fields *)

Fixpoint read_digits (w : nat) (acc : Z) (s : jsstring) : option (Z * jsstring) :=
  match w with
  | O => Some (acc, s)
  | S w' =>
      match s with
      | c :: s' =>
          if is_digit c then read_digits w' (10 * acc + digit_val c) s'
          else None
      | [] => None
      end
  end.

Definition expect (c : code_unit) (s : jsstring) : option jsstring :=
  match s with
  | c' :: s' => if (c =? c')%N then Some s' else None
  | [] => None
  end.

Definition obind {A B} (o : option A) (f : A -> option B) : option B :=
  match o with
  | Some a => f a
  | None => None
  end.

Notation "' p <- c1 ;; c2" := (obind c1 (fun p => c2))
  (at level 61, p pattern, c1 at next level, right associativity).
Notation "x <- c1 ;; c2" := (obind c1 (fun x => c2))
  (at level 61, c1 at next level, right associativity).

Definition read_year (s : jsstring) : option (Z * jsstring) :=
  match s with
  | c :: s' =>
      if (c =? chr_plus)%N then read_digits 6 0 s'
      else if (c =? chr_minus)%N then
        '(y, r) <- read_digits 6 0 s' ;;
        (* "-000000" is not a valid year *)
        if y =? 0 then None else Some (- y, r)
      else read_digits 4 0 s
  | [] => None
  end.

(** The part of [Date.parse] that the language fixes exactly: the
    date-time format with milliseconds and the UTC designator,
    [YYYY-MM-DDTHH:mm:ss.sssZ] (or an expanded year), with every field in
    range.  Anything else is left to the host's parser. *)
Definition parse_iso_utc (s : jsstring) : option Z :=
  '(y, s) <- read_year s ;;
  s <- expect chr_minus s ;;
  '(m, s) <- read_digits 2 0 s ;;
  s <- expect chr_minus s ;;
  '(d, s) <- read_digits 2 0 s ;;
  s <- expect 84%N s ;;
  '(h, s) <- read_digits 2 0 s ;;
  s <- expect 58%N s ;;
  '(mi, s) <- read_digits 2 0 s ;;
  s <- expect 58%N s ;;
  '(sec, s) <- read_digits 2 0 s ;;
  s <- expect chr_dot s ;;
  '(ms, s) <- read_digits 3 0 s ;;
  s <- expect 90%N s ;;
  match s with
  | [] =>
      if (1 <=? m) && (m <=? 12) && (1 <=? d) && (d <=? days_in_month y m)
         && (h <=? 23) && (mi <=? 59) && (sec <=? 59)
      then TimeClip (Some (make_time y m d h mi sec ms))
      else None
  | _ :: _ => None
  end.

(** The calendar format written by [toICSDate], [YYYYMMDDTHHMMSSZ], read
    back as seconds since the epoch. *)
Definition ics_seconds (s : jsstring) : option Z :=
  '(y, s) <- read_digits 4 0 s ;;
  '(m, s) <- read_digits 2 0 s ;;
  '(d, s) <- read_digits 2 0 s ;;
  s <- expect 84%N s ;;
  '(h, s) <- read_digits 2 0 s ;;
  '(mi, s) <- read_digits 2 0 s ;;
  '(sec, s) <- read_digits 2 0 s ;;
  s <- expect 90%N s ;;
  match s with
  | [] =>
      if (1 <=? m) && (m <=? 12) && (1 <=? d) && (d <=? days_in_month y m)
         && (h <=? 23) && (mi <=? 59) && (sec <=? 59)
      then Some (days_from_civil y m d * 86400 + h * 3600 + mi * 60 + sec)
      else None
  | _ :: _ => None
  end.

(** The first instant of year 0 and of year 10000. *)
Definition time_year_0 : Z := -62167219200000.
Definition time_year_10000 : Z := 253402300800000.

End DateTime.
Export DateTime.

(** ** The world of the handler

    The booking table, the mail transport, the console and the clock are
    outside the program.  The table is part of the state; what the host does
    (whether an insert or a send succeeds, what the clock reads, how the
    host's [Date.parse] reads a string that is not in the exact ISO format)
    is a parameter.  Every effect is recorded in a log, in order. *)

Module World.

(** A row of the [bookings] table; nullable columns are options. *)
Record row := {
  r_id : Z;
  r_name : jsstring;
  r_email : jsstring;
  r_phone : jsstring;
  r_address : jsstring;
  r_serviceType : jsstring;
  r_sqft : option jsnumber;
  r_preferredDate : jsstring;
  r_preferredTime : jsstring;
  r_notes : option jsstring;
  r_createdAt : jsstring
}.

Record attachment := {
  a_filename : jsstring;
  a_content : jsstring;
  a_contentType : jsstring
}.

Record mail := {
  m_from : jsval;
  m_to : jsval;
  m_subject : jsstring;
  m_text : jsstring;
  m_attachments : list attachment
}.

Record transporter := {
  t_host : jsval;
  t_port : jsnumber;
  t_secure : bool;
  t_user : jsval;
  t_pass : jsval
}.

Inductive exn :=
| StorageError
| MailError
| RangeError.

Inductive event :=
| Inserted (r : row)       (* [db.run] resolved *)
| InsertFailed             (* [db.run] rejected *)
| MailSent (m : mail)      (* [sendMail] resolved *)
| MailFailed (m : mail)    (* [sendMail] rejected *)
| Warned (msg : jsstring)  (* [console.warn] *)
| ErrorLogged (e : exn).   (* [console.error] *)

(** [process.env] *)
Record process_env := {
  BRAND_NAME_var : option jsstring;
  SMTP_HOST : option jsstring;
  SMTP_PORT : option jsstring;
  SMTP_USER : option jsstring;
  SMTP_PASS : option jsstring;
  TO_EMAIL : option jsstring;
  FROM_EMAIL : option jsstring
}.

Record host := {
  h_env : process_env;
  (** the [k]-th reading of the system clock, in milliseconds *)
  h_clock : nat -> Z;
  (** [Date.parse] on strings outside the exact ISO-with-[Z] format *)
  h_Date_parse : jsstring -> option Z;
  (** [String(n)] for [|n| >= 10^21] (exponent notation) *)
  h_Number_toString : Z -> jsstring;
  (** does the insert of this row into this table succeed? *)
  h_db_ok : list row -> row -> bool;
  (** does the transport deliver this mail? *)
  h_send_ok : transporter -> mail -> bool
}.

Record world := {
  w_db : list row;
  w_log : list event;
  w_reads : nat
}.

Inductive result (A : Type) :=
| Ok (a : A)
| Throw (e : exn).
Arguments Ok {A} a.
Arguments Throw {A} e.

Definition M (A : Type) := world -> result A * world.

Definition ret {A} (a : A) : M A := fun w => (Ok a, w).

Definition bind {A B} (m : M A) (f : A -> M B) : M B :=
  fun w =>
    match m w with
    | (Ok a, w') => f a w'
    | (Throw e, w') => (Throw e, w')
    end.

Definition throw {A} (e : exn) : M A := fun w => (Throw e, w).

(** [try { m } catch (err) { h(err) }] *)
Definition try_catch {A} (m : M A) (h : exn -> M A) : M A :=
  fun w =>
    match m w with
    | (Ok a, w') => (Ok a, w')
    | (Throw e, w') => h e w'
    end.

Definition emit (ev : event) : M unit :=
  fun w => (Ok tt, {| w_db := w_db w; w_log := w_log w ++ [ev];
                      w_reads := w_reads w |}).

Declare Scope js_scope.
Delimit Scope js_scope with js.
Notation "x <- c1 ;; c2" := (bind c1 (fun x => c2))
  (at level 61, c1 at next level, right associativity) : js_scope.
Notation "c1 ;; c2" := (bind c1 (fun _ => c2))
  (at level 61, right associativity) : js_scope.

End World.
Export World.

Module Server.

Local Open Scope js_scope.

Section WithHost.

Variable h : host.

(** *** Host operations *)

(** [Date.now()] *)
Definition Date_now : M Z :=
  fun w => (Ok (h_clock h (w_reads w)),
            {| w_db := w_db w; w_log := w_log w; w_reads := S (w_reads w) |}).

(** [new Date(t)] for a number *)
Definition Date_of_value (t : option Z) : Date := TimeClip t.

(** [new Date(s)] for a string *)
Definition Date_of_string (s : jsstring) : Date :=
  match parse_iso_utc s with
  | Some t => Some t
  | None => TimeClip (h_Date_parse h s)
  end.

(** [d.getTime()]; [None] is [NaN] *)
Definition getTime (d : Date) : option Z := d.

(** [d.toISOString()]: a [RangeError] on an invalid date *)
Definition toISOString (d : Date) : M jsstring :=
  match d with
  | Some t => ret (iso_of_time t)
  | None => throw RangeError
  end.

(** [String(n)] for an integer-valued number.  Below [2 ^ 53] every integer
    is a Number and is printed with its own digits; a larger one is printed
    with the shortest digits that read back as the same Number, which is left
    to the host. *)
Definition Number_toString (n : Z) : jsstring :=
  if (Z.abs n <? 2 ^ 53)%Z
  then str (DecimalString.NilZero.string_of_int (Z.to_int n))
  else h_Number_toString h n.

Definition console_warn (msg : jsstring) : M unit := emit (Warned msg).
Definition console_error (e : exn) : M unit := emit (ErrorLogged e).

Definition next_id (db : list row) : Z :=
  (1 + fold_right (fun r acc => Z.max (r_id r) acc) 0 db)%Z.

(** [await db.run('INSERT INTO bookings (...) VALUES (?, ...)', params)] *)
Definition db_run_insert
    (name email phone address serviceType : jsstring)
    (sqft : option jsnumber)
    (preferredDate preferredTime notes createdAt : jsstring) : M unit :=
  fun w =>
    let r := {| r_id := next_id (w_db w);
                r_name := name; r_email := email; r_phone := phone;
                r_address := address; r_serviceType := serviceType;
                r_sqft := sqft;
                r_preferredDate := preferredDate;
                r_preferredTime := preferredTime;
                r_notes := Some notes; r_createdAt := createdAt |} in
    if h_db_ok h (w_db w) r
    then (Ok tt, {| w_db := w_db w ++ [r];
                    w_log := w_log w ++ [Inserted r];
                    w_reads := w_reads w |})
    else (Throw StorageError,
          {| w_db := w_db w; w_log := w_log w ++ [InsertFailed];
             w_reads := w_reads w |}).

(** [await transporter.sendMail(m)] *)
Definition sendMail (t : transporter) (m : mail) : M unit :=
  if h_send_ok h t m then emit (MailSent m)
  else (emit (MailFailed m) ;; throw MailError).

(** *** Configuration *)

Definition BRAND_NAME : jsstring :=
  ToString (or_else (of_option (BRAND_NAME_var (h_env h)))
                    (JString (str "Pressure Washing"))).

(** ToBoolean on a number *)
Definition number_truthy (n : jsnumber) : bool :=
  match n with
  | Finite z => negb (z =? 0)%Z
  | Infinity _ => true
  | NaN => false
  end.

Definition number_eqb (n : jsnumber) (z : Z) : bool :=
  match n with
  | Finite z' => (z' =? z)%Z
  | _ => false
  end.

Definition getTransporter : M transporter :=
  let host := of_option (SMTP_HOST (h_env h)) in
  let port := parseInt10 (or_else (of_option (SMTP_PORT (h_env h)))
                                  (JString (str "587"))) in
  let user := of_option (SMTP_USER (h_env h)) in
  let pass := of_option (SMTP_PASS (h_env h)) in
  (if falsy host || negb (number_truthy port) || falsy user || falsy pass
   then console_warn
          (str "SMTP environment variables missing. Email will fail without them.")
   else ret tt) ;;
  ret {| t_host := host; t_port := port; t_secure := number_eqb port 465;
         t_user := user; t_pass := pass |}.

(** *** The calendar attachment *)

Definition lf : jsstring := [10%N].
Definition crlf : jsstring := [13%N; 10%N].
Definition em_dash : jsstring := [8212%N].

(** [s.replace(/[-:]/g, '')] *)
Definition strip_punct (s : jsstring) : jsstring :=
  filter (fun c => negb ((c =? chr_minus)%N || (c =? 58)%N)) s.

(** [s.split('.')[0]] *)
Fixpoint before_dot (s : jsstring) : jsstring :=
  match s with
  | c :: s' => if (c =? chr_dot)%N then [] else c :: before_dot s'
  | [] => []
  end.

(** [s.replace(/\n/g, '\\n')] *)
Definition escape_newlines (s : jsstring) : jsstring :=
  flat_map (fun c => if (c =? 10)%N then [92%N; 110%N] else [c]) s.

(** [toICSDate]: ISO to the basic UTC format [YYYYMMDDTHHMMSSZ] *)
Definition toICSDate (iso : jsstring) : M jsstring :=
  s <- toISOString (Date_of_string iso) ;;
  ret (before_dot (strip_punct s) ++ str "Z").

Record ics_args := {
  summary : jsstring;
  description : jsstring;
  startISO : jsstring;
  endISO : jsstring
}.

(** The lines of the calendar, before they are joined. *)
Definition ics_lines (uid dtstamp dtstart dtend : jsstring) (a : ics_args)
  : list jsstring :=
  [ str "BEGIN:VCALENDAR";
    str "VERSION:2.0";
    str "PRODID:-//PressureWash//Booking//EN";
    str "CALSCALE:GREGORIAN";
    str "METHOD:PUBLISH";
    str "BEGIN:VEVENT";
    str "UID:" ++ uid;
    str "DTSTAMP:" ++ dtstamp;
    str "DTSTART:" ++ dtstart;
    str "DTEND:" ++ dtend;
    str "SUMMARY:" ++ summary a;
    str "DESCRIPTION:" ++ escape_newlines (description a);
    str "END:VEVENT";
    str "END:VCALENDAR" ].

Definition buildICS (a : ics_args) : M jsstring :=
  now <- Date_now ;;
  let uid := str "booking-" ++ Number_toString now ++ str "@pressurewash" in
  now' <- Date_now ;;
  stamp <- toISOString (Date_of_value (Some now')) ;;
  dtstamp <- toICSDate stamp ;;
  dtstart <- toICSDate (startISO a) ;;
  dtend <- toICSDate (endISO a) ;;
  ret (join crlf (ics_lines uid dtstamp dtstart dtend a)).

(** *** [POST /api/bookings] *)

(** [req.body], destructured *)
Record body := {
  name : jsval;
  email : jsval;
  phone : jsval;
  address : jsval;
  serviceType : jsval;
  sqft : jsval;
  preferredDate : jsval;
  preferredTime : jsval;
  notes : jsval;
  website : jsval  (* honeypot *)
}.

(** [{}] *)
Definition empty_body : body :=
  {| name := JUndefined; email := JUndefined; phone := JUndefined;
     address := JUndefined; serviceType := JUndefined; sqft := JUndefined;
     preferredDate := JUndefined; preferredTime := JUndefined;
     notes := JUndefined; website := JUndefined |}.

Record clean_booking := {
  clean_name : jsstring;
  clean_email : jsstring;
  clean_phone : jsstring;
  clean_address : jsstring;
  clean_serviceType : jsstring;
  clean_sqft : option jsnumber;
  clean_preferredDate : jsstring;
  clean_preferredTime : jsstring;
  clean_notes : jsstring
}.

Definition sanitize (b : body) : clean_booking :=
  {| clean_name := sanitizeSmallText (name b);
     clean_email := sanitizeSmallText (email b);
     clean_phone := sanitizeSmallText (phone b);
     clean_address := sanitizeText (address b);
     clean_serviceType := sanitizeSmallText (serviceType b);
     clean_sqft := toInt (sqft b) None;
     clean_preferredDate := sanitizeSmallText (preferredDate b);
     clean_preferredTime := sanitizeSmallText (preferredTime b);
     clean_notes := sanitizeText (notes b) |}.

Record response := {
  status : Z;
  ok : bool;
  message : option jsstring;
  error : option jsstring
}.

(** [res.status(st).json({ ok: true, message: msg })] *)
Definition json_ok (st : Z) (msg : string) : response :=
  {| status := st; ok := true; message := Some (str msg); error := None |}.

(** [res.status(st).json({ ok: false, error: msg })] *)
Definition json_error (st : Z) (msg : string) : response :=
  {| status := st; ok := false; message := None; error := Some (str msg) |}.

(** [String(n)] *)
Definition jsnumber_toString (n : jsnumber) : jsstring :=
  match n with
  | Finite z => Number_toString z
  | Infinity neg => if neg then str "-Infinity" else str "Infinity"
  | NaN => str "NaN"
  end.

Definition nonempty (s : jsstring) : bool :=
  match s with [] => false | _ :: _ => true end.

Definition description_of (c : clean_booking) : jsstring :=
  join lf (filter nonempty
    [ str "Name: " ++ clean_name c;
      str "Email: " ++ clean_email c;
      str "Phone: " ++ clean_phone c;
      str "Address: " ++ clean_address c;
      str "Service: " ++ clean_serviceType c;
      str "Sq Ft: " ++ match clean_sqft c with
                       | Some n => jsnumber_toString n
                       | None => str "N/A"
                       end;
      str "Preferred: " ++ clean_preferredDate c ++ str " "
        ++ clean_preferredTime c;
      if nonempty (clean_notes c) then str "Notes: " ++ clean_notes c else [] ]).

Definition ics_attachment (ics : jsstring) : attachment :=
  {| a_filename := str "booking.ics"; a_content := ics;
     a_contentType := str "text/calendar" |}.

Definition ownerMail_of (c : clean_booking) (fromEmail toEmail : jsval)
    (descr ics : jsstring) : mail :=
  {| m_from := fromEmail;
     m_to := toEmail;
     m_subject := str "New Booking " ++ em_dash ++ str " " ++ clean_name c
                  ++ str " " ++ em_dash ++ str " " ++ clean_serviceType c;
     m_text := descr;
     m_attachments := [ics_attachment ics] |}.

Definition customerMail_of (c : clean_booking) (fromEmail : jsval)
    (ics : jsstring) : mail :=
  {| m_from := fromEmail;
     m_to := JString (clean_email c);
     m_subject := str "Thanks! We received your request " ++ em_dash
                  ++ str " " ++ BRAND_NAME;
     m_text := str "Hi " ++ clean_name c ++ str "," ++ lf ++ lf
               ++ str "Thanks for reaching out to " ++ BRAND_NAME ++ str "!"
               ++ lf ++ lf
               ++ str "We have your request for " ++ clean_serviceType c
               ++ str " at " ++ clean_address c ++ str " on "
               ++ clean_preferredDate c ++ str " at " ++ clean_preferredTime c
               ++ str ". We'll confirm shortly." ++ lf ++ lf
               ++ em_dash ++ str " " ++ BRAND_NAME;
     m_attachments := [ics_attachment ics] |}.

(** The honeypot test: [website && website.trim() !== ''] *)
Definition honeypot_filled (b : body) : bool :=
  truthy (website b) && negb (jsstring_eqb (trim (ToString (website b))) []).

(** [!name || !email || !phone || !address || !serviceType ||
     !preferredDate || !preferredTime] *)
Definition missing_required (b : body) : bool :=
  falsy (name b) || falsy (email b) || falsy (phone b) || falsy (address b)
  || falsy (serviceType b) || falsy (preferredDate b)
  || falsy (preferredTime b).

(** [appointmentStart] and [appointmentEnd] *)
Definition appointmentStart_of (c : clean_booking) : Date :=
  Date_of_string (clean_preferredDate c ++ str "T" ++ clean_preferredTime c
                  ++ str ":00").

Definition appointmentEnd_of (appointmentStart : Date) : Date :=
  Date_of_value
    (option_map (fun t => (t + 60 * 60 * 1000)%Z) (getTime appointmentStart)).

(** The two mails: the owner's notification, when [TO_EMAIL] is set, then
    the customer's confirmation. *)
Definition deliver (clean : clean_booking) (description ics : jsstring)
  : M response :=
  transporter <- getTransporter ;;
  let toEmail := of_option (TO_EMAIL (h_env h)) in
  let fromEmail := or_else (of_option (FROM_EMAIL (h_env h)))
                           (of_option (SMTP_USER (h_env h))) in
  let ownerMail := ownerMail_of clean fromEmail toEmail description ics in
  let customerMail := customerMail_of clean fromEmail ics in
  (if falsy toEmail
   then console_warn (str "TO_EMAIL not set " ++ em_dash
                      ++ str " skipping owner notification")
   else sendMail transporter ownerMail) ;;
  (if isEmail (JString (clean_email clean))
   then sendMail transporter customerMail
   else ret tt) ;;
  ret (json_ok 200 "Booking received.").

(** What follows the insert: the calendar, then the mails. *)
Definition notify (clean : clean_booking) : M response :=
  let appointmentStart := appointmentStart_of clean in
  let appointmentEnd := appointmentEnd_of appointmentStart in
  let summary := BRAND_NAME ++ str " " ++ em_dash ++ str " "
                 ++ clean_serviceType clean in
  let description := description_of clean in
  startISO <- toISOString appointmentStart ;;
  endISO <- toISOString appointmentEnd ;;
  ics <- buildICS {| summary := summary; description := description;
                     startISO := startISO; endISO := endISO |} ;;
  deliver clean description ics.

(** The body of the [try] block. *)
Definition handle (req_body : option body) : M response :=
  let b := match req_body with Some b => b | None => empty_body end in
  if honeypot_filled b then ret (json_ok 200 "Thanks!")
  else if missing_required b
  then ret (json_error 400 "Missing required fields.")
  else if negb (isEmail (email b))
  then ret (json_error 400 "Invalid email address.")
  else if negb (isPhone (phone b))
  then ret (json_error 400 "Invalid phone number.")
  else
    let clean := sanitize b in
    now <- Date_now ;;
    createdAt <- toISOString (Date_of_value (Some now)) ;;
    db_run_insert (clean_name clean) (clean_email clean) (clean_phone clean)
      (clean_address clean) (clean_serviceType clean) (clean_sqft clean)
      (clean_preferredDate clean) (clean_preferredTime clean)
      (clean_notes clean) createdAt ;;
    notify clean.

(** [app.post('/api/bookings', async (req, res) => { try ... catch ... })] *)
Definition post_bookings (req_body : option body) : M response :=
  try_catch (handle req_body)
    (fun err => console_error err ;; ret (json_error 500 "Server error.")).

End WithHost.

(** Running one request against a table. *)
Definition initial_world (db : list row) : world :=
  {| w_db := db; w_log := []; w_reads := 0 |}.

Definition serve (h : host) (db : list row) (req_body : option body)
  : result response * world :=
  post_bookings h req_body (initial_world db).

End Server.
Export Server.

(** ** The specification's vocabulary

    The definitions of this module follow the words of the specification, not
    the code; the properties below compare them with the code. *)

Module SpecWords.

(** "missing or empty after trimming" *)
Definition blank (v : jsval) : bool :=
  match v with
  | JUndefined => true
  | JString s => jsstring_eqb (trim s) []
  end.

(** "missing or empty" *)
Definition absent_or_empty (v : jsval) : bool :=
  match v with
  | JUndefined => true
  | JString s => jsstring_eqb s []
  end.

(** "name, email, phone, address, serviceType, preferredDate,
    preferredTime" *)
Definition required_fields (b : body) : list jsval :=
  [name b; email b; phone b; address b; serviceType b; preferredDate b;
   preferredTime b].

(** "a local part free of whitespace and @, then @, then a non-whitespace
    domain containing a dot", read at every position of an "@". *)
Definition email_shape_at (s : jsstring) (i : nat) : bool :=
  let local := firstn i s in
  match skipn i s with
  | c :: domain =>
      (c =? chr_at)%N
      && nonempty local
      && forallb (fun x => negb (is_ws x) && negb (x =? chr_at)%N) local
      && forallb (fun x => negb (is_ws x)) domain
      && existsb (N.eqb chr_dot) domain
  | [] => false
  end.

Definition email_shape (s : jsstring) : bool :=
  existsb (email_shape_at s) (seq 0 (List.length s)).

(** "at least 7 characters drawn from digits, hyphen, plus, parentheses,
    spaces" *)
Definition phone_shape (s : jsstring) : bool :=
  (7 <=? List.length s)%nat
  && forallb (fun c => is_digit c || (c =? chr_minus)%N || (c =? chr_plus)%N
                       || (c =? chr_lpar)%N || (c =? chr_rpar)%N
                       || (c =? 32)%N) s.

(** "numeric input": a decimal numeral, that is an optional sign, one or
    more digits and an optional fraction, possibly surrounded by white
    space. *)
Definition numeric (s : jsstring) : bool :=
  let s0 := trim s in
  let s1 := match s0 with
            | c :: s' =>
                if (c =? chr_minus)%N || (c =? chr_plus)%N then s' else s0
            | [] => []
            end in
  let ds := take_digits s1 in
  nonempty ds
  && match skipn (List.length ds) s1 with
     | [] => true
     | c :: frac => (c =? chr_dot)%N && forallb is_digit frac
     end.

(** "parses sqft as an integer": the input starts, after optional white
    space, with an optional sign and a run of decimal digits [ds] that ends
    where [rest] begins. *)
Definition starts_with_digit (s : jsstring) : bool :=
  match s with
  | c :: _ => is_digit c
  | [] => false
  end.

Definition integer_prefix (s sign ds rest : jsstring) : Prop :=
  exists ws,
    s = ws ++ sign ++ ds ++ rest
    /\ forallb is_ws ws = true
    /\ (sign = [] \/ sign = [chr_plus] \/ sign = [chr_minus])
    /\ ds <> [] /\ forallb is_digit ds = true
    /\ starts_with_digit rest = false.

Definition sign_value (sign : jsstring) : Z :=
  if jsstring_eqb sign [chr_minus] then (-1)%Z else 1%Z.

(** What is stored for a number: the integer when it is finite, else null. *)
Definition stored (n : jsnumber) : option jsnumber :=
  match n with
  | Finite z => Some (Finite z)
  | _ => None
  end.

(** "the calendar payload's start time", "end time": the calendar is read
    line by line, a line ending where a carriage return and a line feed
    follow each other; the values of a property are what follows its name
    and a colon, on every line that starts with them. *)
Definition add_to_first (c : code_unit) (ls : list jsstring) : list jsstring :=
  match ls with
  | l :: ls' => (c :: l) :: ls'
  | [] => [[c]]
  end.

Fixpoint split_crlf (s : jsstring) : list jsstring :=
  match s with
  | [] => [[]]
  | c :: s' =>
      match s' with
      | d :: s'' =>
          if (c =? 13)%N && (d =? 10)%N then [] :: split_crlf s''
          else add_to_first c (split_crlf s')
      | [] => [[c]]
      end
  end.

Fixpoint strip_prefix (p s : jsstring) : option jsstring :=
  match p with
  | [] => Some s
  | a :: p' =>
      match s with
      | b :: s' => if (a =? b)%N then strip_prefix p' s' else None
      | [] => None
      end
  end.

Definition property_values (name : string) (text : jsstring)
  : list jsstring :=
  flat_map (fun l => match strip_prefix (str name ++ str ":") l with
                     | Some v => [v]
                     | None => []
                     end)
           (split_crlf text).

End SpecWords.
Export SpecWords.

(** ** Runs of the handler

    Names for what the properties say about a run: the events of its log,
    the row it inserts, the calendar it builds, the worlds it goes through. *)

Module Runs.

(** A mail that the handler tried to send, delivered or not. *)
Definition mail_of_event (ev : event) : option mail :=
  match ev with
  | MailSent m => Some m
  | MailFailed m => Some m
  | _ => None
  end.

Definition is_mail_event (ev : event) : bool :=
  match mail_of_event ev with Some _ => true | None => false end.

(** [toICSDate] of a valid time value. *)
Definition ics_of_time (t : Z) : jsstring :=
  before_dot (strip_punct (iso_of_time t)) ++ str "Z".

(** A submission that passes every check of the handler. *)
Definition valid_submission (b : body) : bool :=
  negb (honeypot_filled b) && negb (missing_required b)
  && isEmail (email b) && isPhone (phone b).

(** The row that the handler inserts for a submission. *)
Definition booking_row (h : host) (db : list row) (b : body) : row :=
  let clean := sanitize b in
  {| r_id := next_id db;
     r_name := clean_name clean; r_email := clean_email clean;
     r_phone := clean_phone clean; r_address := clean_address clean;
     r_serviceType := clean_serviceType clean; r_sqft := clean_sqft clean;
     r_preferredDate := clean_preferredDate clean;
     r_preferredTime := clean_preferredTime clean;
     r_notes := Some (clean_notes clean);
     r_createdAt := iso_of_time (h_clock h 0) |}.

(** The [k]-th reading of the clock is a valid time value. *)
Definition clock_ok (h : host) (k : nat) : Prop :=
  (Z.abs (h_clock h k) <= maxTime)%Z.

Definition is_mail_failure (ev : event) : bool :=
  match ev with
  | MailFailed _ => true
  | _ => false
  end.

(** The world after [n] more readings of the clock. *)
Definition advance (n : nat) (w : world) : world :=
  {| w_db := w_db w; w_log := w_log w; w_reads := n + w_reads w |}.

(** The world after more events. *)
Definition logged (l : list event) (w : world) : world :=
  {| w_db := w_db w; w_log := w_log w ++ l; w_reads := w_reads w |}.

(** The answer of the [catch] clause. *)
Definition server_error : response := json_error 500 "Server error.".

(** The [catch] clause: log the error, answer 500. *)
Definition caught (p : result response * world) : result response * world :=
  match p with
  | (Ok r, w) => (Ok r, w)
  | (Throw e, w) => (Ok server_error, logged [ErrorLogged e] w)
  end.

(** [req.body || {}] *)
Definition body_of (req : option body) : body :=
  match req with Some b => b | None => empty_body end.

(** The world just after the insert. *)
Definition inserted (db : list row) (r : row) : world :=
  {| w_db := db ++ [r]; w_log := [Inserted r]; w_reads := 1 |}.

(** What [deliver] may log: warnings, and mails that carry the calendar. *)
Definition deliver_event (ics : jsstring) (ev : event) : Prop :=
  match ev with
  | Warned _ => True
  | MailSent m | MailFailed m => m_attachments m = [ics_attachment ics]
  | _ => False
  end.

(** The calendar built for a booking whose appointment starts at [t]. *)
Definition booking_ics (h : host) (clean : clean_booking) (t : Z) (w : world)
  : jsstring :=
  join crlf
    (ics_lines
       (str "booking-" ++ Number_toString h (h_clock h (w_reads w))
        ++ str "@pressurewash")
       (ics_of_time (h_clock h (S (w_reads w))))
       (ics_of_time t) (ics_of_time (t + 60 * 60 * 1000))
       {| summary := BRAND_NAME h ++ str " " ++ em_dash ++ str " "
                     ++ clean_serviceType clean;
          description := description_of h clean;
          startISO := iso_of_time t;
          endISO := iso_of_time (t + 60 * 60 * 1000) |}).

End Runs.
Export Runs.

(** ** Sample hosts and submissions *)

Module Samples.

Local Open Scope Z_scope.

(** A host whose local time is UTC reads [YYYY-MM-DDTHH:mm:ss]. *)
Definition parse_local_utc (s : jsstring) : option Z :=
  DateTime.obind (read_digits 4 0 s) (fun '(y, s) =>
  DateTime.obind (expect chr_minus s) (fun s =>
  DateTime.obind (read_digits 2 0 s) (fun '(m, s) =>
  DateTime.obind (expect chr_minus s) (fun s =>
  DateTime.obind (read_digits 2 0 s) (fun '(d, s) =>
  DateTime.obind (expect 84%N s) (fun s =>
  DateTime.obind (read_digits 2 0 s) (fun '(hh, s) =>
  DateTime.obind (expect 58%N s) (fun s =>
  DateTime.obind (read_digits 2 0 s) (fun '(mi, s) =>
  DateTime.obind (expect 58%N s) (fun s =>
  DateTime.obind (read_digits 2 0 s) (fun '(sec, s) =>
  match s with
  | [] => Some (make_time y m d hh mi sec 0)
  | _ :: _ => None
  end))))))))))).

Definition sample_env : process_env :=
  {| BRAND_NAME_var := None;
     SMTP_HOST := Some (str "smtp.example.com");
     SMTP_PORT := None;
     SMTP_USER := Some (str "mailer@example.com");
     SMTP_PASS := Some (str "secret");
     TO_EMAIL := Some (str "owner@example.com");
     FROM_EMAIL := None |}.

Definition sample_host (db_ok : bool) (send_ok : mail -> bool) : host :=
  {| h_env := sample_env;
     h_clock := fun k => 1748700000000 + Z.of_nat k;
     h_Date_parse := parse_local_utc;
     h_Number_toString := fun _ => [];
     h_db_ok := fun _ _ => db_ok;
     h_send_ok := fun _ m => send_ok m |}.

Definition good_host : host := sample_host true (fun _ => true).
Definition smtp_down_host : host := sample_host true (fun _ => false).
Definition db_down_host : host := sample_host false (fun _ => true).

(** A host without [TO_EMAIL]. *)
Definition no_owner_host : host :=
  {| h_env := {| BRAND_NAME_var := None;
                 SMTP_HOST := Some (str "smtp.example.com");
                 SMTP_PORT := None;
                 SMTP_USER := Some (str "mailer@example.com");
                 SMTP_PASS := Some (str "secret");
                 TO_EMAIL := None;
                 FROM_EMAIL := None |};
     h_clock := h_clock good_host;
     h_Date_parse := h_Date_parse good_host;
     h_Number_toString := h_Number_toString good_host;
     h_db_ok := h_db_ok good_host;
     h_send_ok := h_send_ok good_host |}.

(** The example submission of the specification. *)
Definition jo : body :=
  {| name := JString (str "Jo");
     email := JString (str "jo@x.com");
     phone := JString (str "555-1212");
     address := JString (str "1 Main St");
     serviceType := JString (str "Driveway");
     sqft := JUndefined;
     preferredDate := JString (str "2025-06-01");
     preferredTime := JString (str "09:00");
     notes := JUndefined;
     website := JUndefined |}.

Definition with_name (v : jsval) (b : body) : body :=
  {| name := v; email := email b; phone := phone b; address := address b;
     serviceType := serviceType b; sqft := sqft b;
     preferredDate := preferredDate b; preferredTime := preferredTime b;
     notes := notes b; website := website b |}.

Definition with_email (v : jsval) (b : body) : body :=
  {| name := name b; email := v; phone := phone b; address := address b;
     serviceType := serviceType b; sqft := sqft b;
     preferredDate := preferredDate b; preferredTime := preferredTime b;
     notes := notes b; website := website b |}.

Definition with_phone (v : jsval) (b : body) : body :=
  {| name := name b; email := email b; phone := v; address := address b;
     serviceType := serviceType b; sqft := sqft b;
     preferredDate := preferredDate b; preferredTime := preferredTime b;
     notes := notes b; website := website b |}.

Definition with_website (v : jsval) (b : body) : body :=
  {| name := name b; email := email b; phone := phone b; address := address b;
     serviceType := serviceType b; sqft := sqft b;
     preferredDate := preferredDate b; preferredTime := preferredTime b;
     notes := notes b; website := v |}.

(** A bot: the honeypot is filled and the name is missing. *)
Definition spam_bot : body :=
  with_website (JString (str "http://spam.biz")) (with_name JUndefined jo).

(** A submission whose date cannot be read. *)
Definition jo_tomorrow : body :=
  {| name := name jo; email := email jo; phone := phone jo;
     address := address jo; serviceType := serviceType jo; sqft := sqft jo;
     preferredDate := JString (str "tomorrow");
     preferredTime := preferredTime jo; notes := notes jo;
     website := website jo |}.

(** An appointment in the last half hour of the year 9999. *)
Definition jo_9999 : body :=
  {| name := name jo; email := email jo; phone := phone jo;
     address := address jo; serviceType := serviceType jo; sqft := sqft jo;
     preferredDate := JString (str "9999-12-31");
     preferredTime := JString (str "23:30"); notes := notes jo;
     website := website jo |}.

End Samples.
Export Samples.

(** ** The health endpoint *)

Module Health.

(** [{ ok: true, brand: BRAND_NAME }] *)
Record health_body := {
  health_ok : bool;
  brand : jsstring
}.

(** [app.get('/api/health', (req, res) => res.json(...))] *)
Definition get_health (h : host) : health_body :=
  {| health_ok := true; brand := BRAND_NAME h |}.

End Health.
Export Health.

(** ** The form page, [public/app.js]

    The submit listener, as the list of what it does to the page, in order.
    The payload is the object built from the form entries; what [fetch] and
    [res.json()] give is a parameter. *)

Module Client.

Inductive ui_action :=
| SetStatus (msg : jsstring) (ok : bool)  (* [setStatus(msg, ok)] *)
| SetDisabled (b : bool)                  (* [btn.disabled = b] *)
| Fetch (payload : body)                  (* [fetch('/api/bookings', ...)] *)
| FormReset                               (* [form.reset()], [min] restored *)
| ConsoleError.                           (* [console.error(err)] *)

Inductive fetch_result :=
| NetworkError                            (* [fetch] or [res.json()] rejected *)
| Json (data_ok : bool) (data_error : jsval).  (* [data.ok], [data.error] *)

(** [const required = ['name', 'email', ...]], looked up in the payload *)
Definition required (payload : body) : list jsval :=
  [name payload; email payload; phone payload; address payload;
   serviceType payload; preferredDate payload; preferredTime payload].

(** [!payload[key] || String(payload[key]).trim() === ''] *)
Definition field_blank (v : jsval) : bool :=
  falsy v || jsstring_eqb (trim (ToString v)) [].

Definition ellipsis : jsstring := [8230%N].

(** [form.addEventListener('submit', async (e) => { ... })] *)
Definition submit (fetch : body -> fetch_result) (payload : body)
  : list ui_action :=
  [SetStatus (str "Sending" ++ ellipsis) true; SetDisabled true]
  ++ (if existsb field_blank (required payload)
      then [SetStatus (str "Please fill all required fields.") false;
            SetDisabled false]
      else
        Fetch payload
        :: match fetch payload with
           | Json true _ =>
               [SetStatus (str "Thanks! We received your request.") true;
                FormReset]
           | Json false e =>
               [SetStatus
                  (ToString (or_else e (JString (str "Something went wrong."))))
                  false]
           | NetworkError =>
               [ConsoleError;
                SetStatus (str "Network error. Please try again.") false]
           end
        ++ [SetDisabled false]).

(** The page's request answered by the booking server: the payload travels
    as JSON and the answer's [ok] and [error] come back. *)
Definition via_server (h : host) (db : list row) (payload : body)
  : fetch_result :=
  match fst (serve h db (Some payload)) with
  | Ok r => Json (ok r) (of_option (error r))
  | Throw _ => NetworkError
  end.

(** What the page shows at the end. *)
Fixpoint last_status (acts : list ui_action) (cur : option (jsstring * bool))
  : option (jsstring * bool) :=
  match acts with
  | [] => cur
  | SetStatus msg ok :: acts' => last_status acts' (Some (msg, ok))
  | _ :: acts' => last_status acts' cur
  end.

Fixpoint last_disabled (acts : list ui_action) (cur : bool) : bool :=
  match acts with
  | [] => cur
  | SetDisabled b :: acts' => last_disabled acts' b
  | _ :: acts' => last_disabled acts' cur
  end.

Definition is_fetch (a : ui_action) : bool :=
  match a with Fetch _ => true | _ => false end.

Definition is_reset (a : ui_action) : bool :=
  match a with FormReset => true | _ => false end.

End Client.
Export Client.

(** ** More names for runs and texts *)

Module Texts.

(** The number of line feeds of a text. *)
Definition count_lf (s : jsstring) : nat :=
  List.length (filter (N.eqb 10) s).

Definition starts_with_ws (s : jsstring) : bool :=
  match s with
  | c :: _ => is_ws c
  | [] => false
  end.

Definition ends_with_ws (s : jsstring) : bool := starts_with_ws (rev s).

(** The mails that a run attempted to send, in order. *)
Definition mails_of (log : list event) : list mail :=
  flat_map (fun ev => match mail_of_event ev with
                      | Some m => [m]
                      | None => []
                      end) log.

(** The sender of both mails: [FROM_EMAIL || SMTP_USER]. *)
Definition fromEmail_of (h : host) : jsval :=
  or_else (of_option (FROM_EMAIL (h_env h))) (of_option (SMTP_USER (h_env h))).

(** The two mails of a booking, as [deliver] builds them. *)
Definition owner_mail (h : host) (clean : clean_booking) (ics : jsstring)
  : mail :=
  ownerMail_of clean (fromEmail_of h) (of_option (TO_EMAIL (h_env h)))
    (description_of h clean) ics.

Definition customer_mail (h : host) (clean : clean_booking) (ics : jsstring)
  : mail :=
  customerMail_of h clean (fromEmail_of h) ics.

(** The send attempts that a run can log, in order: the owner's mail [o]
    comes first, a failed send is the last. *)
Definition mail_patterns (o c : mail) : list (list event) :=
  [ [];
    [MailSent o]; [MailFailed o];
    [MailSent c]; [MailFailed c];
    [MailSent o; MailSent c]; [MailSent o; MailFailed c] ].

(** The warning of [deliver] when [TO_EMAIL] is not set. *)
Definition skip_warning : jsstring :=
  str "TO_EMAIL not set " ++ em_dash ++ str " skipping owner notification".

(** The answers that the handler can give. *)
Definition answers : list response :=
  [ json_ok 200 "Thanks!";
    json_error 400 "Missing required fields.";
    json_error 400 "Invalid email address.";
    json_error 400 "Invalid phone number.";
    json_ok 200 "Booking received.";
    json_error 500 "Server error." ].

End Texts.
Export Texts.

(** * Properties *)

Unset Implicit Arguments.

(** ** Regular expressions: the matcher decides the language *)

Module RegexFacts.
Import Regex.

Ltac inv H := inversion H; subst; clear H.

(** Split the word of a concatenation whose first letter is known. *)
Ltac split_head :=
  match goal with
  | E : ?s1 ++ _ = _ :: _ |- _ =>
      destruct s1; simpl in E; [subst | injection E as ? ?; subst]
  end.

Lemma nullable_matches (r : re) : nullable r = true <-> matches r [].
Proof.
  split.
  - induction r; simpl; intros H; try discriminate.
    + constructor.
    + apply andb_true_iff in H as [H1 H2].
      change (@nil code_unit) with (@nil code_unit ++ []).
      constructor; auto.
    + apply orb_true_iff in H as [H | H]; [apply MAltL | apply MAltR]; auto.
    + constructor.
  - intros H. remember (@nil code_unit) as s eqn:Es.
    induction H; simpl; try discriminate; auto.
    + apply app_eq_nil in Es as [-> ->]. rewrite IHmatches1, IHmatches2; auto.
    + rewrite IHmatches; auto.
    + rewrite IHmatches, orb_true_r; auto.
Qed.

Lemma deriv_matches (r : re) :
  forall c s, matches (deriv c r) s <-> matches r (c :: s).
Proof.
  induction r; intros c s; simpl.
  - split; intros H; inversion H.
  - split; intros H; inversion H.
  - destruct (p c) eqn:Hp; split; intros H.
    + inversion H; subst. constructor; assumption.
    + inversion H; subst. constructor.
    + inversion H.
    + inversion H; subst. congruence.
  - destruct (nullable r1) eqn:Hn.
    + split; intros H.
      * inv H.
        -- match goal with H' : matches (Seq _ _) _ |- _ => inv H' end.
           change (c :: s1 ++ s2) with ((c :: s1) ++ s2).
           constructor; [apply IHr1 | ]; assumption.
        -- change (c :: s) with ([] ++ c :: s).
           constructor; [apply nullable_matches | apply IHr2]; assumption.
      * inv H. split_head.
        -- apply MAltR. apply IHr2. assumption.
        -- apply MAltL. constructor; [apply IHr1 | ]; assumption.
    + split; intros H.
      * inv H.
        change (c :: s1 ++ s2) with ((c :: s1) ++ s2).
        constructor; [apply IHr1 | ]; assumption.
      * inv H. split_head.
        -- match goal with H1 : matches r1 [] |- _ =>
             apply nullable_matches in H1; congruence end.
        -- constructor; [apply IHr1 | ]; assumption.
  - split; intros H; inversion H; subst;
      solve [ apply MAltL; apply IHr1; assumption
            | apply MAltR; apply IHr2; assumption ].
  - split; intros H.
    + inversion H; subst. constructor; [apply IHr | ]; assumption.
    + inversion H; subst. constructor; [apply IHr | ]; assumption.
Qed.

Theorem test_matches (r : re) (s : jsstring) :
  test r s = true <-> matches r s.
Proof.
  revert r. induction s as [ | c s IH]; intros r; simpl.
  - apply nullable_matches.
  - rewrite IH. apply deriv_matches.
Qed.

Lemma matches_seq r1 r2 s :
  matches (Seq r1 r2) s <->
  exists s1 s2, s = s1 ++ s2 /\ matches r1 s1 /\ matches r2 s2.
Proof.
  split.
  - intros H. inversion H; subst. eauto.
  - intros (s1 & s2 & -> & H1 & H2). constructor; assumption.
Qed.

Lemma matches_class p s :
  matches (Class p) s <-> exists c, s = [c] /\ p c = true.
Proof.
  split.
  - intros H. inversion H; subst. eauto.
  - intros (c & -> & H). constructor; assumption.
Qed.

Lemma matches_star_class p s :
  matches (Star (Class p)) s <-> forallb p s = true.
Proof.
  split.
  - intros H. remember (Star (Class p)) as r eqn:Er.
    induction H; try discriminate; auto.
    injection Er as ->.
    inversion H; subst. simpl.
    rewrite IHmatches2 by reflexivity. rewrite andb_true_r. assumption.
  - induction s as [ | c s IH]; simpl; intros H.
    + constructor.
    + apply andb_true_iff in H as [Hc Hs].
      change (c :: s) with (c :: [] ++ s).
      constructor; [constructor | apply IH]; assumption.
Qed.

Lemma matches_plus_class p s :
  matches (Plus (Class p)) s <-> s <> [] /\ forallb p s = true.
Proof.
  unfold Plus. split.
  - intros H. apply matches_seq in H as (s1 & s2 & -> & H1 & H2).
    apply matches_class in H1 as (c & -> & Hc).
    apply matches_star_class in H2. simpl. rewrite Hc, H2.
    split; [discriminate | reflexivity].
  - intros [Hne H]. destruct s as [ | c s]; [congruence | ].
    simpl in H. apply andb_true_iff in H as [Hc Hs].
    change (c :: s) with ([c] ++ s).
    constructor; [constructor | apply matches_star_class]; assumption.
Qed.

Lemma matches_atleast_class p n s :
  matches (AtLeast n (Class p)) s <->
  (n <= List.length s)%nat /\ forallb p s = true.
Proof.
  revert s. induction n as [ | n IH]; intros s; simpl.
  - rewrite matches_star_class. split; [intros H; split; [lia | ] | intros [_ H]]; assumption.
  - split.
    + intros H. apply matches_seq in H as (s1 & s2 & -> & H1 & H2).
      apply matches_class in H1 as (c & -> & Hc).
      apply IH in H2 as [Hl Hs]. simpl. rewrite Hc, Hs. split; [lia | reflexivity].
    + intros [Hl H]. destruct s as [ | c s]; simpl in *; [lia | ].
      apply andb_true_iff in H as [Hc Hs].
      change (c :: s) with ([c] ++ s).
      constructor; [constructor; assumption | apply IH; split; [lia | assumption]].
Qed.

Lemma matches_lit c s : matches (Lit c) s <-> s = [c].
Proof.
  unfold Lit. rewrite matches_class. split.
  - intros (c' & -> & H). apply N.eqb_eq in H. congruence.
  - intros ->. exists c. split; [reflexivity | apply N.eqb_refl].
Qed.

End RegexFacts.

(** ** Dates: printing and reading back *)

Module DateFacts.

Local Open Scope Z_scope.

Lemma digit_chr_is_digit d : 0 <= d <= 9 -> is_digit (digit_chr d) = true.
Proof.
  intros H.
  assert (E : d = 0 \/ d = 1 \/ d = 2 \/ d = 3 \/ d = 4 \/ d = 5 \/ d = 6
              \/ d = 7 \/ d = 8 \/ d = 9) by lia.
  repeat (destruct E as [-> | E]; [reflexivity | ]). subst. reflexivity.
Qed.

Lemma digit_val_chr d : 0 <= d <= 9 -> digit_val (digit_chr d) = d.
Proof.
  intros H.
  assert (E : d = 0 \/ d = 1 \/ d = 2 \/ d = 3 \/ d = 4 \/ d = 5 \/ d = 6
              \/ d = 7 \/ d = 8 \/ d = 9) by lia.
  repeat (destruct E as [-> | E]; [reflexivity | ]). subst. reflexivity.
Qed.

Lemma mod10_digit n : 0 <= n mod 10 <= 9.
Proof. pose proof (Z.mod_pos_bound n 10). lia. Qed.

(** *** Zero-padded numbers *)

Lemma pad_acc_app w : forall n acc, pad_acc w n acc = pad w n ++ acc.
Proof.
  unfold pad. induction w as [ | w IH]; intros n acc; simpl.
  - reflexivity.
  - rewrite IH. rewrite (IH (n / 10) [_]). rewrite <- app_assoc. reflexivity.
Qed.

Lemma pad_S w n : pad (S w) n = pad w (n / 10) ++ [digit_chr (n mod 10)].
Proof. unfold pad at 1. simpl. apply pad_acc_app. Qed.

Lemma pad_length w : forall n, List.length (pad w n) = w.
Proof.
  induction w as [ | w IH]; intros n.
  - reflexivity.
  - rewrite pad_S, length_app, IH. simpl. lia.
Qed.

Lemma pad_digits w : forall n, forallb is_digit (pad w n) = true.
Proof.
  induction w as [ | w IH]; intros n.
  - reflexivity.
  - rewrite pad_S, forallb_app, IH. simpl.
    rewrite digit_chr_is_digit by apply mod10_digit. reflexivity.
Qed.

Lemma read_digits_app ds : forall w acc rest,
  List.length ds = w -> forallb is_digit ds = true ->
  read_digits w acc (ds ++ rest)
  = Some (fold_left (fun a c => 10 * a + digit_val c) ds acc, rest).
Proof.
  induction ds as [ | c ds IH]; intros w acc rest Hl Hd; simpl in *.
  - subst. reflexivity.
  - destruct w as [ | w]; [discriminate | ]. simpl.
    apply andb_true_iff in Hd as [Hc Hd]. rewrite Hc.
    apply IH; [lia | assumption].
Qed.

Lemma pad_value w : forall n acc,
  0 <= n < 10 ^ Z.of_nat w ->
  fold_left (fun a c => 10 * a + digit_val c) (pad w n) acc
  = acc * 10 ^ Z.of_nat w + n.
Proof.
  induction w as [ | w IH]; intros n acc Hn.
  - simpl in *. lia.
  - rewrite pad_S, fold_left_app. cbn [fold_left].
    rewrite Nat2Z.inj_succ, Z.pow_succ_r in * by lia.
    rewrite IH.
    + rewrite digit_val_chr by apply mod10_digit.
      pose proof (Z.div_mod n 10). lia.
    + split; [apply Z.div_pos; lia | apply Z.div_lt_upper_bound; lia].
Qed.

Lemma read_pad w n rest :
  0 <= n < 10 ^ Z.of_nat w ->
  read_digits w 0 (pad w n ++ rest) = Some (n, rest).
Proof.
  intros Hn.
  rewrite read_digits_app by (apply pad_length || apply pad_digits).
  rewrite pad_value by assumption. reflexivity.
Qed.

Lemma expect_cons c rest : expect c (c :: rest) = Some rest.
Proof. simpl. rewrite N.eqb_refl. reflexivity. Qed.

(** *** The calendar *)

Lemma doe_range z :
  0 <= z - z / 146097 * 146097 < 146097.
Proof. Z.to_euclidean_division_equations; lia. Qed.

Lemma yoe_range doe : 0 <= doe < 146097 -> 0 <= yoe_of doe <= 399.
Proof. unfold yoe_of. intros H. Z.to_euclidean_division_equations; lia. Qed.

Lemma doy_range doe : 0 <= doe < 146097 -> 0 <= doy_of doe <= 365.
Proof.
  unfold doy_of, yoe_of. intros H. Z.to_euclidean_division_equations; lia.
Qed.

(** The 366th day of a year of the era closes a leap year. *)
Lemma doy_leap doe :
  0 <= doe < 146097 -> doy_of doe = 365 ->
  (yoe_of doe + 1) mod 4 = 0
  /\ ((yoe_of doe + 1) mod 100 <> 0 \/ (yoe_of doe + 1) mod 400 = 0).
Proof.
  unfold doy_of, yoe_of. intros H.
  Z.to_euclidean_division_equations; lia.
Qed.

Lemma mp_range doy : 0 <= doy <= 365 -> 0 <= mp_of doy <= 11.
Proof. unfold mp_of. intros H. Z.to_euclidean_division_equations; lia. Qed.

Lemma last_months doe :
  0 <= doe < 146097 ->
  (146037 <= doe <-> yoe_of doe = 399 /\ 10 <= mp_of (doy_of doe)).
Proof.
  unfold mp_of, doy_of, yoe_of. intros H.
  Z.to_euclidean_division_equations; lia.
Qed.

Lemma day_range doy :
  0 <= doy <= 365 ->
  let mp := mp_of doy in
  let d := doy - (153 * mp + 2) / 5 + 1 in
  1 <= d <= 31
  /\ (mp = 1 \/ mp = 3 \/ mp = 6 \/ mp = 8 -> d <= 30)
  /\ (mp = 11 -> d <= 29 /\ (d = 29 -> doy = 365)).
Proof.
  unfold mp_of. intros H. cbv zeta.
  Z.to_euclidean_division_equations; lia.
Qed.

Lemma is_leap_true y :
  y mod 4 = 0 -> (y mod 100 <> 0 \/ y mod 400 = 0) -> is_leap y = true.
Proof.
  intros H4 H. unfold is_leap. rewrite H4. simpl.
  destruct H as [H | H].
  - apply Z.eqb_neq in H. rewrite H. reflexivity.
  - rewrite H. simpl. apply orb_true_r.
Qed.

Lemma days_in_month_cases y m :
  1 <= m <= 12 ->
  (m = 2 /\ days_in_month y m = (if is_leap y then 29 else 28))
  \/ ((m = 4 \/ m = 6 \/ m = 9 \/ m = 11) /\ days_in_month y m = 30)
  \/ ((m = 1 \/ m = 3 \/ m = 5 \/ m = 7 \/ m = 8 \/ m = 10 \/ m = 12)
      /\ days_in_month y m = 31).
Proof.
  intros H.
  assert (C : m = 1 \/ m = 2 \/ m = 3 \/ m = 4 \/ m = 5 \/ m = 6 \/ m = 7
              \/ m = 8 \/ m = 9 \/ m = 10 \/ m = 11 \/ m = 12) by lia.
  repeat (destruct C as [-> | C]; [unfold days_in_month; simpl; lia | ]).
  subst. unfold days_in_month; simpl; lia.
Qed.

Ltac no_if a :=
  lazymatch a with
  | context [if _ then _ else _] => fail
  | _ => idtac
  end.

(** Decide the integer comparisons that guard a conditional, innermost
    first, in the goal and in the hypotheses. *)
Ltac zbool :=
  repeat match goal with
  | |- context [if ?a <=? ?b then _ else _] =>
      no_if a; destruct (Z.leb_spec a b)
  | |- context [if ?a <? ?b then _ else _] =>
      no_if a; destruct (Z.ltb_spec a b)
  | |- context [if ?a =? ?b then _ else _] =>
      no_if a; destruct (Z.eqb_spec a b)
  | H : context [if ?a <=? ?b then _ else _] |- _ =>
      no_if a; destruct (Z.leb_spec a b)
  | H : context [if ?a <? ?b then _ else _] |- _ =>
      no_if a; destruct (Z.ltb_spec a b)
  end.

Lemma mod_era_shift a k :
  (a + k * 400) mod 4 = a mod 4
  /\ (a + k * 400) mod 100 = a mod 100
  /\ (a + k * 400) mod 400 = a mod 400.
Proof.
  repeat split.
  - replace (a + k * 400) with (a + (k * 100) * 4) by lia.
    apply Z_mod_plus_full.
  - replace (a + k * 400) with (a + (k * 4) * 100) by lia.
    apply Z_mod_plus_full.
  - apply Z_mod_plus_full.
Qed.

Lemma is_leap_era_shift y k : is_leap (y + k * 400) = is_leap y.
Proof.
  unfold is_leap. destruct (mod_era_shift y k) as (-> & -> & ->). reflexivity.
Qed.

Lemma civil_from_days_spec z y m d :
  civil_from_days z = (y, m, d) ->
  1 <= m <= 12 /\ 1 <= d <= days_in_month y m /\ days_from_civil y m d = z.
Proof.
  unfold civil_from_days. cbv zeta.
  pose proof (doe_range (z + 719468)) as Hdoe.
  set (era := (z + 719468) / 146097) in *.
  set (doe := z + 719468 - era * 146097) in *.
  pose proof (yoe_range doe Hdoe) as Hyoe.
  pose proof (doy_range doe Hdoe) as Hdoy.
  pose proof (doy_leap doe Hdoe) as Hleap.
  pose proof (mp_range _ Hdoy) as Hmp.
  pose proof (day_range _ Hdoy) as Hday. cbv zeta in Hday.
  assert (Edoy : doy_of doe
                 = doe - (365 * yoe_of doe + yoe_of doe / 4 - yoe_of doe / 100))
    by reflexivity.
  assert (Edoe : doe = z + 719468 - era * 146097) by reflexivity.
  set (yoe := yoe_of doe) in *. set (doy := doy_of doe) in *.
  set (mp := mp_of doy) in *.
  intros E.
  pose proof (f_equal (fun p => fst (fst p)) E) as Ey.
  pose proof (f_equal (fun p => snd (fst p)) E) as Em.
  pose proof (f_equal snd E) as Ed.
  cbn [fst snd] in Ey, Em, Ed. clear E.
  clearbody mp doy yoe doe era.
  assert (Hm : 1 <= m <= 12 /\ (m <= 2 <-> 10 <= mp)
               /\ (2 < m -> m = mp + 3) /\ (m <= 2 -> m = mp - 9)).
  { revert Em. zbool; lia. }
  destruct Hm as (Hm & Hm2 & Hm3 & Hm4).
  split; [exact Hm | ]. split.
  - destruct (days_in_month_cases y m Hm) as [[E2 ->] | [[E30 ->] | [E31 ->]]].
    + destruct (is_leap y) eqn:Hl; [lia | ].
      assert (Hd : d <= 28 \/ d = 29) by lia.
      destruct Hd as [Hd | Hd]; [lia | ].
      assert (Hdoy365 : doy = 365) by lia.
      destruct (Hleap Hdoy365) as [L4 L100].
      assert (Hy : y = yoe + 1 + era * 400) by (revert Ey; zbool; lia).
      rewrite Hy, is_leap_era_shift, is_leap_true in Hl by assumption.
      discriminate.
    + lia.
    + lia.
  - unfold days_from_civil. cbv zeta.
    assert (Hy : (if m <=? 2 then y - 1 else y) = yoe + era * 400)
      by (revert Ey; zbool; lia).
    rewrite Hy.
    assert (Hmp' : (if 2 <? m then m - 3 else m + 9) = mp) by (zbool; lia).
    rewrite Hmp'.
    assert (Hera : (yoe + era * 400) / 400 = era)
      by (clear - Hyoe; Z.to_euclidean_division_equations; lia).
    rewrite Hera.
    replace (yoe + era * 400 - era * 400) with yoe by lia. lia.
Qed.

(** *** Hours, minutes, seconds *)

Lemma time_fields t :
  0 <= HourFromTime t <= 23 /\ 0 <= MinFromTime t <= 59
  /\ 0 <= SecFromTime t <= 59 /\ 0 <= msFromTime t <= 999
  /\ Day t * msPerDay + HourFromTime t * 3600000 + MinFromTime t * 60000
     + SecFromTime t * 1000 + msFromTime t = t.
Proof.
  unfold HourFromTime, MinFromTime, SecFromTime, msFromTime, TimeWithinDay,
    Day, msPerDay.
  Z.to_euclidean_division_equations; lia.
Qed.

Lemma seconds_fields t :
  Day t * 86400 + HourFromTime t * 3600 + MinFromTime t * 60 + SecFromTime t
  = t / 1000.
Proof.
  unfold HourFromTime, MinFromTime, SecFromTime, TimeWithinDay,
    Day, msPerDay.
  Z.to_euclidean_division_equations; lia.
Qed.

(** *** Years *)

Lemma civil_year_bound t y m d :
  Z.abs t <= maxTime -> civil_from_days (Day t) = (y, m, d) ->
  -999999 <= y <= 999999.
Proof.
  intros Ht E. unfold civil_from_days in E. cbv zeta in E.
  pose proof (f_equal (fun p => fst (fst p)) E) as Ey.
  cbn [fst snd] in Ey. clear E.
  pose proof (doe_range (Day t + 719468)) as Hdoe.
  set (era := (Day t + 719468) / 146097) in *.
  set (doe := Day t + 719468 - era * 146097) in *.
  pose proof (yoe_range doe Hdoe) as Hyoe.
  assert (Hera : -700 <= era <= 700).
  { subst era. unfold Day, msPerDay, maxTime in *. clear - Ht.
    Z.to_euclidean_division_equations; lia. }
  clearbody era. revert Ey. zbool; lia.
Qed.

Lemma civil_year_4digits t y m d :
  time_year_0 <= t < time_year_10000 ->
  civil_from_days (Day t) = (y, m, d) -> 0 <= y <= 9999.
Proof.
  intros Ht E. unfold civil_from_days in E. cbv zeta in E.
  pose proof (f_equal (fun p => fst (fst p)) E) as Ey.
  cbn [fst snd] in Ey. clear E.
  assert (Hday : -719528 <= Day t <= 2932896).
  { unfold Day, msPerDay, time_year_0, time_year_10000 in *. clear - Ht.
    Z.to_euclidean_division_equations; lia. }
  pose proof (doe_range (Day t + 719468)) as Hdoe.
  set (era := (Day t + 719468) / 146097) in *.
  set (doe := Day t + 719468 - era * 146097) in *.
  assert (Edoe : doe = Day t + 719468 - era * 146097) by reflexivity.
  pose proof (yoe_range doe Hdoe) as Hyoe.
  pose proof (last_months doe Hdoe) as Hlast.
  pose proof (mp_range _ (doy_range doe Hdoe)) as Hmp.
  set (mp := mp_of (doy_of doe)) in *. set (yoe := yoe_of doe) in *.
  clearbody mp yoe doe era.
  zbool; subst y; lia.
Qed.

(** *** Reading back what [toISOString] prints *)

Lemma digit_not_sign c :
  is_digit c = true -> (c =? chr_plus)%N = false /\ (c =? chr_minus)%N = false.
Proof.
  unfold is_digit, chr_0, chr_9, chr_plus, chr_minus. intros H.
  apply andb_true_iff in H as [H1 H2].
  apply N.leb_le in H1. apply N.leb_le in H2.
  split; apply N.eqb_neq; lia.
Qed.

Lemma read_year_iso_year y rest :
  -999999 <= y <= 999999 -> read_year (iso_year y ++ rest) = Some (y, rest).
Proof.
  intros Hy. unfold iso_year.
  destruct ((0 <=? y) && (y <=? 9999)) eqn:H4.
  - apply andb_true_iff in H4 as [H0 H9].
    apply Z.leb_le in H0. apply Z.leb_le in H9.
    pose proof (pad_length 4 y) as Hl. pose proof (pad_digits 4 y) as Hd.
    pose proof (read_pad 4 y rest) as Hr.
    destruct (pad 4 y) as [ | c p]; [discriminate | ].
    cbn [forallb] in Hd. apply andb_true_iff in Hd as [Hc _].
    destruct (digit_not_sign c Hc) as [Hp Hm].
    cbn [app read_year]. rewrite Hp, Hm. apply Hr. simpl. lia.
  - cbn [app read_year].
    assert (Hy' : y < 0 \/ 9999 < y).
    { apply andb_false_iff in H4 as [H | H];
        [apply Z.leb_gt in H | apply Z.leb_gt in H]; lia. }
    destruct (Z.ltb_spec y 0) as [Hneg | Hpos].
    + change (chr_minus =? chr_plus)%N with false.
      change (chr_minus =? chr_minus)%N with true. cbv iota.
      rewrite read_pad by (simpl; lia). cbn [obind].
      destruct (Z.eqb_spec (Z.abs y) 0) as [E | _]; [lia | ].
      f_equal. f_equal. lia.
    + change (chr_plus =? chr_plus)%N with true. cbv iota.
      rewrite read_pad by (simpl; lia). f_equal. f_equal. lia.
Qed.

Lemma TimeClip_valid t : Z.abs t <= maxTime -> TimeClip (Some t) = Some t.
Proof.
  intros H. unfold TimeClip. apply Z.leb_le in H. rewrite H. reflexivity.
Qed.

Ltac read_step :=
  first
    [ rewrite read_year_iso_year by lia
    | rewrite read_pad by (simpl; lia)
    | rewrite expect_cons ];
  cbn [obind app].

Theorem parse_iso_of_time t :
  Z.abs t <= maxTime -> parse_iso_utc (iso_of_time t) = Some t.
Proof.
  intros Ht. unfold iso_of_time.
  destruct (civil_from_days (Day t)) as [[y m] d] eqn:E.
  pose proof (civil_year_bound t y m d Ht E) as Hy.
  destruct (civil_from_days_spec _ _ _ _ E) as (Hm & Hd & Hdays).
  destruct (time_fields t) as (Hh & Hmi & Hs & Hms & Ht').
  assert (Hd31 : d <= 31).
  { destruct (days_in_month_cases y m Hm) as [[_ E'] | [[_ E'] | [_ E']]];
      rewrite E' in Hd; [destruct (is_leap y) | | ]; lia. }
  unfold parse_iso_utc.
  change (str "-") with [chr_minus]. change (str "T") with [84%N].
  change (str ":") with [58%N]. change (str ".") with [chr_dot].
  change (str "Z") with [90%N].
  repeat read_step.
  rewrite (proj2 (Z.leb_le 1 m)), (proj2 (Z.leb_le m 12)),
    (proj2 (Z.leb_le 1 d)), (proj2 (Z.leb_le d _)),
    (proj2 (Z.leb_le _ 23)), (proj2 (Z.leb_le _ 59)),
    (proj2 (Z.leb_le _ 59)) by lia.
  cbn [andb]. unfold make_time. rewrite Hdays, Ht'.
  apply TimeClip_valid. assumption.
Qed.

(** *** The calendar format *)

Lemma digit_not_punct c :
  is_digit c = true ->
  (c =? chr_minus)%N = false /\ (c =? 58)%N = false /\ (c =? chr_dot)%N = false.
Proof.
  unfold is_digit, chr_0, chr_9, chr_minus, chr_dot. intros H.
  apply andb_true_iff in H as [H1 H2].
  apply N.leb_le in H1. apply N.leb_le in H2.
  repeat split; apply N.eqb_neq; lia.
Qed.

Lemma strip_punct_digits l :
  forallb is_digit l = true -> strip_punct l = l.
Proof.
  unfold strip_punct. induction l as [ | c l IH]; simpl; intros H.
  - reflexivity.
  - apply andb_true_iff in H as [Hc Hl].
    destruct (digit_not_punct c Hc) as (-> & -> & _). simpl.
    rewrite IH by assumption. reflexivity.
Qed.

Lemma strip_punct_app a b : strip_punct (a ++ b) = strip_punct a ++ strip_punct b.
Proof. apply filter_app. Qed.

Lemma before_dot_digits l rest :
  forallb is_digit l = true -> before_dot (l ++ rest) = l ++ before_dot rest.
Proof.
  induction l as [ | c l IH]; simpl; intros H.
  - reflexivity.
  - apply andb_true_iff in H as [Hc Hl].
    destruct (digit_not_punct c Hc) as (_ & _ & ->).
    rewrite IH by assumption. reflexivity.
Qed.

Lemma strip_punct_pad w n : strip_punct (pad w n) = pad w n.
Proof. apply strip_punct_digits, pad_digits. Qed.

Lemma before_dot_pad w n rest :
  before_dot (pad w n ++ rest) = pad w n ++ before_dot rest.
Proof. apply before_dot_digits, pad_digits. Qed.

(** Within years 0..9999 the calendar format is the ISO format without its
    punctuation and milliseconds. *)
Lemma ics_of_time_fields t y m d :
  civil_from_days (Day t) = (y, m, d) -> 0 <= y <= 9999 ->
  ics_of_time t
  = pad 4 y ++ pad 2 m ++ pad 2 d ++ [84%N] ++ pad 2 (HourFromTime t)
    ++ pad 2 (MinFromTime t) ++ pad 2 (SecFromTime t) ++ [90%N].
Proof.
  intros E Hy. unfold ics_of_time, iso_of_time. rewrite E.
  unfold iso_year.
  rewrite (proj2 (Z.leb_le 0 y)), (proj2 (Z.leb_le y 9999)) by lia.
  cbn [andb].
  change (str "-") with [chr_minus]. change (str "T") with [84%N].
  change (str ":") with [58%N]. change (str ".") with [chr_dot].
  change (str "Z") with [90%N].
  rewrite !strip_punct_app, !strip_punct_pad.
  change (strip_punct [chr_minus]) with (@nil code_unit).
  change (strip_punct [58%N]) with (@nil code_unit).
  change (strip_punct [84%N]) with [84%N].
  change (strip_punct [chr_dot]) with [chr_dot].
  change (strip_punct [90%N]) with [90%N].
  cbn [app].
  rewrite !before_dot_pad.
  change (before_dot (84%N :: ?x)) with (84%N :: before_dot x).
  rewrite !before_dot_pad.
  change (before_dot (chr_dot :: ?x)) with (@nil code_unit).
  rewrite <- !app_assoc. reflexivity.
Qed.

Theorem ics_seconds_of_time t :
  time_year_0 <= t < time_year_10000 ->
  ics_seconds (ics_of_time t) = Some (t / 1000).
Proof.
  intros Ht.
  destruct (civil_from_days (Day t)) as [[y m] d] eqn:E.
  pose proof (civil_year_4digits t y m d Ht E) as Hy.
  destruct (civil_from_days_spec _ _ _ _ E) as (Hm & Hd & Hdays).
  destruct (time_fields t) as (Hh & Hmi & Hs & Hms & Ht').
  assert (Hd31 : d <= 31).
  { destruct (days_in_month_cases y m Hm) as [[_ E'] | [[_ E'] | [_ E']]];
      rewrite E' in Hd; [destruct (is_leap y) | | ]; lia. }
  rewrite (ics_of_time_fields t y m d E Hy). unfold ics_seconds.
  repeat read_step.
  rewrite (proj2 (Z.leb_le 1 m)), (proj2 (Z.leb_le m 12)),
    (proj2 (Z.leb_le 1 d)), (proj2 (Z.leb_le d _)),
    (proj2 (Z.leb_le _ 23)), (proj2 (Z.leb_le _ 59)),
    (proj2 (Z.leb_le _ 59)) by lia.
  cbn [andb]. rewrite Hdays. f_equal. apply seconds_fields.
Qed.

Lemma one_hour_later t : (t + 60 * 60 * 1000) / 1000 = t / 1000 + 3600.
Proof. Z.to_euclidean_division_equations; lia. Qed.

End DateFacts.

(** ** The handler, step by step *)

Module HandlerFacts.
Import DateFacts.

Local Open Scope Z_scope.

Lemma TimeClip_some o t :
  TimeClip o = Some t -> o = Some t /\ Z.abs t <= maxTime.
Proof.
  unfold TimeClip. destruct o as [v | ]; [ | discriminate].
  destruct (Z.leb_spec (Z.abs v) maxTime); [ | discriminate].
  intros E. injection E as <-. split; [reflexivity | assumption].
Qed.

Ltac obind_inv H :=
  repeat match type of H with
  | DateTime.obind ?x _ = Some _ =>
      destruct x as [[? ?] | ] eqn:?; cbn [DateTime.obind] in H;
      [ | discriminate H]
  | DateTime.obind ?x _ = Some _ =>
      destruct x as [? | ] eqn:?; cbn [DateTime.obind] in H;
      [ | discriminate H]
  end.

Lemma parse_iso_utc_valid s t : parse_iso_utc s = Some t -> Z.abs t <= maxTime.
Proof.
  unfold parse_iso_utc. intros H. obind_inv H.
  match type of H with
  | match ?l with _ => _ end = _ => destruct l; [ | discriminate H]
  end.
  match type of H with
  | (if ?c then _ else _) = _ => destruct c; [ | discriminate H]
  end.
  apply TimeClip_some in H. apply H.
Qed.

Section WithHost.

Variable h : host.

Lemma Date_of_string_valid s t :
  Date_of_string h s = Some t -> Z.abs t <= maxTime.
Proof.
  unfold Date_of_string. destruct (parse_iso_utc s) as [t' | ] eqn:E.
  - intros E'. injection E' as <-. eapply parse_iso_utc_valid, E.
  - intros E'. apply TimeClip_some in E'. apply E'.
Qed.

Lemma Date_of_string_iso t :
  Z.abs t <= maxTime -> Date_of_string h (iso_of_time t) = Some t.
Proof.
  intros H. unfold Date_of_string. rewrite parse_iso_of_time by assumption.
  reflexivity.
Qed.

Lemma toICSDate_iso t w :
  Z.abs t <= maxTime -> toICSDate h (iso_of_time t) w = (Ok (ics_of_time t), w).
Proof.
  intros H. unfold toICSDate, World.bind. rewrite Date_of_string_iso by assumption.
  reflexivity.
Qed.

(** [buildICS] reads the clock twice and logs nothing; it fails only when the
    clock is not a valid time value. *)
Lemma buildICS_run a t1 t2 w :
  startISO a = iso_of_time t1 -> endISO a = iso_of_time t2 ->
  Z.abs t1 <= maxTime -> Z.abs t2 <= maxTime ->
  clock_ok h (S (w_reads w)) ->
  buildICS h a w
  = (Ok (join crlf
           (ics_lines
              (str "booking-" ++ Number_toString h (h_clock h (w_reads w))
               ++ str "@pressurewash")
              (ics_of_time (h_clock h (S (w_reads w))))
              (ics_of_time t1) (ics_of_time t2) a)),
     advance 2 w).
Proof.
  intros E1 E2 H1 H2 Hc. unfold buildICS, World.bind, Date_now. cbn [w_reads].
  unfold Date_of_value. rewrite TimeClip_valid by exact Hc.
  cbn [toISOString World.ret]. 
  rewrite toICSDate_iso by exact Hc.
  rewrite E1, toICSDate_iso by assumption.
  rewrite E2, toICSDate_iso by assumption.
  reflexivity.
Qed.

Ltac break_if :=
  match goal with
  | |- context [if ?c then _ else _] =>
      lazymatch c with
      | context [if _ then _ else _] => fail
      | _ => destruct c eqn:?
      end
  end.

Lemma deliver_spec clean descr ics w :
  exists l,
    w_db (snd (deliver h clean descr ics w)) = w_db w
    /\ w_log (snd (deliver h clean descr ics w)) = w_log w ++ l
    /\ Forall (deliver_event ics) l
    /\ ((fst (deliver h clean descr ics w)
          = Ok (json_ok 200 "Booking received.")
         /\ existsb is_mail_failure l = false)
        \/ (fst (deliver h clean descr ics w) = Throw MailError
            /\ existsb is_mail_failure l = true)).
Proof.
  unfold deliver, getTransporter, console_warn, sendMail, emit,
    World.bind, World.ret, World.throw.
  repeat (break_if; cbn [fst snd w_db w_log w_reads]).
  all: rewrite <- ?app_assoc; cbn [app].
  all: eexists; split; [reflexivity | ];
    split; [first [reflexivity | symmetry; apply app_nil_r] | ];
    split; [repeat constructor | ];
    first [left; split; reflexivity | right; split; reflexivity].
Qed.

(** The clock does not matter to [deliver]. *)
Lemma deliver_reads clean descr ics w :
  w_reads (snd (deliver h clean descr ics w)) = w_reads w.
Proof.
  unfold deliver, getTransporter, console_warn, sendMail, emit,
    World.bind, World.ret, World.throw.
  repeat (break_if; cbn [fst snd w_db w_log w_reads]); reflexivity.
Qed.

(** When every send succeeds, [deliver] answers with the acknowledgment. *)
Lemma deliver_ok clean descr ics w :
  (forall t m, h_send_ok h t m = true) ->
  fst (deliver h clean descr ics w) = Ok (json_ok 200 "Booking received.").
Proof.
  intros Hok.
  unfold deliver, getTransporter, console_warn, sendMail, emit,
    World.bind, World.ret, World.throw.
  repeat (break_if; cbn [fst snd w_db w_log w_reads]); try reflexivity.
  all: match goal with
       | H : h_send_ok _ _ _ = false |- _ => rewrite Hok in H; discriminate H
       end.
Qed.

(** *** [notify] *)

Lemma appointmentEnd_valid clean t t' :
  appointmentStart_of h clean = Some t ->
  appointmentEnd_of (appointmentStart_of h clean) = Some t' ->
  t' = t + 60 * 60 * 1000 /\ Z.abs t <= maxTime /\ Z.abs t' <= maxTime.
Proof.
  intros Es Ee. rewrite Es in Ee. unfold appointmentEnd_of, Date_of_value in Ee.
  cbn [getTime option_map] in Ee. apply TimeClip_some in Ee as [E Hv].
  injection E as <-. repeat split; [ | assumption].
  eapply Date_of_string_valid. exact Es.
Qed.

(** With a valid appointment window and a valid clock, [notify] builds the
    calendar and goes on to [deliver]. *)
Lemma notify_run clean w t :
  appointmentStart_of h clean = Some t ->
  Z.abs (t + 60 * 60 * 1000) <= maxTime ->
  clock_ok h (S (w_reads w)) ->
  notify h clean w
  = deliver h clean (description_of h clean) (booking_ics h clean t w)
      (advance 2 w).
Proof.
  intros Es He Hc.
  pose proof (Date_of_string_valid _ _ Es) as Hs.
  unfold notify, World.bind. rewrite Es.
  unfold appointmentEnd_of, Date_of_value. cbn [getTime option_map].
  rewrite TimeClip_valid by exact He. cbn [toISOString World.ret].
  rewrite (buildICS_run _ t (t + 60 * 60 * 1000)) by (reflexivity || assumption).
  reflexivity.
Qed.

(** Otherwise [notify] throws a [RangeError] before any mail, and logs
    nothing. *)
Lemma notify_no_calendar clean w :
  (forall t, appointmentStart_of h clean = Some t ->
             Z.abs (t + 60 * 60 * 1000) <= maxTime ->
             ~ clock_ok h (S (w_reads w))) ->
  exists n, notify h clean w = (Throw RangeError, advance n w).
Proof.
  intros Hno. unfold notify, World.bind.
  destruct (appointmentStart_of h clean) as [t | ] eqn:Es;
    cbn [toISOString World.ret World.throw];
    [ | exists 0%nat; destruct w; reflexivity].
  pose proof (Date_of_string_valid _ _ Es) as Hs.
  unfold appointmentEnd_of, Date_of_value. cbn [getTime option_map].
  unfold TimeClip at 1.
  destruct (Z.leb_spec (Z.abs (t + 60 * 60 * 1000)) maxTime) as [He | He];
    cbn [toISOString World.ret World.throw];
    [ | exists 0%nat; destruct w; reflexivity].
  specialize (Hno t eq_refl He).
  unfold buildICS, World.bind, Date_now, Date_of_value. cbn [w_reads].
  unfold TimeClip. unfold clock_ok in Hno.
  destruct (Z.leb_spec (Z.abs (h_clock h (S (w_reads w)))) maxTime) as [Hc | Hc];
    [contradiction | ].
  cbn [toISOString World.throw]. exists 2%nat. reflexivity.
Qed.

Lemma notify_cases clean w :
  ((forall t, appointmentStart_of h clean = Some t ->
              Z.abs (t + 60 * 60 * 1000) <= maxTime ->
              ~ clock_ok h (S (w_reads w)))
   /\ exists n, notify h clean w = (Throw RangeError, advance n w))
  \/ (exists t,
        appointmentStart_of h clean = Some t
        /\ Z.abs (t + 60 * 60 * 1000) <= maxTime
        /\ clock_ok h (S (w_reads w))
        /\ notify h clean w
           = deliver h clean (description_of h clean) (booking_ics h clean t w)
               (advance 2 w)).
Proof.
  assert (D : (forall t, appointmentStart_of h clean = Some t ->
                         Z.abs (t + 60 * 60 * 1000) <= maxTime ->
                         ~ clock_ok h (S (w_reads w)))
              \/ exists t, appointmentStart_of h clean = Some t
                           /\ Z.abs (t + 60 * 60 * 1000) <= maxTime
                           /\ clock_ok h (S (w_reads w))).
  { destruct (appointmentStart_of h clean) as [t | ] eqn:Es;
      [ | left; intros t' Et; discriminate Et].
    destruct (Z_le_dec (Z.abs (t + 60 * 60 * 1000)) maxTime) as [He | He].
    - destruct (Z_le_dec (Z.abs (h_clock h (S (w_reads w)))) maxTime)
        as [Hc | Hc].
      + right. exists t. repeat split; assumption.
      + left. intros t' _ _. exact Hc.
    - left. intros t' Et He'. injection Et as <-. contradiction. }
  destruct D as [Hno | (t & Es & He & Hc)].
  - left. split; [exact Hno | ]. apply notify_no_calendar. exact Hno.
  - right. exists t. repeat split; try assumption.
    apply notify_run; assumption.
Qed.

(** *** The handler *)

Lemma post_bookings_caught req w :
  post_bookings h req w = caught (handle h req w).
Proof.
  unfold post_bookings, try_catch, caught.
  destruct (handle h req w) as [[r | e] w']; reflexivity.
Qed.

Lemma serve_honeypot db req :
  honeypot_filled (body_of req) = true ->
  serve h db req = (Ok (json_ok 200 "Thanks!"), initial_world db).
Proof.
  intros H. unfold serve. rewrite post_bookings_caught. unfold handle.
  fold (body_of req). rewrite H. reflexivity.
Qed.

Lemma serve_missing db req :
  honeypot_filled (body_of req) = false ->
  missing_required (body_of req) = true ->
  serve h db req
  = (Ok (json_error 400 "Missing required fields."), initial_world db).
Proof.
  intros H1 H2. unfold serve. rewrite post_bookings_caught. unfold handle.
  fold (body_of req). rewrite H1, H2. reflexivity.
Qed.

Lemma serve_bad_email db req :
  honeypot_filled (body_of req) = false ->
  missing_required (body_of req) = false ->
  isEmail (email (body_of req)) = false ->
  serve h db req
  = (Ok (json_error 400 "Invalid email address."), initial_world db).
Proof.
  intros H1 H2 H3. unfold serve. rewrite post_bookings_caught. unfold handle.
  fold (body_of req). rewrite H1, H2, H3. reflexivity.
Qed.

Lemma serve_bad_phone db req :
  honeypot_filled (body_of req) = false ->
  missing_required (body_of req) = false ->
  isEmail (email (body_of req)) = true ->
  isPhone (phone (body_of req)) = false ->
  serve h db req
  = (Ok (json_error 400 "Invalid phone number."), initial_world db).
Proof.
  intros H1 H2 H3 H4. unfold serve. rewrite post_bookings_caught.
  unfold handle. fold (body_of req). rewrite H1, H2, H3, H4. reflexivity.
Qed.

Lemma valid_submission_checks b :
  valid_submission b = true ->
  honeypot_filled b = false /\ missing_required b = false
  /\ isEmail (email b) = true /\ isPhone (phone b) = true.
Proof.
  unfold valid_submission. intros H.
  apply andb_true_iff in H as [H Hp]. apply andb_true_iff in H as [H He].
  apply andb_true_iff in H as [Hh Hm].
  apply negb_true_iff in Hh. apply negb_true_iff in Hm. auto.
Qed.

Lemma serve_valid db b :
  valid_submission b = true -> clock_ok h 0 ->
  serve h db (Some b)
  = if h_db_ok h db (booking_row h db b)
    then caught (notify h (sanitize b) (inserted db (booking_row h db b)))
    else (Ok server_error,
          {| w_db := db; w_log := [InsertFailed; ErrorLogged StorageError];
             w_reads := 1 |}).
Proof.
  intros Hv Hc. apply valid_submission_checks in Hv as (H1 & H2 & H3 & H4).
  unfold serve. rewrite post_bookings_caught. unfold handle.
  rewrite H1, H2, H3, H4. cbn [negb].
  unfold World.bind at 1. unfold Date_now at 1. cbn [initial_world w_reads].
  unfold World.bind at 1. unfold Date_of_value.
  rewrite TimeClip_valid by exact Hc. cbn [toISOString World.ret].
  unfold World.bind at 1. unfold db_run_insert.
  cbn [initial_world w_db w_log w_reads app].
  unfold booking_row, inserted. cbv zeta.
  match goal with
  | |- context [if ?c then _ else _] => destruct c
  end; reflexivity.
Qed.

Lemma serve_clock_invalid db b :
  valid_submission b = true -> ~ clock_ok h 0 ->
  serve h db (Some b)
  = (Ok server_error,
     {| w_db := db; w_log := [ErrorLogged RangeError]; w_reads := 1 |}).
Proof.
  intros Hv Hc. apply valid_submission_checks in Hv as (H1 & H2 & H3 & H4).
  unfold serve. rewrite post_bookings_caught. unfold handle.
  rewrite H1, H2, H3, H4. cbn [negb].
  unfold World.bind at 1. unfold Date_now at 1. cbn [initial_world w_reads].
  unfold World.bind at 1. unfold Date_of_value, TimeClip. unfold clock_ok in Hc.
  destruct (Z.leb_spec (Z.abs (h_clock h 0)) maxTime); [contradiction | ].
  reflexivity.
Qed.

End WithHost.
End HandlerFacts.

(** ** Numbers *)

Module NumFacts.
Import DateFacts.

Local Open Scope Z_scope.

Lemma digit_not_ws c : is_digit c = true -> is_ws c = false.
Proof.
  unfold is_digit, is_ws, chr_0, chr_9. intros H.
  apply andb_true_iff in H as [H1 H2].
  apply N.leb_le in H1. apply N.leb_le in H2.
  repeat (apply orb_false_iff; split);
    first [ apply N.eqb_neq; lia
          | apply andb_false_iff; right; apply N.leb_gt; lia
          | apply andb_false_iff; left; apply N.leb_gt; lia ].
Qed.

Lemma drop_ws_app ws s :
  forallb is_ws ws = true -> drop_ws (ws ++ s) = drop_ws s.
Proof.
  induction ws as [ | c ws IH]; simpl; intros H; [reflexivity | ].
  apply andb_true_iff in H as [-> H]. auto.
Qed.

Lemma drop_ws_split s :
  exists ws, s = ws ++ drop_ws s /\ forallb is_ws ws = true.
Proof.
  induction s as [ | c s (ws & E & H)]; simpl.
  - exists []. split; reflexivity.
  - destruct (is_ws c) eqn:Hc.
    + exists (c :: ws). simpl. rewrite Hc, H. split; [congruence | reflexivity].
    + exists []. split; reflexivity.
Qed.

Lemma drop_ws_head s c s' : drop_ws s = c :: s' -> is_ws c = false.
Proof.
  induction s as [ | c0 s IH]; simpl; [discriminate | ].
  destruct (is_ws c0) eqn:Hc; [exact IH | ].
  intros E. injection E as <- _. exact Hc.
Qed.

Lemma take_digits_app ds rest :
  forallb is_digit ds = true -> starts_with_digit rest = false ->
  take_digits (ds ++ rest) = ds.
Proof.
  induction ds as [ | c ds IH]; simpl; intros H Hr.
  - destruct rest as [ | c r]; [reflexivity | ]. simpl in *. rewrite Hr.
    reflexivity.
  - apply andb_true_iff in H as [-> H]. rewrite IH by assumption. reflexivity.
Qed.

Lemma take_digits_split s :
  exists rest,
    s = take_digits s ++ rest
    /\ forallb is_digit (take_digits s) = true
    /\ starts_with_digit rest = false.
Proof.
  induction s as [ | c s (rest & E & H & Hr)]; simpl.
  - exists []. repeat split.
  - destruct (is_digit c) eqn:Hc.
    + exists rest. simpl. rewrite Hc, H. repeat split; [congruence | assumption].
    + exists (c :: s). simpl. rewrite Hc. repeat split.
Qed.

(** [parseInt] on an input with an integer prefix. *)
Lemma parseInt10_prefix s sign ds rest :
  integer_prefix s sign ds rest ->
  parseInt10 (JString s) = Number_of_int (sign_value sign * digits_value ds).
Proof.
  intros (ws & -> & Hws & Hsign & Hne & Hds & Hrest).
  unfold parseInt10. cbn [ToString]. rewrite drop_ws_app by assumption.
  destruct ds as [ | d ds]; [congruence | ].
  cbn [forallb] in Hds. apply andb_true_iff in Hds as [Hd Hds].
  pose proof (digit_not_ws d Hd) as Hdw.
  destruct (digit_not_sign d Hd) as [Hdp Hdm].
  assert (Htd : take_digits ((d :: ds) ++ rest) = d :: ds).
  { apply take_digits_app; [ | assumption]. cbn [forallb].
    rewrite Hd, Hds. reflexivity. }
  destruct Hsign as [-> | [-> | ->]]; cbn [app drop_ws].
  - rewrite Hdw, Hdm, Hdp. change (d :: ds ++ rest) with ((d :: ds) ++ rest).
    rewrite Htd. reflexivity.
  - change (is_ws chr_plus) with false. cbv iota.
    change (chr_plus =? chr_minus)%N with false.
    change (chr_plus =? chr_plus)%N with true. cbv iota.
    change (d :: ds ++ rest) with ((d :: ds) ++ rest).
    rewrite Htd. reflexivity.
  - change (is_ws chr_minus) with false. cbv iota.
    change (chr_minus =? chr_minus)%N with true. cbv iota.
    change (d :: ds ++ rest) with ((d :: ds) ++ rest).
    rewrite Htd. reflexivity.
Qed.

(** [parseInt] yields [NaN] exactly on the inputs without an integer
    prefix. *)
Lemma parseInt10_no_prefix s :
  (forall sign ds rest, ~ integer_prefix s sign ds rest) ->
  parseInt10 (JString s) = NaN.
Proof.
  intros Hno. unfold parseInt10. cbn [ToString].
  destruct (drop_ws_split s) as (ws & Es & Hws).
  pose proof (drop_ws_head s) as Hhead.
  destruct (drop_ws s) as [ | c s1] eqn:Ed; [reflexivity | ].
  specialize (Hhead c s1 eq_refl).
  assert (Hmk : forall sign s2,
             c :: s1 = sign ++ s2 ->
             sign = [] \/ sign = [chr_plus] \/ sign = [chr_minus] ->
             take_digits s2 = []).
  { intros sign s2 E Hsign.
    destruct (take_digits_split s2) as (rest & E2 & Hds & Hrest).
    destruct (take_digits s2) as [ | d ds] eqn:Etd; [reflexivity | ].
    exfalso. apply (Hno sign (d :: ds) rest). exists ws.
    repeat split; try assumption; [ | discriminate].
    rewrite Es, E, E2. reflexivity. }
  destruct (c =? chr_minus)%N eqn:Hm.
  - apply N.eqb_eq in Hm. subst c.
    rewrite (Hmk [chr_minus] s1) by auto. reflexivity.
  - destruct (c =? chr_plus)%N eqn:Hp.
    + apply N.eqb_eq in Hp. subst c.
      rewrite (Hmk [chr_plus] s1) by auto. reflexivity.
    + rewrite (Hmk [] (c :: s1)) by auto. reflexivity.
Qed.

(** Integers below [2^53] are Number values. *)
Lemma Number_of_int_exact m : Z.abs m < 2 ^ 53 -> Number_of_int m = Finite m.
Proof.
  intros H. unfold Number_of_int, round_binary64.
  apply Z.ltb_lt in H. rewrite H.
  apply Z.ltb_lt in H.
  assert (H' : Z.abs m < 2 ^ 1024) by (eapply Z.lt_trans; [exact H | reflexivity]).
  apply Z.ltb_lt in H'. rewrite H'. f_equal. destruct m; reflexivity.
Qed.

(** Magnitudes from [2^1024] on overflow to an infinity. *)
Lemma round_binary64_lower a : 0 <= a -> 2 ^ Z.log2 a <= round_binary64 a \/ a = 0.
Proof.
  intros Ha. destruct (Z.eq_dec a 0) as [-> | Hne]; [right; reflexivity | left].
  assert (Hpos : 0 < a) by lia.
  destruct (Z.log2_spec a Hpos) as [Hlo Hhi].
  unfold round_binary64. destruct (Z.ltb_spec a (2 ^ 53)) as [Hs | Hb].
  - exact Hlo.
  - assert (He : 1 <= Z.log2 a - 52).
    { assert (53 <= Z.log2 a); [ | lia].
      apply Z.log2_le_pow2; assumption. }
    set (e := Z.log2 a - 52) in *.
    rewrite Z.shiftl_mul_pow2 by lia.
    rewrite Z.shiftr_div_pow2 by lia.
    assert (Hq : 2 ^ 52 <= a / 2 ^ e).
    { apply Z.div_le_lower_bound; [apply Z.pow_pos_nonneg; lia | ].
      rewrite Z.mul_comm, <- Z.pow_add_r by lia.
      replace (52 + e) with (Z.log2 a) by (subst e; lia). exact Hlo. }
    assert (Hp : 0 < 2 ^ e) by (apply Z.pow_pos_nonneg; lia).
    replace (2 ^ Z.log2 a) with (2 ^ 52 * 2 ^ e)
      by (rewrite <- Z.pow_add_r by lia; f_equal; subst e; lia).
    apply Z.mul_le_mono_nonneg_r; [lia | ].
    destruct (_ || _); lia.
Qed.

Lemma Number_of_int_overflow m :
  2 ^ 1024 <= Z.abs m -> Number_of_int m = Infinity (m <? 0).
Proof.
  intros H. unfold Number_of_int.
  assert (Ha : 0 <= Z.abs m) by apply Z.abs_nonneg.
  destruct (round_binary64_lower (Z.abs m) Ha) as [Hr | E].
  - assert (Hl : 1024 <= Z.log2 (Z.abs m)).
    { apply Z.log2_le_pow2; [ | exact H].
      eapply Z.lt_le_trans; [ | exact H]. reflexivity. }
    assert (Hp : 2 ^ 1024 <= 2 ^ Z.log2 (Z.abs m))
      by (apply Z.pow_le_mono_r; lia).
    destruct (Z.ltb_spec (round_binary64 (Z.abs m)) (2 ^ 1024)) as [F | _];
      [ | reflexivity].
    exfalso. apply (Z.lt_irrefl (2 ^ 1024)).
    eapply Z.le_lt_trans; [ | exact F]. eapply Z.le_trans; eassumption.
  - rewrite E in H. exfalso. revert H. apply Z.lt_nge. reflexivity.
Qed.

Lemma digits_value_nonneg ds : 0 <= digits_value ds.
Proof.
  unfold digits_value.
  assert (G : forall acc, 0 <= acc ->
            0 <= fold_left (fun a c => 10 * a + digit_val c) ds acc).
  { induction ds as [ | c ds IH]; intros acc Hacc; cbn [fold_left];
      [assumption | ].
    apply IH. unfold digit_val. lia. }
  apply G. lia.
Qed.

Lemma sign_value_cases sign : sign_value sign = 1 \/ sign_value sign = -1.
Proof. unfold sign_value. destruct (jsstring_eqb _ _); auto. Qed.

Lemma toInt_stored v : toInt v None = stored (parseInt10 v).
Proof. unfold toInt. destruct (parseInt10 v); reflexivity. Qed.

End NumFacts.

Module Outcomes.
Import DateFacts HandlerFacts RegexFacts NumFacts.

Local Open Scope Z_scope.

Lemma jsstring_eqb_eq a b : jsstring_eqb a b = true <-> a = b.
Proof.
  unfold jsstring_eqb. destruct (list_eq_dec N.eq_dec a b); split; congruence.
Qed.

Lemma jsstring_eqb_neq a b : jsstring_eqb a b = false <-> a <> b.
Proof.
  unfold jsstring_eqb. destruct (list_eq_dec N.eq_dec a b); split; congruence.
Qed.

Lemma absent_or_empty_falsy v : absent_or_empty v = falsy v.
Proof. destruct v as [ | [ | c s]]; reflexivity. Qed.

Lemma missing_required_spec b :
  missing_required b = existsb absent_or_empty (required_fields b).
Proof.
  unfold missing_required, required_fields. cbn [existsb].
  rewrite !absent_or_empty_falsy, orb_false_r, !orb_assoc. reflexivity.
Qed.

Lemma honeypot_filled_spec b s :
  website b = JString s -> trim s <> [] -> honeypot_filled b = true.
Proof.
  intros E H. unfold honeypot_filled. rewrite E. cbn [ToString].
  apply jsstring_eqb_neq in H. rewrite H.
  destruct s as [ | c s]; [ | reflexivity].
  apply jsstring_eqb_neq in H. contradiction H. reflexivity.
Qed.

Section WithHost.

Variable h : host.

(** After the insert the table is not touched again.  Either no calendar
    can be built (the appointment or the clock is not a valid date): nothing
    more happens and the caught error is a [RangeError]; or the calendar is
    built and warnings and mails follow, up to the first send that fails. *)
Lemma caught_notify_spec clean w :
  w_db (snd (caught (notify h clean w))) = w_db w
  /\ (((forall t, appointmentStart_of h clean = Some t ->
                  Z.abs (t + 60 * 60 * 1000) <= maxTime ->
                  ~ clock_ok h (S (w_reads w)))
       /\ fst (caught (notify h clean w)) = Ok server_error
       /\ w_log (snd (caught (notify h clean w)))
          = w_log w ++ [ErrorLogged RangeError])
      \/ exists t l,
           appointmentStart_of h clean = Some t
           /\ Z.abs (t + 60 * 60 * 1000) <= maxTime
           /\ clock_ok h (S (w_reads w))
           /\ Forall (deliver_event (booking_ics h clean t w)) l
           /\ ((fst (caught (notify h clean w))
                 = Ok (json_ok 200 "Booking received.")
                /\ w_log (snd (caught (notify h clean w))) = w_log w ++ l
                /\ existsb is_mail_failure l = false)
               \/ (fst (caught (notify h clean w)) = Ok server_error
                   /\ w_log (snd (caught (notify h clean w)))
                      = w_log w ++ l ++ [ErrorLogged MailError]
                   /\ existsb is_mail_failure l = true))).
Proof.
  destruct (notify_cases h clean w) as [[Hno [n E]] | (t & Es & He & Hc & E)];
    rewrite E.
  - split; [reflexivity | ]. left. repeat split. exact Hno.
  - destruct (deliver_spec h clean (description_of h clean)
                (booking_ics h clean t w) (advance 2 w))
      as (l & Hdb & Hlog & Hall & Hres).
    destruct (deliver h clean (description_of h clean)
                (booking_ics h clean t w) (advance 2 w)) as [res w'].
    cbn [fst snd] in *. cbn [advance w_db w_log] in Hdb, Hlog.
    destruct Hres as [[-> Hok] | [-> Hfail]];
      cbn [caught fst snd logged w_db w_log];
      (split; [assumption | ]); right; exists t, l;
      repeat (split; [assumption | ]).
    + left. repeat split; assumption.
    + right. rewrite Hlog, <- app_assoc. repeat split. assumption.
Qed.

(** Every run of the handler is one of: a rejection that leaves the world
    untouched; a failure before or at the insert; an insert followed by
    [notify]. *)
Lemma serve_shape db req :
  (exists r, serve h db req = (Ok r, initial_world db)
             /\ valid_submission (body_of req) = false)
  \/ (exists b,
        req = Some b /\ valid_submission b = true
        /\ (serve h db req
            = (Ok server_error,
               {| w_db := db; w_log := [ErrorLogged RangeError];
                  w_reads := 1 |})
            \/ (h_db_ok h db (booking_row h db b) = false
                /\ serve h db req
                   = (Ok server_error,
                      {| w_db := db;
                         w_log := [InsertFailed; ErrorLogged StorageError];
                         w_reads := 1 |}))
            \/ (clock_ok h 0
                /\ h_db_ok h db (booking_row h db b) = true
                /\ serve h db req
                   = caught (notify h (sanitize b)
                               (inserted db (booking_row h db b)))))).
Proof.
  destruct (honeypot_filled (body_of req)) eqn:H1.
  { left. eexists. split; [apply serve_honeypot; assumption | ].
    unfold valid_submission. rewrite H1. reflexivity. }
  destruct (missing_required (body_of req)) eqn:H2.
  { left. eexists. split; [apply serve_missing; assumption | ].
    unfold valid_submission. rewrite H1, H2. reflexivity. }
  destruct (isEmail (email (body_of req))) eqn:H3.
  2:{ left. eexists. split; [apply serve_bad_email; assumption | ].
      unfold valid_submission. rewrite H1, H2, H3. reflexivity. }
  destruct (isPhone (phone (body_of req))) eqn:H4.
  2:{ left. eexists. split; [apply serve_bad_phone; assumption | ].
      unfold valid_submission. rewrite H1, H2, H3, H4. reflexivity. }
  destruct req as [b | ]; [ | discriminate H2].
  cbn [body_of] in *.
  assert (Hv : valid_submission b = true)
    by (unfold valid_submission; rewrite H1, H2, H3, H4; reflexivity).
  right. exists b. split; [reflexivity | ]. split; [assumption | ].
  destruct (Z_le_dec (Z.abs (h_clock h 0)) maxTime) as [Hc | Hc].
  - rewrite (serve_valid h db b Hv Hc).
    destruct (h_db_ok h db (booking_row h db b)) eqn:Hdb.
    + right. right. repeat split. assumption.
    + right. left. split; reflexivity.
  - left. apply serve_clock_invalid; assumption.
Qed.

End WithHost.
End Outcomes.

Import DateFacts HandlerFacts RegexFacts NumFacts Outcomes.
Local Open Scope Z_scope.

(** A valid submission whose insert succeeds: the record is in the table at
    the end of the run; a failed send makes the answer the generic error; with
    a valid appointment and no failed send the answer is the
    acknowledgment. *)
Lemma persisted_outcome h db b :
  valid_submission b = true -> clock_ok h 0 ->
  h_db_ok h db (booking_row h db b) = true ->
  w_db (snd (serve h db (Some b))) = db ++ [booking_row h db b]
  /\ (existsb is_mail_failure (w_log (snd (serve h db (Some b)))) = true ->
      fst (serve h db (Some b)) = Ok (json_error 500 "Server error."))
  /\ (forall t,
        appointmentStart_of h (sanitize b) = Some t ->
        Z.abs (t + 60 * 60 * 1000) <= maxTime -> clock_ok h 2 ->
        existsb is_mail_failure (w_log (snd (serve h db (Some b)))) = false ->
        fst (serve h db (Some b)) = Ok (json_ok 200 "Booking received.")).
Proof.
  intros Hv Hc Hdb. rewrite (serve_valid h db b Hv Hc), Hdb.
  destruct (caught_notify_spec h (sanitize b) (inserted db (booking_row h db b)))
    as (Edb & [(Hno & Eres & Elog)
              | (t & l & Es & He & Hc2 & _
                 & [(Eres & Elog & Hl) | (Eres & Elog & Hl)])]);
    (split; [exact Edb | ]); rewrite Elog, Eres, !existsb_app;
    cbn [inserted w_log existsb is_mail_failure orb]; try rewrite Hl;
    cbn [orb]; split; try discriminate; try reflexivity.
  intros t Es He Hc2 _. exfalso. exact (Hno t Es He Hc2).
Qed.

(** Every mail that a run attempts carries exactly one attachment, the
    calendar of the booking. *)
Lemma serve_mail_attachments h db req ev m :
  In ev (w_log (snd (serve h db req))) -> mail_of_event ev = Some m ->
  exists b t,
    req = Some b
    /\ appointmentStart_of h (sanitize b) = Some t
    /\ Z.abs (t + 60 * 60 * 1000) <= maxTime
    /\ m_attachments m
       = [ics_attachment
            (booking_ics h (sanitize b) t (inserted db (booking_row h db b)))].
Proof.
  intros Hin Hm.
  destruct (serve_shape h db req)
    as [(r & E & _) | (b & -> & Hv & [E | [(Hdb & E) | (Hc & Hdb & E)]])];
    rewrite E in Hin.
  - destruct Hin.
  - destruct Hin as [<- | []]. discriminate Hm.
  - destruct Hin as [<- | [<- | []]]; discriminate Hm.
  - exists b.
    destruct (caught_notify_spec h (sanitize b)
                (inserted db (booking_row h db b)))
      as (_ & [(_ & _ & Elog)
              | (t & l & Es & He & _ & Hall
                 & [(_ & Elog & _) | (_ & Elog & _)])]);
      rewrite Elog in Hin; cbn [inserted w_log app] in Hin.
    + destruct Hin as [<- | [<- | []]]; discriminate Hm.
    + exists t. repeat split; try assumption.
      destruct Hin as [<- | Hin]; [discriminate Hm | ].
      rewrite Forall_forall in Hall. specialize (Hall ev Hin).
      destruct ev; try discriminate Hm; injection Hm as <-; exact Hall.
    + exists t. repeat split; try assumption.
      destruct Hin as [<- | Hin]; [discriminate Hm | ].
      apply in_app_or in Hin as [Hin | [<- | []]]; [ | discriminate Hm].
      rewrite Forall_forall in Hall. specialize (Hall ev Hin).
      destruct ev; try discriminate Hm; injection Hm as <-; exact Hall.
Qed.

(** *** The validators, in words *)

Lemma isEmail_spec s :
  isEmail (JString s) = true <->
  exists l d1 d2,
    s = l ++ [chr_at] ++ d1 ++ [chr_dot] ++ d2
    /\ l <> [] /\ d1 <> [] /\ d2 <> []
    /\ forallb not_ws_at l = true /\ forallb not_ws_at d1 = true
    /\ forallb not_ws_at d2 = true.
Proof.
  unfold isEmail, email_re. cbn [ToString]. rewrite test_matches. split.
  - intros H.
    apply matches_seq in H as (l & r1 & -> & Hl & H).
    apply matches_seq in H as (a & r2 & -> & Ha & H).
    apply matches_seq in H as (d1 & r3 & -> & Hd1 & H).
    apply matches_seq in H as (dot & d2 & -> & Hdot & Hd2).
    apply matches_lit in Ha as ->. apply matches_lit in Hdot as ->.
    apply matches_plus_class in Hl as [? ?].
    apply matches_plus_class in Hd1 as [? ?].
    apply matches_plus_class in Hd2 as [? ?].
    exists l, d1, d2. repeat split; assumption.
  - intros (l & d1 & d2 & -> & Hl & Hd1 & Hd2 & Fl & Fd1 & Fd2).
    apply matches_seq. exists l, ([chr_at] ++ d1 ++ [chr_dot] ++ d2).
    split; [reflexivity | ]. split; [apply matches_plus_class; auto | ].
    apply matches_seq. exists [chr_at], (d1 ++ [chr_dot] ++ d2).
    split; [reflexivity | ]. split; [apply matches_lit; reflexivity | ].
    apply matches_seq. exists d1, ([chr_dot] ++ d2).
    split; [reflexivity | ]. split; [apply matches_plus_class; auto | ].
    apply matches_seq. exists [chr_dot], d2.
    split; [reflexivity | ]. split; [apply matches_lit; reflexivity | ].
    apply matches_plus_class; auto.
Qed.

Lemma isPhone_spec s :
  isPhone (JString s) = true <->
  (7 <= List.length s)%nat /\ forallb phone_char s = true.
Proof.
  unfold isPhone, phone_re. cbn [ToString]. rewrite test_matches.
  apply matches_atleast_class.
Qed.

Lemma phone_shape_passes s : phone_shape s = true -> isPhone (JString s) = true.
Proof.
  unfold phone_shape. intros H. apply andb_true_iff in H as [Hl Hc].
  apply isPhone_spec. split; [apply Nat.leb_le; exact Hl | ].
  rewrite forallb_forall in *. intros c Hin. specialize (Hc c Hin).
  unfold phone_char.
  repeat (apply orb_true_iff in Hc as [Hc | Hc]); rewrite ?Hc, ?orb_true_r;
    try reflexivity.
  apply N.eqb_eq in Hc. subst c. reflexivity.
Qed.

(** A valid submission is answered with the acknowledgment or with the
    generic error. *)
Lemma valid_response h db b :
  valid_submission b = true ->
  fst (serve h db (Some b)) = Ok (json_ok 200 "Booking received.")
  \/ fst (serve h db (Some b)) = Ok server_error.
Proof.
  intros Hv.
  destruct (serve_shape h db (Some b))
    as [(r & _ & F) | (b' & Eb & _ & [E | [(_ & E) | (_ & _ & E)]])].
  - cbn [body_of] in F. congruence.
  - rewrite E. right. reflexivity.
  - rewrite E. right. reflexivity.
  - injection Eb as <-. rewrite E.
    destruct (caught_notify_spec h (sanitize b)
                (inserted db (booking_row h db b)))
      as (_ & [(_ & Eres & _)
              | (t & l & _ & _ & _ & _
                 & [(Eres & _) | (Eres & _)])]);
      rewrite Eres; auto.
Qed.

(** The log of a run: either no insert succeeded and no mail was attempted,
    or the log starts with the successful insert and holds no failed
    insert. *)
Lemma serve_log_shape h db req :
  (w_db (snd (serve h db req)) = db
   /\ forallb (fun ev => negb (is_mail_event ev)) (w_log (snd (serve h db req)))
      = true
   /\ (In InsertFailed (w_log (snd (serve h db req))) ->
       fst (serve h db req) = Ok server_error))
  \/ (exists r l,
        w_db (snd (serve h db req)) = db ++ [r]
        /\ w_log (snd (serve h db req)) = Inserted r :: l
        /\ ~ In InsertFailed l).
Proof.
  destruct (serve_shape h db req)
    as [(r & E & _) | (b & -> & Hv & [E | [(Hdb & E) | (Hc & Hdb & E)]])];
    rewrite E.
  - left. cbn. repeat split. intros [].
  - left. cbn. repeat split.
  - left. cbn. repeat split.
  - right. exists (booking_row h db b).
    destruct (caught_notify_spec h (sanitize b)
                (inserted db (booking_row h db b)))
      as (Edb & [(_ & _ & Elog)
                | (t & l & _ & _ & _ & Hall
                   & [(_ & Elog & _) | (_ & Elog & _)])]);
      rewrite Edb, Elog; cbn [inserted w_db w_log app].
    + exists [ErrorLogged RangeError]. repeat split.
      intros [F | []]. discriminate F.
    + exists l. repeat split. intros F.
      rewrite Forall_forall in Hall. apply (Hall _ F).
    + exists (l ++ [ErrorLogged MailError]). repeat split. intros F.
      apply in_app_or in F as [F | [F | []]]; [ | discriminate F].
      rewrite Forall_forall in Hall. apply (Hall _ F).
Qed.

(** ** Trimming, line feeds, the mails of a run, the calendar text *)

Local Close Scope Z_scope.

Module TrimFacts.

Lemma drop_ws_clean s : starts_with_ws (drop_ws s) = false.
Proof.
  induction s as [ | c s IH]; simpl; [reflexivity | ].
  destruct (is_ws c) eqn:Hc; [exact IH | ]. simpl. exact Hc.
Qed.

Lemma drop_ws_fixed s : starts_with_ws s = false -> drop_ws s = s.
Proof. destruct s as [ | c s]; simpl; [reflexivity | ]. intros ->. reflexivity. Qed.

Lemma drop_ws_snoc s c :
  is_ws c = false -> exists l, drop_ws (s ++ [c]) = l ++ [c].
Proof.
  intros Hc. induction s as [ | d s (l & E)]; simpl.
  - rewrite Hc. exists []. reflexivity.
  - destruct (is_ws d); [exists l; exact E | ].
    exists (d :: s). reflexivity.
Qed.

Lemma trim_starts s : starts_with_ws (trim s) = false.
Proof.
  unfold trim. pose proof (drop_ws_clean s) as H.
  destruct (drop_ws s) as [ | c a]; [reflexivity | ].
  simpl in H. cbn [rev].
  destruct (drop_ws_snoc (rev a) c H) as (l & ->).
  rewrite rev_app_distr. simpl. exact H.
Qed.

Lemma trim_ends s : ends_with_ws (trim s) = false.
Proof.
  unfold ends_with_ws, trim. rewrite rev_involutive. apply drop_ws_clean.
Qed.

Lemma trim_fixed s :
  starts_with_ws s = false -> ends_with_ws s = false -> trim s = s.
Proof.
  intros H1 H2. unfold trim. rewrite (drop_ws_fixed s H1).
  rewrite (drop_ws_fixed (rev s) H2). apply rev_involutive.
Qed.

Lemma trim_trim s : trim (trim s) = trim s.
Proof. apply trim_fixed; [apply trim_starts | apply trim_ends]. Qed.

Lemma firstn_starts n s :
  starts_with_ws s = false -> starts_with_ws (firstn n s) = false.
Proof. destruct n, s; simpl; auto. Qed.

Lemma or_else_empty_string v :
  ToString (or_else v (JString [])) = match v with
                                      | JUndefined => []
                                      | JString s => s
                                      end.
Proof. destruct v as [ | [ | c s]]; reflexivity. Qed.

(** A string without white space is its own trim. *)
Lemma trim_no_ws s : forallb (fun c => negb (is_ws c)) s = true -> trim s = s.
Proof.
  intros H. apply trim_fixed.
  - destruct s as [ | c s]; [reflexivity | ]. simpl in *.
    apply andb_true_iff in H as [H _]. apply negb_true_iff in H. exact H.
  - unfold ends_with_ws.
    assert (Hr : forallb (fun c => negb (is_ws c)) (rev s) = true).
    { rewrite forallb_forall in *. intros c Hin. apply H, in_rev, Hin. }
    destruct (rev s) as [ | c r]; [reflexivity | ]. simpl in *.
    apply andb_true_iff in Hr as [Hr _]. apply negb_true_iff in Hr. exact Hr.
Qed.

End TrimFacts.

Import TrimFacts.

Module MoreFacts.

Lemma sanitizeSmallText_eq v :
  sanitizeSmallText v
  = firstn 200 (trim (match v with JUndefined => [] | JString s => s end)).
Proof.
  unfold sanitizeSmallText, slice0. rewrite or_else_empty_string. reflexivity.
Qed.

Lemma sanitizeText_eq v :
  sanitizeText v
  = firstn 2000 (trim (match v with JUndefined => [] | JString s => s end)).
Proof.
  unfold sanitizeText, slice0. rewrite or_else_empty_string. reflexivity.
Qed.

Lemma firstn_nonempty n (s : jsstring) :
  (0 < n)%nat -> s <> [] -> firstn n s <> [].
Proof. destruct n, s; simpl; intros; try lia; congruence. Qed.

(** *** Line feeds *)

Lemma count_lf_app a b : count_lf (a ++ b) = (count_lf a + count_lf b)%nat.
Proof. unfold count_lf. rewrite filter_app, length_app. reflexivity. Qed.

Lemma count_lf_cons c s :
  count_lf (c :: s) = ((if (10 =? c)%N then 1 else 0) + count_lf s)%nat.
Proof.
  unfold count_lf. cbn [filter]. destruct (10 =? c)%N; reflexivity.
Qed.

Lemma escape_newlines_cons c s :
  escape_newlines (c :: s)
  = (if (c =? 10)%N then [92%N; 110%N] else [c]) ++ escape_newlines s.
Proof. reflexivity. Qed.

Lemma escape_newlines_no_lf s : count_lf (escape_newlines s) = 0%nat.
Proof.
  induction s as [ | c s IH]; [reflexivity | ].
  rewrite escape_newlines_cons, count_lf_app, IH.
  destruct (N.eqb_spec c 10) as [-> | Hne]; [reflexivity | ].
  rewrite count_lf_cons. destruct (N.eqb_spec 10 c); [congruence | reflexivity].
Qed.

Lemma escape_newlines_length s :
  List.length (escape_newlines s) = (List.length s + count_lf s)%nat.
Proof.
  induction s as [ | c s IH]; [reflexivity | ].
  rewrite escape_newlines_cons, length_app, count_lf_cons.
  unfold code_unit in *. rewrite IH.
  destruct (N.eqb_spec c 10) as [-> | Hne].
  - rewrite N.eqb_refl. cbn [List.length]. lia.
  - destruct (N.eqb_spec 10 c); [congruence | ]. cbn [List.length]. lia.
Qed.

Lemma escape_newlines_id s : count_lf s = 0%nat -> escape_newlines s = s.
Proof.
  induction s as [ | c s IH]; [reflexivity | ].
  rewrite count_lf_cons, escape_newlines_cons.
  destruct (N.eqb_spec 10 c) as [<- | Hne]; [discriminate | ].
  destruct (N.eqb_spec c 10); [congruence | ].
  simpl. intros H. rewrite IH by exact H. reflexivity.
Qed.

(** *** Valid emails *)

Lemma not_ws_at_no_ws l :
  forallb not_ws_at l = true ->
  forallb (fun c => negb (is_ws c)) l = true
  /\ count_occ N.eq_dec l chr_at = 0%nat.
Proof.
  induction l as [ | c l IH]; simpl; intros H; [split; reflexivity | ].
  apply andb_true_iff in H as [Hc Hl]. destruct (IH Hl) as [I1 I2].
  unfold not_ws_at in Hc. apply negb_true_iff, orb_false_iff in Hc as [Hw Ha].
  rewrite Hw, I1. split; [reflexivity | ].
  apply N.eqb_neq in Ha. destruct (N.eq_dec c chr_at); [contradiction | exact I2].
Qed.

Lemma valid_email_facts s :
  isEmail (JString s) = true ->
  forallb (fun c => negb (is_ws c)) s = true
  /\ count_occ N.eq_dec s chr_at = 1%nat
  /\ In chr_dot s
  /\ (5 <= List.length s)%nat
  /\ trim s = s.
Proof.
  intros H. apply isEmail_spec in H
    as (l & d1 & d2 & -> & Hl & Hd1 & Hd2 & Fl & Fd1 & Fd2).
  destruct (not_ws_at_no_ws l Fl) as [Wl Cl].
  destruct (not_ws_at_no_ws d1 Fd1) as [Wd1 Cd1].
  destruct (not_ws_at_no_ws d2 Fd2) as [Wd2 Cd2].
  assert (Hws : forallb (fun c => negb (is_ws c))
                  (l ++ [chr_at] ++ d1 ++ [chr_dot] ++ d2) = true).
  { rewrite !forallb_app, Wl, Wd1, Wd2. reflexivity. }
  split; [exact Hws | ]. split; [ | split; [ | split]].
  - unfold code_unit in *. rewrite !count_occ_app, Cl, Cd1, Cd2. reflexivity.
  - apply in_or_app. right. apply in_or_app. right.
    apply in_or_app. right. left. reflexivity.
  - rewrite !length_app. simpl.
    destruct l, d1, d2; simpl; try congruence; lia.
  - apply trim_no_ws. exact Hws.
Qed.

End MoreFacts.
Import MoreFacts.

Module RunFacts.

Local Open Scope Z_scope.

(** Decide the innermost test of a conditional. *)
Ltac split_if :=
  match goal with
  | |- context [if ?c then _ else _] =>
      lazymatch c with
      | context [if _ then _ else _] => fail
      | _ => destruct c eqn:?
      end
  end.

(** What a run does to the table. *)
Lemma serve_db_cases h db req :
  (w_db (snd (serve h db req)) = db
   /\ forall r, ~ In (Inserted r) (w_log (snd (serve h db req))))
  \/ (exists b,
        req = Some b /\ valid_submission b = true /\ clock_ok h 0
        /\ h_db_ok h db (booking_row h db b) = true
        /\ w_db (snd (serve h db req)) = db ++ [booking_row h db b]
        /\ serve h db req
           = caught (notify h (sanitize b)
                       (inserted db (booking_row h db b)))).
Proof.
  destruct (serve_shape h db req)
    as [(r & E & _) | (b & -> & Hv & [E | [(Hdb & E) | (Hc & Hdb & E)]])].
  - left. rewrite E. split; [reflexivity | ]. intros r' [].
  - left. rewrite E. split; [reflexivity | ]. intros r' [F | []]. discriminate F.
  - left. rewrite E. split; [reflexivity | ].
    intros r' [F | [F | []]]; discriminate F.
  - right. exists b. repeat (split; [assumption || reflexivity | ]).
    split; [ | exact E]. rewrite E.
    apply (caught_notify_spec h (sanitize b) (inserted db (booking_row h db b))).
Qed.

(** The answers of the handler. *)
Lemma serve_answer h db req :
  exists r, fst (serve h db req) = Ok r /\ In r answers.
Proof.
  destruct (honeypot_filled (body_of req)) eqn:H1.
  { rewrite (serve_honeypot h db req H1). eexists. split; [reflexivity | ].
    simpl. auto. }
  destruct (missing_required (body_of req)) eqn:H2.
  { rewrite (serve_missing h db req H1 H2). eexists. split; [reflexivity | ].
    simpl. auto. }
  destruct (isEmail (email (body_of req))) eqn:H3.
  2:{ rewrite (serve_bad_email h db req H1 H2 H3). eexists.
      split; [reflexivity | ]. simpl. auto. }
  destruct (isPhone (phone (body_of req))) eqn:H4.
  2:{ rewrite (serve_bad_phone h db req H1 H2 H3 H4). eexists.
      split; [reflexivity | ]. simpl. auto 6. }
  destruct req as [b | ]; [ | discriminate H2]. cbn [body_of] in *.
  assert (Hv : valid_submission b = true)
    by (unfold valid_submission; rewrite H1, H2, H3, H4; reflexivity).
  destruct (valid_response h db b Hv) as [E | E]; rewrite E; eexists;
    (split; [reflexivity | ]); simpl; auto 8.
Qed.

Lemma invalid_untouched h db req :
  valid_submission (body_of req) = false ->
  snd (serve h db req) = initial_world db.
Proof.
  intros Hv. destruct (serve_shape h db req)
    as [(r & E & _) | (b & -> & Hv' & _)].
  - rewrite E. reflexivity.
  - cbn [body_of] in Hv. congruence.
Qed.

(** *** The mails of a run *)

Lemma filter_mail_snoc l ev :
  filter is_mail_event (l ++ [ev])
  = filter is_mail_event l ++ (if is_mail_event ev then [ev] else []).
Proof. rewrite filter_app. reflexivity. Qed.

Lemma deliver_mails h clean ics w :
  exists ms,
    filter is_mail_event
      (w_log (snd (deliver h clean (description_of h clean) ics w)))
    = filter is_mail_event (w_log w) ++ ms
    /\ In ms (mail_patterns (owner_mail h clean ics) (customer_mail h clean ics)).
Proof.
  unfold deliver, getTransporter, console_warn, sendMail, emit,
    World.bind, World.ret, World.throw.
  fold (fromEmail_of h). fold (owner_mail h clean ics).
  fold (customer_mail h clean ics).
  repeat (split_if; cbn [fst snd w_db w_log w_reads]).
  all: rewrite ?filter_mail_snoc; cbn [is_mail_event mail_of_event];
    rewrite <- ?app_assoc; cbn [app]; rewrite ?app_nil_r.
  all: eexists; (split; [first [reflexivity | symmetry; apply app_nil_r] | ]);
    unfold mail_patterns; simpl; auto 10.
Qed.

Lemma serve_mails h db req :
  filter is_mail_event (w_log (snd (serve h db req))) = []
  \/ exists b t,
       req = Some b /\ valid_submission b = true
       /\ appointmentStart_of h (sanitize b) = Some t
       /\ In (filter is_mail_event (w_log (snd (serve h db req))))
            (mail_patterns
               (owner_mail h (sanitize b)
                  (booking_ics h (sanitize b) t
                     (inserted db (booking_row h db b))))
               (customer_mail h (sanitize b)
                  (booking_ics h (sanitize b) t
                     (inserted db (booking_row h db b))))).
Proof.
  destruct (serve_shape h db req)
    as [(r & E & _) | (b & -> & Hv & [E | [(Hdb & E) | (Hc & Hdb & E)]])];
    rewrite E; try (left; reflexivity).
  destruct (notify_cases h (sanitize b) (inserted db (booking_row h db b)))
    as [[_ [n En]] | (t & Es & He & Hc2 & En)]; rewrite En.
  - left. reflexivity.
  - right. exists b, t. repeat (split; [assumption || reflexivity | ]).
    destruct (deliver_mails h (sanitize b)
                (booking_ics h (sanitize b) t (inserted db (booking_row h db b)))
                (advance 2 (inserted db (booking_row h db b))))
      as (ms & Ems & Hin).
    destruct (deliver h (sanitize b) (description_of h (sanitize b))
                (booking_ics h (sanitize b) t (inserted db (booking_row h db b)))
                (advance 2 (inserted db (booking_row h db b))))
      as [[r | e] w']; cbn [caught fst snd logged w_log] in *.
    + rewrite Ems. exact Hin.
    + rewrite filter_mail_snoc, Ems. cbn [is_mail_event mail_of_event].
      rewrite app_nil_r. exact Hin.
Qed.

End RunFacts.
Import RunFacts.

Module CalendarFacts.

Local Open Scope Z_scope.

Lemma count_lf_digits l : forallb is_digit l = true -> count_lf l = 0%nat.
Proof.
  induction l as [ | c l IH]; [reflexivity | ].
  cbn [forallb]. intros H. apply andb_true_iff in H as [Hc Hl].
  rewrite count_lf_cons, IH by exact Hl.
  destruct (N.eqb_spec 10 c) as [<- | _]; [discriminate Hc | reflexivity].
Qed.

Lemma count_lf_pad w n : count_lf (pad w n) = 0%nat.
Proof. apply count_lf_digits, pad_digits. Qed.

Lemma count_lf_filter f s : (count_lf (filter f s) <= count_lf s)%nat.
Proof.
  induction s as [ | c s IH]; [reflexivity | ].
  cbn [filter]. destruct (f c); rewrite ?count_lf_cons; lia.
Qed.

Lemma count_lf_before_dot s : (count_lf (before_dot s) <= count_lf s)%nat.
Proof.
  induction s as [ | c s IH]; [reflexivity | ].
  cbn [before_dot]. destruct (c =? chr_dot)%N; rewrite ?count_lf_cons.
  - unfold count_lf at 1. simpl. lia.
  - lia.
Qed.

Ltac count_literals :=
  repeat match goal with
  | |- context [count_lf (str ?x)] =>
      let v := eval vm_compute in (count_lf (str x)) in
      change (count_lf (str x)) with v
  end.

Lemma count_lf_iso t : count_lf (iso_of_time t) = 0%nat.
Proof.
  unfold iso_of_time. destruct (civil_from_days (Day t)) as [[y m] d].
  rewrite !count_lf_app, !count_lf_pad. count_literals.
  unfold iso_year. destruct ((0 <=? y) && (y <=? 9999)).
  - rewrite count_lf_pad. reflexivity.
  - rewrite count_lf_cons, count_lf_pad.
    destruct (y <? 0); reflexivity.
Qed.

Lemma count_lf_ics_of_time t : count_lf (ics_of_time t) = 0%nat.
Proof.
  unfold ics_of_time. rewrite count_lf_app. count_literals.
  pose proof (count_lf_before_dot (strip_punct (iso_of_time t))) as H1.
  unfold strip_punct in *.
  pose proof (count_lf_filter
                (fun c => negb ((c =? chr_minus)%N || (c =? 58)%N))
                (iso_of_time t)) as H2.
  rewrite count_lf_iso in H2.
  change (count_lf (cons 90%N nil)) with 0%nat.
  unfold code_unit in *. lia.
Qed.

Lemma count_lf_uint d : count_lf (str (NilEmpty.string_of_uint d)) = 0%nat.
Proof.
  induction d; cbn [NilEmpty.string_of_uint]; [reflexivity | ..];
    unfold str in *; cbn [list_ascii_of_string map];
    rewrite count_lf_cons, IHd; reflexivity.
Qed.

Lemma count_lf_int i : count_lf (str (NilZero.string_of_int i)) = 0%nat.
Proof.
  assert (U : forall d, count_lf (str (NilZero.string_of_uint d)) = 0%nat).
  { intros d. unfold NilZero.string_of_uint.
    destruct d; try reflexivity; apply count_lf_uint. }
  destruct i as [d | d]; cbn [NilZero.string_of_int]; [apply U | ].
  unfold str in *. cbn [list_ascii_of_string map].
  rewrite count_lf_cons, U. reflexivity.
Qed.

Lemma count_lf_Number_toString h n :
  Z.abs n <= maxTime -> count_lf (Number_toString h n) = 0%nat.
Proof.
  intros H. unfold Number_toString.
  assert (L : Z.abs n < 2 ^ 53)
    by (eapply Z.le_lt_trans; [exact H | reflexivity]).
  apply Z.ltb_lt in L. rewrite L. apply count_lf_int.
Qed.

(** The line feeds of the calendar: one per line break, plus those of the
    lines. *)
Lemma count_lf_ics_lines uid dtstamp dtstart dtend a :
  count_lf (join crlf (ics_lines uid dtstamp dtstart dtend a))
  = (13 + count_lf uid + count_lf dtstamp + count_lf dtstart
     + count_lf dtend + count_lf (summary a))%nat.
Proof.
  unfold ics_lines. cbn [join]. rewrite !count_lf_app.
  rewrite escape_newlines_no_lf. count_literals.
  change (count_lf crlf) with 1%nat. lia.
Qed.

End CalendarFacts.
Import CalendarFacts.

Module OwnerFacts.

Lemma deliver_no_owner h clean ics w :
  falsy (of_option (TO_EMAIL (h_env h))) = true ->
  exists l,
    w_log (snd (deliver h clean (description_of h clean) ics w)) = w_log w ++ l
    /\ In (Warned skip_warning) l
    /\ (filter is_mail_event l = []
        \/ isEmail (JString (clean_email clean)) = true
           /\ (filter is_mail_event l = [MailSent (customer_mail h clean ics)]
               \/ filter is_mail_event l
                  = [MailFailed (customer_mail h clean ics)])).
Proof.
  intros Hf.
  unfold deliver, getTransporter, console_warn, sendMail, emit,
    World.bind, World.ret, World.throw.
  fold (fromEmail_of h). fold (customer_mail h clean ics). fold skip_warning.
  rewrite Hf.
  repeat (split_if; cbn [fst snd w_db w_log w_reads]).
  all: rewrite <- ?app_assoc; cbn [app].
  all: eexists; (split; [reflexivity | ]); (split; [simpl; auto | ]).
  all: cbn; auto.
Qed.

Lemma serve_no_owner h db req :
  falsy (of_option (TO_EMAIL (h_env h))) = true ->
  filter is_mail_event (w_log (snd (serve h db req))) = []
  \/ exists b t,
       req = Some b
       /\ isEmail (JString (clean_email (sanitize b))) = true
       /\ In (Warned skip_warning) (w_log (snd (serve h db req)))
       /\ (filter is_mail_event (w_log (snd (serve h db req)))
           = [MailSent
                (customer_mail h (sanitize b)
                   (booking_ics h (sanitize b) t
                      (inserted db (booking_row h db b))))]
           \/ filter is_mail_event (w_log (snd (serve h db req)))
              = [MailFailed
                   (customer_mail h (sanitize b)
                      (booking_ics h (sanitize b) t
                         (inserted db (booking_row h db b))))]).
Proof.
  intros Hf.
  destruct (serve_shape h db req)
    as [(r & E & _) | (b & -> & Hv & [E | [(Hdb & E) | (Hc & Hdb & E)]])];
    rewrite E; try (left; reflexivity).
  destruct (notify_cases h (sanitize b) (inserted db (booking_row h db b)))
    as [[_ [n En]] | (t & Es & He & Hc2 & En)]; rewrite En.
  - left. reflexivity.
  - destruct (deliver_no_owner h (sanitize b)
                (booking_ics h (sanitize b) t (inserted db (booking_row h db b)))
                (advance 2 (inserted db (booking_row h db b))) Hf)
      as (l & El & Hw & Hm).
    destruct (deliver h (sanitize b) (description_of h (sanitize b))
                (booking_ics h (sanitize b) t (inserted db (booking_row h db b)))
                (advance 2 (inserted db (booking_row h db b))))
      as [[r | e] w']; cbn [caught fst snd logged w_log advance inserted] in *;
      rewrite El; rewrite ?filter_mail_snoc; rewrite ?filter_app;
      cbn [filter is_mail_event mail_of_event app]; rewrite ?app_nil_r.
    all: destruct Hm as [Hm | (He' & Hm)]; [left; exact Hm | ].
    all: right; exists b, t; split; [reflexivity | ]; split; [exact He' | ].
    all: split; [ | exact Hm].
    + right. exact Hw.
    + right. apply in_or_app. left. exact Hw.
Qed.

End OwnerFacts.
Import OwnerFacts.

Module ClientFacts.

Lemma field_blank_false v :
  field_blank v = false ->
  falsy v = false
  /\ trim (match v with JUndefined => [] | JString s => s end) <> [].
Proof.
  unfold field_blank. intros H. apply orb_false_iff in H as [Hf Ht].
  split; [exact Hf | ]. apply jsstring_eqb_neq in Ht.
  destruct v as [ | s]; [discriminate Hf | exact Ht].
Qed.

Lemma filled_small v : field_blank v = false -> sanitizeSmallText v <> [].
Proof.
  intros H. apply field_blank_false in H as [_ H].
  rewrite sanitizeSmallText_eq. apply firstn_nonempty; [lia | exact H].
Qed.

Lemma filled_text v : field_blank v = false -> sanitizeText v <> [].
Proof.
  intros H. apply field_blank_false in H as [_ H].
  rewrite sanitizeText_eq. apply firstn_nonempty; [lia | exact H].
Qed.

Lemma required_filled b :
  existsb field_blank (required b) = false ->
  field_blank (name b) = false /\ field_blank (email b) = false
  /\ field_blank (phone b) = false /\ field_blank (address b) = false
  /\ field_blank (serviceType b) = false
  /\ field_blank (preferredDate b) = false
  /\ field_blank (preferredTime b) = false.
Proof.
  unfold required. cbn [existsb]. intros H.
  repeat (apply orb_false_iff in H as [?H H]). auto 10.
Qed.

Lemma required_not_missing b :
  existsb field_blank (required b) = false -> missing_required b = false.
Proof.
  intros H. apply required_filled in H as (H1 & H2 & H3 & H4 & H5 & H6 & H7).
  unfold missing_required.
  apply field_blank_false in H1 as [-> _]. apply field_blank_false in H2 as [-> _].
  apply field_blank_false in H3 as [-> _]. apply field_blank_false in H4 as [-> _].
  apply field_blank_false in H5 as [-> _]. apply field_blank_false in H6 as [-> _].
  apply field_blank_false in H7 as [-> _]. reflexivity.
Qed.

Lemma last_disabled_app a b cur :
  last_disabled (a ++ b) cur = last_disabled b (last_disabled a cur).
Proof.
  revert cur. induction a as [ | x a IH]; intros cur; [reflexivity | ].
  destruct x; cbn [app last_disabled]; apply IH.
Qed.

Lemma last_status_app a b cur :
  last_status (a ++ b) cur = last_status b (last_status a cur).
Proof.
  revert cur. induction a as [ | x a IH]; intros cur; [reflexivity | ].
  destruct x; cbn [app last_status]; apply IH.
Qed.

End ClientFacts.
Import ClientFacts.

Module YearFacts.

Local Open Scope Z_scope.

(** The sign of the calendar year, read off the time value. *)
Lemma civil_year_sign t y m d :
  civil_from_days (Day t) = (y, m, d) ->
  (y < 0 <-> t < time_year_0) /\ (9999 < y <-> time_year_10000 <= t).
Proof.
  intros E. unfold civil_from_days in E. cbv zeta in E.
  pose proof (f_equal (fun p => fst (fst p)) E) as Ey.
  cbn [fst snd] in Ey. clear E.
  assert (Hday : (Day t < -719528 <-> t < time_year_0)
                 /\ (2932897 <= Day t <-> time_year_10000 <= t)).
  { unfold Day, msPerDay, time_year_0, time_year_10000.
    Z.to_euclidean_division_equations; lia. }
  destruct Hday as [<- <-].
  pose proof (doe_range (Day t + 719468)) as Hdoe.
  set (era := (Day t + 719468) / 146097) in *.
  set (doe := Day t + 719468 - era * 146097) in *.
  assert (Edoe : doe = Day t + 719468 - era * 146097) by reflexivity.
  pose proof (yoe_range doe Hdoe) as Hyoe.
  pose proof (last_months doe Hdoe) as Hlast.
  pose proof (mp_range _ (doy_range doe Hdoe)) as Hmp.
  set (mp := mp_of (doy_of doe)) in *. set (yoe := yoe_of doe) in *.
  clearbody mp yoe doe era.
  zbool; subst y; lia.
Qed.

Lemma strip_punct_cons c s :
  strip_punct (c :: s)
  = if (c =? chr_minus)%N || (c =? 58)%N then strip_punct s
    else c :: strip_punct s.
Proof.
  unfold strip_punct. cbn [filter].
  destruct ((c =? chr_minus)%N || (c =? 58)%N); reflexivity.
Qed.

(** The calendar date has sixteen characters within years 0 to 9999; before
    them the minus sign goes with the dashes and six digits stay, after them
    the plus sign stays too. *)
Lemma ics_of_time_length t :
  List.length (ics_of_time t)
  = if t <? time_year_0 then 18%nat
    else if t <? time_year_10000 then 16%nat else 19%nat.
Proof.
  destruct (civil_from_days (Day t)) as [[y m] d] eqn:E.
  destruct (civil_year_sign t y m d E) as [Hneg Hbig].
  unfold ics_of_time, iso_of_time. rewrite E. unfold iso_year.
  change (str "-") with [chr_minus]. change (str "T") with [84%N].
  change (str ":") with [58%N]. change (str ".") with [chr_dot].
  change (str "Z") with [90%N].
  assert (Tail : forall p : jsstring,
            forallb is_digit p = true ->
            before_dot
              (strip_punct
                 (p ++ [chr_minus] ++ pad 2 m ++ [chr_minus] ++ pad 2 d
                  ++ [84%N] ++ pad 2 (HourFromTime t) ++ [58%N]
                  ++ pad 2 (MinFromTime t) ++ [58%N]
                  ++ pad 2 (SecFromTime t) ++ [chr_dot]
                  ++ pad 3 (msFromTime t) ++ [90%N]))
            = p ++ pad 2 m ++ pad 2 d ++ [84%N] ++ pad 2 (HourFromTime t)
              ++ pad 2 (MinFromTime t) ++ pad 2 (SecFromTime t)).
  { intros p Hp.
    rewrite !strip_punct_app, !strip_punct_pad, (strip_punct_digits p Hp).
    change (strip_punct [chr_minus]) with (@nil code_unit).
    change (strip_punct [58%N]) with (@nil code_unit).
    change (strip_punct [84%N]) with [84%N].
    change (strip_punct [chr_dot]) with [chr_dot].
    change (strip_punct [90%N]) with [90%N].
    cbn [app].
    rewrite (before_dot_digits p _ Hp), !before_dot_pad.
    change (before_dot (84%N :: ?x)) with (84%N :: before_dot x).
    rewrite !before_dot_pad.
    change (before_dot (chr_dot :: ?x)) with (@nil code_unit).
    rewrite ?app_nil_r. reflexivity. }
  destruct (Z.leb_spec 0 y) as [H0 | H0];
    [destruct (Z.leb_spec y 9999) as [H1 | H1] | ]; cbn [andb];
    unfold jsstring, code_unit in *.
  - rewrite (Tail (pad 4 y) (pad_digits 4 y)).
    destruct (Z.ltb_spec t time_year_0); [lia | ].
    destruct (Z.ltb_spec t time_year_10000); [ | lia].
    rewrite !length_app, !pad_length. reflexivity.
  - destruct (Z.ltb_spec y 0); [lia | ].
    destruct (Z.ltb_spec t time_year_0); [lia | ].
    destruct (Z.ltb_spec t time_year_10000); [lia | ].
    change ((?c :: pad 6 ?n) ++ ?r) with (c :: (pad 6 n ++ r)).
    rewrite strip_punct_cons.
    change ((chr_plus =? chr_minus)%N || (chr_plus =? 58)%N) with false.
    cbv iota.
    change (before_dot (chr_plus :: ?x)) with (chr_plus :: before_dot x).
    unfold jsstring, code_unit in *.
    rewrite (Tail (pad 6 (Z.abs y)) (pad_digits 6 _)).
    cbn [List.length app]. rewrite !length_app, !pad_length. reflexivity.
  - destruct (Z.ltb_spec y 0); [ | lia].
    destruct (Z.ltb_spec t time_year_0); [ | lia].
    change ((?c :: pad 6 ?n) ++ ?r) with (c :: (pad 6 n ++ r)).
    rewrite strip_punct_cons.
    change ((chr_minus =? chr_minus)%N || (chr_minus =? 58)%N) with true.
    cbv iota.
    unfold jsstring, code_unit in *.
    rewrite (Tail (pad 6 (Z.abs y)) (pad_digits 6 _)).
    rewrite !length_app, !pad_length. reflexivity.
Qed.

End YearFacts.
Import YearFacts.

(** *** Reading the calendar line by line *)

Module IcsFacts.

Lemma count_lf_head c l : count_lf (c :: l) = 0%nat -> c <> 10%N /\ count_lf l = 0%nat.
Proof.
  rewrite count_lf_cons. destruct (N.eqb_spec 10 c) as [E | E].
  - discriminate.
  - intros H. split; [congruence | exact H].
Qed.

Lemma not_crlf c d : d <> 10%N -> (c =? 13)%N && (d =? 10)%N = false.
Proof.
  intros H. apply andb_false_iff. right. apply N.eqb_neq. exact H.
Qed.

(** A line without line feeds, followed by a line break, is the first line. *)
Lemma split_crlf_line l rest :
  count_lf l = 0%nat ->
  split_crlf (l ++ crlf ++ rest) = l :: split_crlf rest.
Proof.
  induction l as [ | c l IH]; intros H.
  - reflexivity.
  - apply count_lf_head in H as [Hc Hl]. specialize (IH Hl).
    change ((c :: l) ++ crlf ++ rest) with (c :: (l ++ crlf ++ rest)).
    destruct l as [ | d l'].
    + change ([] ++ crlf ++ rest) with (13%N :: 10%N :: rest) in *.
      cbn [split_crlf] in *. change (13 =? 10)%N with false.
      rewrite andb_false_r. change (13 =? 13)%N with true. cbn [andb].
      reflexivity.
    + change ((d :: l') ++ crlf ++ rest) with (d :: (l' ++ crlf ++ rest)) in *.
      cbn [split_crlf]. apply count_lf_head in Hl as [Hd _].
      rewrite (not_crlf c d Hd).
      cbn [split_crlf] in IH. rewrite IH. reflexivity.
Qed.

Lemma split_crlf_last l : count_lf l = 0%nat -> split_crlf l = [l].
Proof.
  induction l as [ | c l IH]; intros H.
  - reflexivity.
  - apply count_lf_head in H as [Hc Hl]. specialize (IH Hl).
    destruct l as [ | d l'].
    + reflexivity.
    + cbn [split_crlf]. apply count_lf_head in Hl as [Hd _].
      rewrite (not_crlf c d Hd). cbn [split_crlf] in IH. rewrite IH.
      reflexivity.
Qed.

(** Lines without line feeds are read back as they were joined. *)
Lemma split_crlf_join l lines :
  Forall (fun x => count_lf x = 0%nat) (l :: lines) ->
  split_crlf (join crlf (l :: lines)) = l :: lines.
Proof.
  revert l. induction lines as [ | l2 lines IH]; intros l H.
  - apply split_crlf_last. inversion H. assumption.
  - change (join crlf (l :: l2 :: lines))
      with (l ++ crlf ++ join crlf (l2 :: lines)).
    inversion H as [ | ? ? Hl Hrest]. subst.
    rewrite split_crlf_line by exact Hl. rewrite IH by exact Hrest.
    reflexivity.
Qed.

Lemma strip_prefix_app p v : strip_prefix p (p ++ v) = Some v.
Proof.
  induction p as [ | a p IH]; [reflexivity | ].
  cbn [app strip_prefix]. rewrite N.eqb_refl. exact IH.
Qed.

Ltac literals :=
  repeat match goal with
  | |- context [str ?x] =>
      let v := eval vm_compute in (str x) in change (str x) with v
  end.

(** The lines of the calendar are read back one by one when no line feed is
    in them; only one is a [DTSTART] and only one a [DTEND]. *)
Lemma ics_lines_values uid stamp dtstart dtend a :
  count_lf uid = 0%nat -> count_lf stamp = 0%nat ->
  count_lf dtstart = 0%nat -> count_lf dtend = 0%nat ->
  count_lf (summary a) = 0%nat ->
  property_values "DTSTART" (join crlf (ics_lines uid stamp dtstart dtend a))
  = [dtstart]
  /\ property_values "DTEND" (join crlf (ics_lines uid stamp dtstart dtend a))
     = [dtend].
Proof.
  intros Hu Hs H1 H2 Hsum.
  assert (E : split_crlf (join crlf (ics_lines uid stamp dtstart dtend a))
              = ics_lines uid stamp dtstart dtend a).
  { unfold ics_lines. apply split_crlf_join.
    repeat (apply Forall_cons; [rewrite ?count_lf_app; count_literals;
                                rewrite ?escape_newlines_no_lf; lia | ]).
    apply Forall_nil. }
  unfold property_values. rewrite E. unfold ics_lines.
  split; literals; cbn [flat_map app strip_prefix N.eqb Pos.eqb];
    rewrite ?app_nil_r; reflexivity.
Qed.

End IcsFacts.
Import IcsFacts.

Local Open Scope Z_scope.

(** ** Examples

    The submissions of the specification, run on a host whose mail and
    storage work and whose local time is UTC. *)

Example iso_of_time_example :
  iso_of_time 1748768400000 = str "2025-06-01T09:00:00.000Z".
Proof. reflexivity. Qed.

Example iso_of_time_last_instant :
  iso_of_time maxTime = str "+275760-09-13T00:00:00.000Z".
Proof. reflexivity. Qed.

Example ics_of_time_example :
  ics_of_time 1748768400000 = str "20250601T090000Z".
Proof. reflexivity. Qed.

Example isEmail_examples :
  isEmail (JString (str "jo@x.com")) = true
  /\ isEmail (JString (str "not-an-email")) = false
  /\ isEmail (JString (str "jo@x")) = false
  /\ isEmail (JString (str "jo smith@x.com")) = false
  /\ isEmail JUndefined = false.
Proof. repeat split. Qed.

Example isPhone_examples :
  isPhone (JString (str "555-1212")) = true
  /\ isPhone (JString (str "+1 (555) 555-1212")) = true
  /\ isPhone (JString (str "555-12")) = false
  /\ isPhone (JString (str "555-CALL")) = false.
Proof. repeat split. Qed.

Example toInt_examples :
  toInt (JString (str "1200")) None = Some (Finite 1200)
  /\ toInt (JString (str "  -7")) None = Some (Finite (-7))
  /\ toInt (JString (str "12.5")) None = Some (Finite 12)
  /\ toInt (JString (str "big")) None = None
  /\ toInt (JString []) None = None
  /\ toInt JUndefined None = None
  /\ toInt (JString (str "9007199254740993")) None
     = Some (Finite 9007199254740992).
Proof. repeat split. Qed.

Example sanitize_examples :
  sanitizeSmallText (JString (str "  Jo  ")) = str "Jo"
  /\ sanitizeSmallText JUndefined = []
  /\ List.length (sanitizeSmallText (JString (repeat chr_9 300))) = 200%nat
  /\ List.length (sanitizeText (JString (repeat chr_9 3000))) = 2000%nat.
Proof. vm_compute. repeat split. Qed.

Example jo_is_booked :
  fst (serve good_host [] (Some jo)) = Ok (json_ok 200 "Booking received.")
  /\ w_db (snd (serve good_host [] (Some jo))) = [booking_row good_host [] jo]
  /\ map is_mail_event (w_log (snd (serve good_host [] (Some jo))))
     = [false; true; true].
Proof. vm_compute. repeat split. Qed.

Example jo_calendar_lines :
  firstn 2
    (skipn 8
       (ics_lines [] [] (ics_of_time 1748768400000)
          (ics_of_time (1748768400000 + 60 * 60 * 1000))
          {| summary := []; description := []; startISO := [];
             endISO := [] |}))
  = [str "DTSTART:20250601T090000Z"; str "DTEND:20250601T100000Z"].
Proof. reflexivity. Qed.

Example spam_is_dropped :
  serve good_host [] (Some (with_website (JString (str "http://spam.biz")) jo))
  = (Ok (json_ok 200 "Thanks!"), initial_world []).
Proof. reflexivity. Qed.

Example bad_email_is_rejected :
  serve good_host [] (Some (with_email (JString (str "not-an-email")) jo))
  = (Ok (json_error 400 "Invalid email address."), initial_world []).
Proof. reflexivity. Qed.

Example storage_failure :
  serve db_down_host [] (Some jo)
  = (Ok server_error,
     {| w_db := []; w_log := [InsertFailed; ErrorLogged StorageError];
        w_reads := 1 |}).
Proof. reflexivity. Qed.

Example unreadable_date_is_persisted_then_fails :
  fst (serve good_host []
         (Some {| name := name jo; email := email jo; phone := phone jo;
                  address := address jo; serviceType := serviceType jo;
                  sqft := sqft jo; preferredDate := JString (str "tomorrow");
                  preferredTime := preferredTime jo; notes := notes jo;
                  website := website jo |}))
  = Ok server_error.
Proof. vm_compute. reflexivity. Qed.

(** * The claims *)

(** C1, as stated, fails: a submission that misses a required field but fills
    the honeypot is answered with the silent success, not with a validation
    failure. *)
Lemma C1_honeypot_precedes_validation :
  existsb blank (required_fields spam_bot) = true
  /\ fst (serve good_host [] (Some spam_bot)) = Ok (json_ok 200 "Thanks!")
  /\ status (json_ok 200 "Thanks!") <> 400.
Proof. repeat split. discriminate. Qed.

(** C1, amended: when the honeypot is not triggered and some required field is
    missing or is the empty string, the handler answers 400 with the message
    [Missing required fields.], persists nothing and sends nothing. *)
Theorem C1_missing_required_rejected h db req :
  honeypot_filled (body_of req) = false ->
  existsb absent_or_empty (required_fields (body_of req)) = true ->
  serve h db req
  = (Ok (json_error 400 "Missing required fields."), initial_world db).
Proof.
  intros H1 H2. apply serve_missing; [assumption | ].
  rewrite missing_required_spec. assumption.
Qed.

Lemma C1_missing_required_rejected_witness :
  honeypot_filled (body_of (Some (with_name JUndefined jo))) = false
  /\ existsb absent_or_empty
       (required_fields (body_of (Some (with_name JUndefined jo)))) = true
  /\ serve good_host [] (Some (with_name JUndefined jo))
     = (Ok (json_error 400 "Missing required fields."), initial_world []).
Proof.
  split; [reflexivity | ]. split; [reflexivity | ].
  apply (C1_missing_required_rejected good_host [] (Some (with_name JUndefined jo)));
    reflexivity.
Defined.

(** C2, as stated, fails: with the record persisted and the mail transport
    down, the handler answers with the generic server error. *)
Lemma C2_send_failure_is_server_error :
  valid_submission jo = true
  /\ w_db (snd (serve smtp_down_host [] (Some jo)))
     = [booking_row smtp_down_host [] jo]
  /\ existsb is_mail_failure (w_log (snd (serve smtp_down_host [] (Some jo))))
     = true
  /\ fst (serve smtp_down_host [] (Some jo))
     = Ok (json_error 500 "Server error.").
Proof. vm_compute. repeat split. Qed.

(** C2, amended: for a valid submission whose record has been persisted, the
    record stays persisted whatever follows; the handler answers with the
    acknowledgment [Booking received.] when the appointment is a valid date
    and no attempted send fails, and with the generic 500 [Server error.]
    when an attempted send fails. *)
Theorem C2_ack_unless_send_fails h db b :
  valid_submission b = true -> clock_ok h 0 ->
  h_db_ok h db (booking_row h db b) = true ->
  w_db (snd (serve h db (Some b))) = db ++ [booking_row h db b]
  /\ (existsb is_mail_failure (w_log (snd (serve h db (Some b)))) = true ->
      fst (serve h db (Some b)) = Ok (json_error 500 "Server error."))
  /\ (forall t,
        appointmentStart_of h (sanitize b) = Some t ->
        Z.abs (t + 60 * 60 * 1000) <= maxTime -> clock_ok h 2 ->
        existsb is_mail_failure (w_log (snd (serve h db (Some b)))) = false ->
        fst (serve h db (Some b)) = Ok (json_ok 200 "Booking received.")).
Proof. exact (persisted_outcome h db b). Qed.

Lemma C2_ack_unless_send_fails_witness :
  valid_submission jo = true /\ clock_ok good_host 0
  /\ h_db_ok good_host [] (booking_row good_host [] jo) = true
  /\ w_db (snd (serve smtp_down_host [] (Some jo)))
     = [] ++ [booking_row smtp_down_host [] jo]
  /\ fst (serve good_host [] (Some jo)) = Ok (json_ok 200 "Booking received.").
Proof.
  assert (Hc0 : clock_ok good_host 0) by (vm_compute; discriminate).
  assert (Hc2 : clock_ok good_host 2) by (vm_compute; discriminate).
  split; [reflexivity | ]. split; [exact Hc0 | ]. split; [reflexivity | ].
  split.
  - apply (C2_ack_unless_send_fails smtp_down_host [] jo);
      [reflexivity | exact Hc0 | reflexivity].
  - apply (C2_ack_unless_send_fails good_host [] jo eq_refl Hc0 eq_refl)
      with (t := 1748768400000).
    + vm_compute. reflexivity.
    + vm_compute. discriminate.
    + exact Hc2.
    + vm_compute. reflexivity.
Defined.

(** C3, as stated, fails: a honeypot field that holds only white space is not
    empty, yet the submission is processed: the record is persisted and mail
    is sent. *)
Lemma C3_blank_honeypot_processed :
  website (with_website (JString (str " ")) jo) = JString [32%N]
  /\ w_db (snd (serve good_host [] (Some (with_website (JString (str " ")) jo))))
     = [booking_row good_host [] (with_website (JString (str " ")) jo)]
  /\ existsb is_mail_event
       (w_log (snd (serve good_host []
                      (Some (with_website (JString (str " ")) jo))))) = true.
Proof. vm_compute. repeat split. Qed.

(** C3, amended: when the honeypot field is non-empty after trimming white
    space, the handler answers with the success [Thanks!], persists nothing
    and sends nothing. *)
Theorem C3_honeypot_silent_success h db req s :
  website (body_of req) = JString s -> trim s <> [] ->
  serve h db req = (Ok (json_ok 200 "Thanks!"), initial_world db).
Proof.
  intros E H. apply serve_honeypot. eapply honeypot_filled_spec; eassumption.
Qed.

Lemma C3_honeypot_silent_success_witness :
  website (body_of (Some (with_website (JString (str "http://spam.biz")) jo)))
  = JString (str "http://spam.biz")
  /\ trim (str "http://spam.biz") <> []
  /\ serve good_host [] (Some (with_website (JString (str "http://spam.biz")) jo))
     = (Ok (json_ok 200 "Thanks!"), initial_world []).
Proof.
  split; [reflexivity | ]. split; [vm_compute; discriminate | ].
  apply (C3_honeypot_silent_success good_host []
           (Some (with_website (JString (str "http://spam.biz")) jo))
           (str "http://spam.biz"));
    [reflexivity | vm_compute; discriminate].
Defined.

(** C4: in every run, whatever mail the handler attempts to send comes after
    a successful insert of the record, which is then in the table; and when
    the insert fails the request ends with the server error, the table is
    unchanged and no mail is attempted. *)
Theorem C4_persistence_precedes_mail h db req :
  (forall pre ev post,
      w_log (snd (serve h db req)) = pre ++ ev :: post ->
      is_mail_event ev = true ->
      exists r, In (Inserted r) pre /\ In r (w_db (snd (serve h db req))))
  /\ (In InsertFailed (w_log (snd (serve h db req))) ->
      fst (serve h db req) = Ok (json_error 500 "Server error.")
      /\ w_db (snd (serve h db req)) = db
      /\ existsb is_mail_event (w_log (snd (serve h db req))) = false).
Proof.
  destruct (serve_log_shape h db req)
    as [(Edb & Hnomail & Hfail) | (r & l & Edb & Elog & Hnofail)].
  - split.
    + intros pre ev post E Hev. rewrite E, forallb_app in Hnomail.
      apply andb_true_iff in Hnomail as [_ H]. cbn [forallb] in H.
      rewrite Hev in H. discriminate H.
    + intros F. repeat split; [apply Hfail, F | exact Edb | ].
      apply not_true_is_false. intros Hex.
      apply existsb_exists in Hex as (ev & Hin & Hev).
      rewrite forallb_forall in Hnomail. specialize (Hnomail ev Hin).
      rewrite Hev in Hnomail. discriminate Hnomail.
  - rewrite Edb, Elog. split.
    + intros [ | ev0 pre] ev post E Hev; cbn [app] in E; injection E as E1 E2.
      * subst ev. discriminate Hev.
      * subst ev0. exists r. split; [left; reflexivity | ].
        apply in_or_app. right. left. reflexivity.
    + intros [F | F]; [discriminate F | contradiction].
Qed.

Lemma C4_persistence_precedes_mail_witness :
  (exists r, In (Inserted r) [Inserted (booking_row good_host [] jo)]
             /\ In r (w_db (snd (serve good_host [] (Some jo)))))
  /\ (fst (serve db_down_host [] (Some jo))
      = Ok (json_error 500 "Server error.")
      /\ w_db (snd (serve db_down_host [] (Some jo))) = []
      /\ existsb is_mail_event (w_log (snd (serve db_down_host [] (Some jo))))
         = false).
Proof.
  split.
  - apply (proj1 (C4_persistence_precedes_mail good_host [] (Some jo))
             [Inserted (booking_row good_host [] jo)]
             (nth 1 (w_log (snd (serve good_host [] (Some jo)))) InsertFailed)
             (skipn 2 (w_log (snd (serve good_host [] (Some jo)))))).
    + vm_compute. reflexivity.
    + vm_compute. reflexivity.
  - apply (proj2 (C4_persistence_precedes_mail db_down_host [] (Some jo))).
    vm_compute. left. reflexivity.
Defined.

(** C5 fails on the code: a name made of blanks passes the required-field
    check, is trimmed to the empty string by the sanitizer, and the record is
    persisted with an empty name and acknowledged. *)
Lemma C5_blank_name_persisted :
  blank (JString (str "   ")) = true
  /\ fst (serve good_host [] (Some (with_name (JString (str "   ")) jo)))
     = Ok (json_ok 200 "Booking received.")
  /\ exists r,
       w_db (snd (serve good_host [] (Some (with_name (JString (str "   ")) jo))))
       = [r]
       /\ r_name r = [].
Proof.
  split; [reflexivity | ]. split; [vm_compute; reflexivity | ].
  eexists. split; vm_compute; reflexivity.
Qed.

(** C6, as stated, fails twice.  The shape it describes is wider than the
    check: [a@b@c.d] has a local part free of white space and [@], an [@], and
    a domain without white space that holds a dot, yet the check rejects it.
    And an invalid email is not always answered with the email error: when
    a required field is missing as well, the answer is the missing-fields
    error. *)
Lemma C6_shape_wider_than_check :
  email_shape (str "a@b@c.d") = true
  /\ isEmail (JString (str "a@b@c.d")) = false
  /\ fst (serve good_host [] (Some (with_email (JString (str "a@b@c.d")) jo)))
     = Ok (json_error 400 "Invalid email address.")
  /\ isEmail (JString (str "not-an-email")) = false
  /\ fst (serve good_host []
            (Some (with_name JUndefined
                     (with_email (JString (str "not-an-email")) jo))))
     = Ok (json_error 400 "Missing required fields.").
Proof. vm_compute. repeat split. Qed.

(** C6, amended: for a submission that passes the honeypot and the
    required-field checks, an email that fails the check is answered with 400
    [Invalid email address.] and nothing is persisted or sent, and an email
    that passes is never answered with that error; the check accepts exactly
    the strings [local@d1.d2] whose three parts are non-empty and free of
    white space and [@]. *)
Theorem C6_email_check h db req :
  honeypot_filled (body_of req) = false ->
  missing_required (body_of req) = false ->
  (isEmail (email (body_of req)) = false ->
   serve h db req
   = (Ok (json_error 400 "Invalid email address."), initial_world db))
  /\ (isEmail (email (body_of req)) = true ->
      fst (serve h db req) <> Ok (json_error 400 "Invalid email address."))
  /\ (forall s,
        isEmail (JString s) = true <->
        exists l d1 d2,
          s = l ++ [chr_at] ++ d1 ++ [chr_dot] ++ d2
          /\ l <> [] /\ d1 <> [] /\ d2 <> []
          /\ forallb not_ws_at l = true /\ forallb not_ws_at d1 = true
          /\ forallb not_ws_at d2 = true).
Proof.
  intros H1 H2. split; [ | split].
  - intros H3. apply serve_bad_email; assumption.
  - intros H3. destruct (isPhone (phone (body_of req))) eqn:H4.
    + destruct req as [b | ]; [ | discriminate H2]. cbn [body_of] in *.
      assert (Hv : valid_submission b = true)
        by (unfold valid_submission; rewrite H1, H2, H3, H4; reflexivity).
      destruct (valid_response h db b Hv) as [E | E]; rewrite E;
        intros F; vm_compute in F; discriminate F.
    + rewrite (serve_bad_phone h db req H1 H2 H3 H4).
      intros F; vm_compute in F; discriminate F.
  - apply isEmail_spec.
Qed.

Lemma C6_email_check_witness :
  honeypot_filled (body_of (Some (with_email (JString (str "not-an-email")) jo)))
  = false
  /\ missing_required
       (body_of (Some (with_email (JString (str "not-an-email")) jo))) = false
  /\ serve good_host [] (Some (with_email (JString (str "not-an-email")) jo))
     = (Ok (json_error 400 "Invalid email address."), initial_world []).
Proof.
  split; [reflexivity | ]. split; [reflexivity | ].
  apply (C6_email_check good_host []
           (Some (with_email (JString (str "not-an-email")) jo)));
    reflexivity.
Defined.

(** C7, as stated, fails twice.  The check accepts any white space where the
    claim allows spaces: [555<TAB>1212] is not drawn from digits, hyphen,
    plus, parentheses and spaces, yet it passes and the record is persisted.
    And an invalid phone is not always answered with the phone error: when
    the email is invalid as well, the answer is the email error. *)
Lemma C7_tab_passes_phone_check :
  phone_shape (str "555" ++ [9%N] ++ str "1212") = false
  /\ isPhone (JString (str "555" ++ [9%N] ++ str "1212")) = true
  /\ w_db (snd (serve good_host []
                  (Some (with_phone
                           (JString (str "555" ++ [9%N] ++ str "1212")) jo))))
     = [booking_row good_host []
          (with_phone (JString (str "555" ++ [9%N] ++ str "1212")) jo)]
  /\ isPhone (JString (str "12")) = false
  /\ fst (serve good_host []
            (Some (with_phone (JString (str "12"))
                     (with_email (JString (str "not-an-email")) jo))))
     = Ok (json_error 400 "Invalid email address.").
Proof. vm_compute. repeat split. Qed.

(** C7, amended: for a submission that passes the honeypot, required-field
    and email checks, a phone that fails the check is answered with 400
    [Invalid phone number.] and nothing is persisted or sent, and a phone that
    passes is never answered with that error; the check accepts exactly the
    strings of at least 7 characters drawn from digits, hyphen, plus,
    parentheses and white space, among them every string of the shape the
    claim describes. *)
Theorem C7_phone_check h db req :
  honeypot_filled (body_of req) = false ->
  missing_required (body_of req) = false ->
  isEmail (email (body_of req)) = true ->
  (isPhone (phone (body_of req)) = false ->
   serve h db req
   = (Ok (json_error 400 "Invalid phone number."), initial_world db))
  /\ (isPhone (phone (body_of req)) = true ->
      fst (serve h db req) <> Ok (json_error 400 "Invalid phone number."))
  /\ (forall s,
        isPhone (JString s) = true <->
        (7 <= List.length s)%nat /\ forallb phone_char s = true)
  /\ (forall s, phone_shape s = true -> isPhone (JString s) = true).
Proof.
  intros H1 H2 H3. split; [ | split; [ | split]].
  - intros H4. apply serve_bad_phone; assumption.
  - intros H4.
    destruct req as [b | ]; [ | discriminate H2]. cbn [body_of] in *.
    assert (Hv : valid_submission b = true)
      by (unfold valid_submission; rewrite H1, H2, H3, H4; reflexivity).
    destruct (valid_response h db b Hv) as [E | E]; rewrite E;
      intros F; vm_compute in F; discriminate F.
  - apply isPhone_spec.
  - apply phone_shape_passes.
Qed.

Lemma C7_phone_check_witness :
  honeypot_filled (body_of (Some (with_phone (JString (str "12")) jo))) = false
  /\ missing_required (body_of (Some (with_phone (JString (str "12")) jo)))
     = false
  /\ isEmail (email (body_of (Some (with_phone (JString (str "12")) jo))))
     = true
  /\ serve good_host [] (Some (with_phone (JString (str "12")) jo))
     = (Ok (json_error 400 "Invalid phone number."), initial_world []).
Proof.
  split; [reflexivity | ]. split; [reflexivity | ]. split; [reflexivity | ].
  apply (C7_phone_check good_host [] (Some (with_phone (JString (str "12")) jo)));
    reflexivity.
Defined.

(** C8, as stated, fails: an appointment at 23:30 on the last day of the year
    9999 is accepted and acknowledged, and both mails are sent, but the end
    of the appointment lies in the year 10000, which the calendar format
    cannot express: the [DTEND] line of the attached calendar holds
    [+0100000101T003000Z], which is not a calendar time, so the payload has
    no end time 3600 seconds after its start. *)
Lemma C8_end_in_year_10000 :
  fst (serve good_host [] (Some jo_9999))
  = Ok (json_ok 200 "Booking received.")
  /\ flat_map (fun m => flat_map (fun att =>
                property_values "DTSTART" (a_content att)) (m_attachments m))
       (mails_of (w_log (snd (serve good_host [] (Some jo_9999)))))
     = [str "99991231T233000Z"; str "99991231T233000Z"]
  /\ flat_map (fun m => flat_map (fun att =>
                property_values "DTEND" (a_content att)) (m_attachments m))
       (mails_of (w_log (snd (serve good_host [] (Some jo_9999)))))
     = [str "+0100000101T003000Z"; str "+0100000101T003000Z"]
  /\ ics_seconds (str "99991231T233000Z") = Some 253402299000
  /\ ics_seconds (str "+0100000101T003000Z") = None.
Proof. vm_compute. repeat split. Qed.

(** C8, amended: in every calendar that the handler attaches to a mail, when
    the appointment and the hour after it lie within the years 0 to 9999 and
    neither the brand nor the stored service type holds a line feed, there is
    exactly one [DTSTART] line and exactly one [DTEND] line; the first reads
    as the appointment start, which comes from the preferred date and time
    alone, and the second as the instant exactly 3600 seconds later. *)
Theorem C8_calendar_one_hour h db req ev m att :
  In ev (w_log (snd (serve h db req))) -> mail_of_event ev = Some m ->
  In att (m_attachments m) -> clock_ok h 1 ->
  exists b t,
    req = Some b
    /\ Date_of_string h
         (sanitizeSmallText (preferredDate b) ++ str "T"
          ++ sanitizeSmallText (preferredTime b) ++ str ":00") = Some t
    /\ (time_year_0 <= t -> t + 3600 * 1000 < time_year_10000 ->
        count_lf (BRAND_NAME h) = 0%nat ->
        count_lf (sanitizeSmallText (serviceType b)) = 0%nat ->
        exists dtstart dtend,
          property_values "DTSTART" (a_content att) = [dtstart]
          /\ property_values "DTEND" (a_content att) = [dtend]
          /\ ics_seconds dtstart = Some (t / 1000)
          /\ ics_seconds dtend = Some (t / 1000 + 3600)).
Proof.
  intros Hin Hm Hatt Hc.
  destruct (serve_mail_attachments h db req ev m Hin Hm)
    as (b & t & -> & Es & He & Eatt).
  rewrite Eatt in Hatt. destruct Hatt as [<- | []].
  exists b, t. split; [reflexivity | ]. split; [exact Es | ].
  intros H0 H1 Hb Hs.
  exists (ics_of_time t), (ics_of_time (t + 60 * 60 * 1000)).
  cbn [ics_attachment a_content]. unfold booking_ics.
  destruct (ics_lines_values
              (str "booking-"
               ++ Number_toString h
                    (h_clock h (w_reads (inserted db (booking_row h db b))))
               ++ str "@pressurewash")
              (ics_of_time
                 (h_clock h (S (w_reads (inserted db (booking_row h db b))))))
              (ics_of_time t) (ics_of_time (t + 60 * 60 * 1000))
              {| summary := BRAND_NAME h ++ str " " ++ em_dash ++ str " "
                            ++ clean_serviceType (sanitize b);
                 description := description_of h (sanitize b);
                 startISO := iso_of_time t;
                 endISO := iso_of_time (t + 60 * 60 * 1000) |})
    as [E1 E2].
  - cbn [inserted w_reads]. rewrite !count_lf_app.
    rewrite (count_lf_Number_toString h _ Hc). reflexivity.
  - apply count_lf_ics_of_time.
  - apply count_lf_ics_of_time.
  - apply count_lf_ics_of_time.
  - cbn [summary sanitize clean_serviceType]. rewrite !count_lf_app, Hb, Hs.
    reflexivity.
  - split; [exact E1 | ]. split; [exact E2 | ]. split.
    + apply ics_seconds_of_time. lia.
    + rewrite ics_seconds_of_time by lia. f_equal. apply (one_hour_later t).
Qed.

Lemma C8_calendar_one_hour_witness :
  clock_ok good_host 1
  /\ time_year_0 <= 1748768400000
  /\ 1748768400000 + 3600 * 1000 < time_year_10000
  /\ count_lf (BRAND_NAME good_host) = 0%nat
  /\ count_lf (sanitizeSmallText (serviceType jo)) = 0%nat
  /\ exists dtstart dtend,
       property_values "DTSTART"
         (a_content
            (ics_attachment
               (booking_ics good_host (sanitize jo) 1748768400000
                  (inserted [] (booking_row good_host [] jo)))))
       = [dtstart]
       /\ property_values "DTEND"
            (a_content
               (ics_attachment
                  (booking_ics good_host (sanitize jo) 1748768400000
                     (inserted [] (booking_row good_host [] jo)))))
          = [dtend]
       /\ ics_seconds dtstart = Some 1748768400
       /\ ics_seconds dtend = Some (1748768400 + 3600).
Proof.
  assert (Hc : clock_ok good_host 1) by (vm_compute; discriminate).
  assert (H0 : time_year_0 <= 1748768400000) by (vm_compute; discriminate).
  assert (H1 : 1748768400000 + 3600 * 1000 < time_year_10000)
    by (vm_compute; reflexivity).
  split; [exact Hc | ]. split; [exact H0 | ]. split; [exact H1 | ].
  split; [reflexivity | ]. split; [reflexivity | ].
  destruct (C8_calendar_one_hour good_host [] (Some jo)
              (nth 1 (w_log (snd (serve good_host [] (Some jo)))) InsertFailed)
              (ownerMail_of (sanitize jo)
                 (JString (str "mailer@example.com"))
                 (JString (str "owner@example.com"))
                 (description_of good_host (sanitize jo))
                 (booking_ics good_host (sanitize jo) 1748768400000
                    (inserted [] (booking_row good_host [] jo))))
              (ics_attachment
                 (booking_ics good_host (sanitize jo) 1748768400000
                    (inserted [] (booking_row good_host [] jo)))))
    as (b & t & Eb & Es & K).
  - vm_compute. right. left. reflexivity.
  - vm_compute. reflexivity.
  - left. reflexivity.
  - exact Hc.
  - injection Eb as <-. vm_compute in Es. injection Es as <-.
    destruct (K H0 H1 eq_refl eq_refl) as (ds & de & E1 & E2 & E3 & E4).
    exists ds, de. split; [exact E1 | ]. split; [exact E2 | ].
    split; [exact E3 | exact E4].
Defined.

(** C9, as stated, fails in both directions: [12abc] is not numeric, yet it
    is stored as the integer 12; a run of four hundred digits is numeric, yet
    it is stored as null. *)
Lemma C9_prefix_is_parsed :
  numeric (str "12abc") = false
  /\ toInt (JString (str "12abc")) None = Some (Finite 12)
  /\ numeric (repeat chr_9 400) = true
  /\ toInt (JString (repeat chr_9 400)) None = None.
Proof. vm_compute. repeat split. Qed.

(** C9, amended: [toInt] never fails and yields an integer or null, and the
    record stores what it yields.  An input that starts, after optional white
    space, with an optional sign and a run of decimal digits is stored as the
    Number value of that signed run: the integer itself below [2^53], null
    from [2^1024] on.  Any other input, and a missing field, is stored as
    null. *)
Theorem C9_toInt_prefix :
  (forall v, toInt v None = None \/ exists z, toInt v None = Some (Finite z))
  /\ (forall h db b, r_sqft (booking_row h db b) = toInt (sqft b) None)
  /\ toInt JUndefined None = None
  /\ (forall s sign ds rest,
        integer_prefix s sign ds rest ->
        toInt (JString s) None
        = stored (Number_of_int (sign_value sign * digits_value ds))
        /\ (digits_value ds < 2 ^ 53 ->
            toInt (JString s) None
            = Some (Finite (sign_value sign * digits_value ds)))
        /\ (2 ^ 1024 <= digits_value ds -> toInt (JString s) None = None))
  /\ (forall s,
        (forall sign ds rest, ~ integer_prefix s sign ds rest) ->
        toInt (JString s) None = None).
Proof.
  split; [ | split; [ | split; [ | split]]].
  - intros v. rewrite toInt_stored. destruct (parseInt10 v); cbn [stored]; eauto.
  - reflexivity.
  - reflexivity.
  - intros s sign ds rest Hp. rewrite toInt_stored.
    rewrite (parseInt10_prefix s sign ds rest Hp).
    pose proof (digits_value_nonneg ds) as Hnn.
    assert (Habs : Z.abs (sign_value sign * digits_value ds) = digits_value ds)
      by (destruct (sign_value_cases sign) as [-> | ->]; lia).
    split; [reflexivity | ]. split.
    + intros Hlt. rewrite Number_of_int_exact by (rewrite Habs; exact Hlt).
      reflexivity.
    + intros Hge. rewrite Number_of_int_overflow by (rewrite Habs; exact Hge).
      reflexivity.
  - intros s Hno. rewrite toInt_stored, parseInt10_no_prefix by exact Hno.
    reflexivity.
Qed.

Lemma C9_toInt_prefix_witness :
  integer_prefix (str " -42px") [chr_minus] (str "42") (str "px")
  /\ digits_value (str "42") < 2 ^ 53
  /\ toInt (JString (str " -42px")) None = Some (Finite (-1 * 42)).
Proof.
  assert (Hp : integer_prefix (str " -42px") [chr_minus] (str "42") (str "px")).
  { exists [32%N]. repeat split; try reflexivity;
      [right; right; reflexivity | discriminate]. }
  assert (Hv : digits_value (str "42") < 2 ^ 53) by (vm_compute; reflexivity).
  split; [exact Hp | ]. split; [exact Hv | ].
  destruct C9_toInt_prefix as (_ & _ & _ & H & _).
  destruct (H (str " -42px") [chr_minus] (str "42") (str "px") Hp)
    as (_ & Hexact & _).
  exact (Hexact Hv).
Defined.

(** C10: for a valid submission that omits the notes, the record that is
    persisted holds the empty string in its notes column, not a null. *)
Theorem C10_omitted_notes_stored_empty h db b :
  valid_submission b = true -> notes b = JUndefined ->
  clock_ok h 0 -> h_db_ok h db (booking_row h db b) = true ->
  w_db (snd (serve h db (Some b))) = db ++ [booking_row h db b]
  /\ r_notes (booking_row h db b) = Some [].
Proof.
  intros Hv Hn Hc Hdb. split.
  - apply (persisted_outcome h db b Hv Hc Hdb).
  - unfold booking_row, sanitize. cbn [r_notes clean_notes]. rewrite Hn.
    reflexivity.
Qed.

Lemma C10_omitted_notes_stored_empty_witness :
  valid_submission jo = true /\ notes jo = JUndefined
  /\ clock_ok good_host 0
  /\ h_db_ok good_host [] (booking_row good_host [] jo) = true
  /\ w_db (snd (serve good_host [] (Some jo)))
     = [] ++ [booking_row good_host [] jo]
  /\ r_notes (booking_row good_host [] jo) = Some [].
Proof.
  assert (Hc0 : clock_ok good_host 0) by (vm_compute; discriminate).
  split; [reflexivity | ]. split; [reflexivity | ]. split; [exact Hc0 | ].
  split; [reflexivity | ].
  apply (C10_omitted_notes_stored_empty good_host [] jo);
    [reflexivity | reflexivity | exact Hc0 | reflexivity].
Defined.

(** * Further properties

    Properties of the code beyond the claims above: the sanitizers and the
    validators, the runs of the handler, the calendar, the mail transport,
    the health endpoint, and the form page in front of the server. *)

Local Close Scope Z_scope.

(** X1: both sanitizers bound the length of what they return (200 and 2000
    code units), never return a text that starts with white space, and agree
    on the first 200 code units. *)
Theorem X1_sanitizers_bound v :
  (List.length (sanitizeSmallText v) <= 200)%nat
  /\ (List.length (sanitizeText v) <= 2000)%nat
  /\ starts_with_ws (sanitizeSmallText v) = false
  /\ starts_with_ws (sanitizeText v) = false
  /\ sanitizeSmallText v = firstn 200 (sanitizeText v).
Proof.
  rewrite sanitizeSmallText_eq, sanitizeText_eq.
  split; [apply firstn_le_length | ]. split; [apply firstn_le_length | ].
  split; [apply firstn_starts, trim_starts | ].
  split; [apply firstn_starts, trim_starts | ].
  rewrite firstn_firstn. reflexivity.
Qed.

(** X2: when the trimmed input has at most 200 code units,
    [sanitizeSmallText] is exactly [trim]: the result has no white space at
    either end and sanitizing it again changes nothing. *)
Theorem X2_sanitize_short_is_trim s :
  (List.length (trim s) <= 200)%nat ->
  sanitizeSmallText (JString s) = trim s
  /\ starts_with_ws (sanitizeSmallText (JString s)) = false
  /\ ends_with_ws (sanitizeSmallText (JString s)) = false
  /\ sanitizeSmallText (JString (sanitizeSmallText (JString s)))
     = sanitizeSmallText (JString s).
Proof.
  intros Hlen.
  assert (E : sanitizeSmallText (JString s) = trim s)
    by (rewrite sanitizeSmallText_eq; apply firstn_all2; exact Hlen).
  rewrite E. split; [reflexivity | ]. split; [apply trim_starts | ].
  split; [apply trim_ends | ].
  rewrite sanitizeSmallText_eq, trim_trim. apply firstn_all2. exact Hlen.
Qed.

Lemma X2_sanitize_short_is_trim_witness :
  (List.length (trim (str "  Jo Smith  ")) <= 200)%nat
  /\ sanitizeSmallText (JString (str "  Jo Smith  ")) = trim (str "  Jo Smith  ").
Proof.
  assert (H : (List.length (trim (str "  Jo Smith  ")) <= 200)%nat)
    by (vm_compute; lia).
  split; [exact H | ].
  apply (X2_sanitize_short_is_trim (str "  Jo Smith  ") H).
Defined.

(** X3: a string that passes [isEmail] holds no white space, exactly one [@]
    and a dot, and has at least 5 code units; sanitizing it can only cut it
    at 200 code units. *)
Theorem X3_valid_email_facts s :
  isEmail (JString s) = true ->
  forallb (fun c => negb (is_ws c)) s = true
  /\ count_occ N.eq_dec s chr_at = 1%nat
  /\ In chr_dot s
  /\ (5 <= List.length s)%nat
  /\ sanitizeSmallText (JString s) = firstn 200 s.
Proof.
  intros H. destruct (valid_email_facts s H) as (H1 & H2 & H3 & H4 & H5).
  repeat (split; [assumption | ]).
  rewrite sanitizeSmallText_eq, H5. reflexivity.
Qed.

Lemma X3_valid_email_facts_witness :
  isEmail (JString (str "jo@x.com")) = true
  /\ sanitizeSmallText (JString (str "jo@x.com")) = firstn 200 (str "jo@x.com").
Proof.
  split; [reflexivity | ].
  apply (X3_valid_email_facts (str "jo@x.com") eq_refl).
Defined.

(** X4: [escape_newlines] (the [replace(/\n/g, '\\n')] of the description)
    leaves no line feed in its result, adds one code unit per line feed, and
    returns a text without line feeds unchanged. *)
Theorem X4_escape_newlines s :
  count_lf (escape_newlines s) = 0%nat
  /\ List.length (escape_newlines s) = (List.length s + count_lf s)%nat
  /\ (count_lf s = 0%nat -> escape_newlines s = s).
Proof.
  split; [apply escape_newlines_no_lf | ].
  split; [apply escape_newlines_length | apply escape_newlines_id].
Qed.

Local Open Scope Z_scope.

(** X5: for a valid submission whose insert succeeds and whose email has at
    most 200 code units, the email column of the persisted record is the
    submitted email, unchanged, and it still passes [isEmail]. *)
Theorem X5_short_email_stored_verbatim h db b s :
  valid_submission b = true -> email b = JString s ->
  (List.length s <= 200)%nat -> clock_ok h 0 ->
  h_db_ok h db (booking_row h db b) = true ->
  w_db (snd (serve h db (Some b))) = db ++ [booking_row h db b]
  /\ r_email (booking_row h db b) = s
  /\ isEmail (JString (r_email (booking_row h db b))) = true.
Proof.
  intros Hv Es Hlen Hc Hdb.
  destruct (valid_submission_checks b Hv) as (_ & _ & He & _).
  rewrite Es in He.
  destruct (valid_email_facts s He) as (_ & _ & _ & _ & Htrim).
  assert (E : r_email (booking_row h db b) = s).
  { unfold booking_row, sanitize. cbn [r_email clean_email].
    rewrite Es, sanitizeSmallText_eq, Htrim. apply firstn_all2. exact Hlen. }
  split; [apply (persisted_outcome h db b Hv Hc Hdb) | ].
  split; [exact E | ]. rewrite E. exact He.
Qed.

Lemma X5_short_email_stored_verbatim_witness :
  valid_submission jo = true /\ email jo = JString (str "jo@x.com")
  /\ (List.length (str "jo@x.com") <= 200)%nat /\ clock_ok good_host 0
  /\ h_db_ok good_host [] (booking_row good_host [] jo) = true
  /\ r_email (booking_row good_host [] jo) = str "jo@x.com".
Proof.
  assert (Hc : clock_ok good_host 0) by (vm_compute; discriminate).
  assert (Hl : (List.length (str "jo@x.com") <= 200)%nat) by (vm_compute; lia).
  repeat (split; [reflexivity || assumption | ]).
  apply (X5_short_email_stored_verbatim good_host [] jo (str "jo@x.com")
           eq_refl eq_refl Hl Hc eq_refl).
Defined.

(** X6: the handler answers every request, whatever fails inside: no
    exception escapes, and the answer is one of six fixed responses, with
    [ok] true exactly at status 200, and an [error] text exactly when [ok] is
    false. *)
Theorem X6_always_one_of_six_answers h db req :
  exists r,
    fst (serve h db req) = Ok r
    /\ In r answers
    /\ (ok r = true <-> status r = 200)
    /\ (ok r = true -> error r = None /\ message r <> None)
    /\ (ok r = false -> message r = None /\ error r <> None).
Proof.
  destruct (serve_answer h db req) as (r & E & Hin).
  exists r. split; [exact E | ]. split; [exact Hin | ].
  unfold answers in Hin. simpl in Hin.
  repeat (destruct Hin as [<- | Hin]); [ .. | destruct Hin];
    cbn; repeat split; intros; try discriminate; try reflexivity.
Qed.

(** X7: a request never removes or changes a row of the table: the table
    after the request is the table before, or the table before followed by
    the one row of the booking, and a row is added only for a submission that
    passes every check. *)
Theorem X7_table_append_only h db req :
  w_db (snd (serve h db req)) = db
  \/ exists b,
       req = Some b /\ valid_submission b = true
       /\ w_db (snd (serve h db req)) = db ++ [booking_row h db b].
Proof.
  destruct (serve_db_cases h db req)
    as [[E _] | (b & Er & Hv & _ & _ & E & _)].
  - left. exact E.
  - right. exists b. repeat split; assumption.
Qed.

(** X8: a request that is answered with status 400 leaves no trace: nothing
    is stored, nothing is sent or logged, and the clock is not even read. *)
Theorem X8_rejection_leaves_no_trace h db req r :
  fst (serve h db req) = Ok r -> status r = 400 ->
  snd (serve h db req) = initial_world db.
Proof.
  intros Er Hs. apply invalid_untouched.
  destruct (valid_submission (body_of req)) eqn:Hv; [ | reflexivity].
  destruct req as [b | ]; [ | discriminate Hv]. cbn [body_of] in Hv.
  destruct (valid_response h db b Hv) as [E | E]; rewrite E in Er;
    injection Er as <-; discriminate Hs.
Qed.

Lemma X8_rejection_leaves_no_trace_witness :
  fst (serve good_host [] (Some (with_phone (JString (str "12")) jo)))
  = Ok (json_error 400 "Invalid phone number.")
  /\ status (json_error 400 "Invalid phone number.") = 400
  /\ snd (serve good_host [] (Some (with_phone (JString (str "12")) jo)))
     = initial_world [].
Proof.
  split; [reflexivity | ]. split; [reflexivity | ].
  apply (X8_rejection_leaves_no_trace good_host []
           (Some (with_phone (JString (str "12")) jo))
           (json_error 400 "Invalid phone number.") eq_refl eq_refl).
Defined.

(** X9: when the preferred date and time do not make a valid one-hour
    appointment (the date cannot be read, or the hour runs past the last
    valid date), a valid submission is persisted all the same, no mail is
    attempted, and the answer is the generic 500. *)
Theorem X9_unreadable_date_persists_then_fails h db b :
  valid_submission b = true -> clock_ok h 0 ->
  h_db_ok h db (booking_row h db b) = true ->
  appointmentEnd_of (appointmentStart_of h (sanitize b)) = None ->
  serve h db (Some b)
  = (Ok (json_error 500 "Server error."),
     {| w_db := db ++ [booking_row h db b];
        w_log := [Inserted (booking_row h db b); ErrorLogged RangeError];
        w_reads := 1 |}).
Proof.
  intros Hv Hc Hdb Hend. rewrite (serve_valid h db b Hv Hc), Hdb.
  unfold notify, World.bind. rewrite Hend.
  destruct (appointmentStart_of h (sanitize b)); reflexivity.
Qed.

Lemma X9_unreadable_date_persists_then_fails_witness :
  valid_submission jo_tomorrow = true /\ clock_ok good_host 0
  /\ h_db_ok good_host [] (booking_row good_host [] jo_tomorrow) = true
  /\ appointmentEnd_of (appointmentStart_of good_host (sanitize jo_tomorrow))
     = None
  /\ fst (serve good_host [] (Some jo_tomorrow))
     = Ok (json_error 500 "Server error.").
Proof.
  assert (Hc : clock_ok good_host 0) by (vm_compute; discriminate).
  repeat (split; [reflexivity || assumption | ]).
  rewrite (X9_unreadable_date_persists_then_fails good_host [] jo_tomorrow
             eq_refl Hc eq_refl eq_refl).
  reflexivity.
Defined.

(** X10: a run attempts at most two sends, in a fixed order: the owner's
    notification, addressed to [TO_EMAIL], comes first, the customer's
    confirmation, addressed to the stored email, second; after a send that
    fails nothing more is sent. *)
Theorem X10_mail_order h db req :
  filter is_mail_event (w_log (snd (serve h db req))) = []
  \/ exists b ics,
       req = Some b
       /\ In (filter is_mail_event (w_log (snd (serve h db req))))
            (mail_patterns (owner_mail h (sanitize b) ics)
               (customer_mail h (sanitize b) ics))
       /\ m_to (owner_mail h (sanitize b) ics) = of_option (TO_EMAIL (h_env h))
       /\ m_to (customer_mail h (sanitize b) ics)
          = JString (r_email (booking_row h db b)).
Proof.
  destruct (serve_mails h db req) as [E | (b & t & Er & _ & _ & Hin)].
  - left. exact E.
  - right. exists b. eexists. split; [exact Er | ]. split; [exact Hin | ].
    split; reflexivity.
Qed.

(** X11: every mail of a run carries exactly one attachment, named
    [booking.ics] and typed [text/calendar], and all the mails of one run
    carry the same calendar. *)
Theorem X11_one_calendar_per_run h db req ev1 m1 ev2 m2 :
  In ev1 (w_log (snd (serve h db req))) -> mail_of_event ev1 = Some m1 ->
  In ev2 (w_log (snd (serve h db req))) -> mail_of_event ev2 = Some m2 ->
  m_attachments m1 = m_attachments m2
  /\ exists ics,
       m_attachments m1
       = [ {| a_filename := str "booking.ics"; a_content := ics;
              a_contentType := str "text/calendar" |} ].
Proof.
  intros H1 E1 H2 E2.
  destruct (serve_mail_attachments h db req ev1 m1 H1 E1)
    as (b1 & t1 & Er1 & Es1 & _ & A1).
  destruct (serve_mail_attachments h db req ev2 m2 H2 E2)
    as (b2 & t2 & Er2 & Es2 & _ & A2).
  rewrite Er1 in Er2. injection Er2 as <-.
  rewrite Es1 in Es2. injection Es2 as <-.
  split; [congruence | ]. eexists. rewrite A1. reflexivity.
Qed.

Lemma X11_one_calendar_per_run_witness :
  m_attachments
    (owner_mail good_host (sanitize jo)
       (booking_ics good_host (sanitize jo) 1748768400000
          (inserted [] (booking_row good_host [] jo))))
  = m_attachments
      (customer_mail good_host (sanitize jo)
         (booking_ics good_host (sanitize jo) 1748768400000
            (inserted [] (booking_row good_host [] jo)))).
Proof.
  apply (X11_one_calendar_per_run good_host [] (Some jo)
           (nth 1 (w_log (snd (serve good_host [] (Some jo)))) InsertFailed)
           _
           (nth 2 (w_log (snd (serve good_host [] (Some jo)))) InsertFailed)
           _).
  - vm_compute. right. left. reflexivity.
  - vm_compute. reflexivity.
  - vm_compute. right. right. left. reflexivity.
  - vm_compute. reflexivity.
Defined.

(** X12: the [createdAt] column of a persisted record is the server's clock
    at the start of the request, written so that [Date.parse] reads it back
    exactly; nothing of the submission enters it. *)
Theorem X12_createdAt_is_server_clock h db b :
  valid_submission b = true -> clock_ok h 0 ->
  h_db_ok h db (booking_row h db b) = true ->
  exists r,
    w_db (snd (serve h db (Some b))) = db ++ [r]
    /\ parse_iso_utc (r_createdAt r) = Some (h_clock h 0)
    /\ forall b', r_createdAt (booking_row h db b') = r_createdAt r.
Proof.
  intros Hv Hc Hdb. exists (booking_row h db b).
  split; [apply (persisted_outcome h db b Hv Hc Hdb) | ].
  split; [apply parse_iso_of_time; exact Hc | reflexivity].
Qed.

Lemma X12_createdAt_is_server_clock_witness :
  valid_submission jo = true /\ clock_ok good_host 0
  /\ h_db_ok good_host [] (booking_row good_host [] jo) = true
  /\ exists r,
       w_db (snd (serve good_host [] (Some jo))) = [] ++ [r]
       /\ parse_iso_utc (r_createdAt r) = Some (h_clock good_host 0)
       /\ forall b', r_createdAt (booking_row good_host [] b') = r_createdAt r.
Proof.
  assert (Hc : clock_ok good_host 0) by (vm_compute; discriminate).
  repeat (split; [reflexivity || assumption | ]).
  apply (X12_createdAt_is_server_clock good_host [] jo eq_refl Hc eq_refl).
Defined.

(** X13: on a server whose [TO_EMAIL] is unset or empty, a run sends no mail
    but the customer's confirmation: whenever a send is attempted, it is the
    only one, it goes to the stored email, which passed the email check, and
    the warning that the owner's notification was skipped is in the log. *)
Theorem X13_no_owner_address h db req :
  falsy (of_option (TO_EMAIL (h_env h))) = true ->
  filter is_mail_event (w_log (snd (serve h db req))) = []
  \/ exists b ics,
       req = Some b
       /\ isEmail (JString (r_email (booking_row h db b))) = true
       /\ In (Warned (str "TO_EMAIL not set " ++ em_dash
                      ++ str " skipping owner notification"))
            (w_log (snd (serve h db req)))
       /\ m_to (customer_mail h (sanitize b) ics)
          = JString (r_email (booking_row h db b))
       /\ (filter is_mail_event (w_log (snd (serve h db req)))
           = [MailSent (customer_mail h (sanitize b) ics)]
           \/ filter is_mail_event (w_log (snd (serve h db req)))
              = [MailFailed (customer_mail h (sanitize b) ics)]).
Proof.
  intros Hf.
  destruct (serve_no_owner h db req Hf) as [E | (b & t & Er & He & Hw & Hm)].
  - left. exact E.
  - right. exists b. eexists. split; [exact Er | ]. split; [exact He | ].
    split; [exact Hw | ]. split; [reflexivity | exact Hm].
Qed.

Lemma X13_no_owner_address_witness :
  falsy (of_option (TO_EMAIL (h_env no_owner_host))) = true
  /\ (filter is_mail_event (w_log (snd (serve no_owner_host [] (Some jo)))) = []
      \/ exists b ics,
           Some jo = Some b
           /\ isEmail (JString (r_email (booking_row no_owner_host [] b))) = true
           /\ In (Warned (str "TO_EMAIL not set " ++ em_dash
                          ++ str " skipping owner notification"))
                (w_log (snd (serve no_owner_host [] (Some jo))))
           /\ m_to (customer_mail no_owner_host (sanitize b) ics)
              = JString (r_email (booking_row no_owner_host [] b))
           /\ (filter is_mail_event
                 (w_log (snd (serve no_owner_host [] (Some jo))))
               = [MailSent (customer_mail no_owner_host (sanitize b) ics)]
               \/ filter is_mail_event
                    (w_log (snd (serve no_owner_host [] (Some jo))))
                  = [MailFailed (customer_mail no_owner_host (sanitize b) ics)])).
Proof.
  split; [reflexivity | ].
  apply (X13_no_owner_address no_owner_host [] (Some jo)). reflexivity.
Defined.

(** X14: when both ends of the appointment are readable dates and the clock
    is valid, [buildICS] returns a text with exactly thirteen line breaks
    besides the line feeds of the summary: the description, whose line feeds
    are escaped, never adds a line, while a line feed in the summary, which
    is not escaped, does. *)
Theorem X14_calendar_lines h a t1 t2 w :
  Date_of_string h (startISO a) = Some t1 ->
  Date_of_string h (endISO a) = Some t2 ->
  clock_ok h (w_reads w) -> clock_ok h (S (w_reads w)) ->
  exists text,
    buildICS h a w = (Ok text, advance 2 w)
    /\ count_lf text = (13 + count_lf (summary a))%nat.
Proof.
  intros E1 E2 Hc0 Hc1.
  unfold buildICS, World.bind, Date_now. cbn [w_reads].
  unfold Date_of_value. rewrite TimeClip_valid by exact Hc1.
  cbn [toISOString World.ret].
  rewrite toICSDate_iso by exact Hc1.
  unfold toICSDate, World.bind. rewrite E1, E2. cbn [toISOString World.ret].
  eexists. split; [reflexivity | ].
  fold (ics_of_time t1). fold (ics_of_time t2).
  rewrite count_lf_ics_lines, !count_lf_ics_of_time, !count_lf_app.
  rewrite (count_lf_Number_toString h _ Hc0). count_literals. lia.
Qed.

Lemma X14_calendar_lines_witness :
  Date_of_string good_host (str "2025-06-01T09:00:00.000Z")
  = Some 1748768400000%Z
  /\ Date_of_string good_host (str "2025-06-01T10:00:00.000Z")
     = Some 1748772000000%Z
  /\ clock_ok good_host 0 /\ clock_ok good_host 1
  /\ exists text,
       buildICS good_host
         {| summary := str "Wash"; description := str "Name: Jo" ++ lf;
            startISO := str "2025-06-01T09:00:00.000Z";
            endISO := str "2025-06-01T10:00:00.000Z" |}
         (initial_world [])
       = (Ok text, advance 2 (initial_world []))
       /\ count_lf text = 13%nat.
Proof.
  assert (P1 : Date_of_string good_host (str "2025-06-01T09:00:00.000Z")
               = Some 1748768400000%Z) by (vm_compute; reflexivity).
  assert (P2 : Date_of_string good_host (str "2025-06-01T10:00:00.000Z")
               = Some 1748772000000%Z) by (vm_compute; reflexivity).
  assert (C0 : clock_ok good_host 0) by (vm_compute; discriminate).
  assert (C1 : clock_ok good_host 1) by (vm_compute; discriminate).
  repeat (split; [assumption | ]).
  exact (X14_calendar_lines good_host
           {| summary := str "Wash"; description := str "Name: Jo" ++ lf;
              startISO := str "2025-06-01T09:00:00.000Z";
              endISO := str "2025-06-01T10:00:00.000Z" |}
           1748768400000%Z 1748772000000%Z (initial_world []) P1 P2 C0 C1).
Defined.

(** X15: [toICSDate] throws a [RangeError] on a string that is not a readable
    date, and touches nothing.  On a readable one it returns sixteen
    characters exactly when the date lies in the years 0 to 9999; before
    year 0 the minus sign of the year is removed with the dashes and
    eighteen characters are left, from year 10000 on the plus sign stays and
    there are nineteen. *)
Theorem X15_toICSDate_length h iso w :
  match Date_of_string h iso with
  | None => toICSDate h iso w = (Throw RangeError, w)
  | Some t =>
      exists s,
        toICSDate h iso w = (Ok s, w)
        /\ List.length s
           = if (t <? time_year_0)%Z then 18%nat
             else if (t <? time_year_10000)%Z then 16%nat else 19%nat
  end.
Proof.
  unfold toICSDate, World.bind.
  destruct (Date_of_string h iso) as [t | ]; cbn [toISOString World.ret].
  - eexists. split; [reflexivity | ]. apply ics_of_time_length.
  - reflexivity.
Qed.

(** X16: [getTransporter] never throws, whatever the environment holds: it
    leaves the table and the clock alone and logs at most the one warning,
    and none exactly when the host, the user and the password are set and
    not empty and the port is neither [NaN] nor 0.  The transport is secure
    exactly when the port read from [SMTP_PORT] is 465, and an unset or
    empty [SMTP_PORT] gives port 587, not secure. *)
Theorem X16_transporter_never_throws h w :
  exists t l,
    getTransporter h w
    = (Ok t, {| w_db := w_db w; w_log := w_log w ++ l; w_reads := w_reads w |})
    /\ (l = []
        \/ l = [Warned (str "SMTP environment variables missing. Email will fail without them.")])
    /\ (l = [] <->
        truthy (of_option (SMTP_HOST (h_env h))) = true
        /\ truthy (of_option (SMTP_USER (h_env h))) = true
        /\ truthy (of_option (SMTP_PASS (h_env h))) = true
        /\ t_port t <> NaN /\ t_port t <> Finite 0)
    /\ (t_secure t = true <-> t_port t = Finite 465)
    /\ (falsy (of_option (SMTP_PORT (h_env h))) = true ->
        t_port t = Finite 587 /\ t_secure t = false).
Proof.
  assert (P : forall v, falsy v = true ->
                parseInt10 (or_else v (JString (str "587"))) = Finite 587).
  { intros v Hv. unfold or_else. unfold falsy in Hv.
    apply negb_true_iff in Hv. rewrite Hv. vm_compute. reflexivity. }
  assert (S : forall n, number_eqb n 465 = true <-> n = Finite 465).
  { intros [ | neg | z]; cbn [number_eqb]; split; intros H; try discriminate H.
    - apply Z.eqb_eq in H. congruence.
    - injection H as ->. reflexivity. }
  assert (T : forall n, number_truthy n = true <-> n <> NaN /\ n <> Finite 0).
  { intros [ | neg | z]; cbn [number_truthy]; split.
    - discriminate.
    - intros [H _]. congruence.
    - intros _. split; discriminate.
    - reflexivity.
    - intros H. apply negb_true_iff, Z.eqb_neq in H. split; congruence.
    - intros [_ H]. apply negb_true_iff, Z.eqb_neq. congruence. }
  unfold getTransporter, console_warn, emit, World.bind, World.ret.
  set (port := parseInt10 (or_else (of_option (SMTP_PORT (h_env h)))
                                   (JString (str "587")))).
  assert (Tp := T port). assert (Sp := S port).
  assert (Pp := P (of_option (SMTP_PORT (h_env h)))). fold port in Pp.
  unfold falsy in *.
  destruct (truthy (of_option (SMTP_HOST (h_env h))));
    destruct (number_truthy port);
    destruct (truthy (of_option (SMTP_USER (h_env h))));
    destruct (truthy (of_option (SMTP_PASS (h_env h))));
    cbn [negb orb w_db w_log w_reads t_port t_secure].
  all: eexists; eexists; split;
    [first [reflexivity
           | instantiate (1 := []); rewrite app_nil_r; destruct w; reflexivity]
    | ].
  all: split; [auto | ].
  all: split;
    [ split; [ intros E; try discriminate E; repeat split; tauto
             | intros (H1 & H2 & H3 & H4); try discriminate;
               try reflexivity;
               exfalso; assert (F : false = true) by tauto; discriminate F ]
    | ].
  all: split; [exact Sp | ].
  all: intros Hf; rewrite (Pp Hf); split; reflexivity.
Qed.

(** X17: the health endpoint always answers [ok], with the brand that the
    customer's mail is signed with, and that brand is never empty: it is
    [BRAND_NAME] of the environment when that is set and not empty, and
    [Pressure Washing] otherwise, for an empty value as for an unset one. *)
Theorem X17_health_brand h :
  health_ok (get_health h) = true
  /\ brand (get_health h) <> []
  /\ (forall s, BRAND_NAME_var (h_env h) = Some s -> s <> [] ->
       brand (get_health h) = s)
  /\ (BRAND_NAME_var (h_env h) = None \/ BRAND_NAME_var (h_env h) = Some [] ->
       brand (get_health h) = str "Pressure Washing")
  /\ forall clean ics,
       m_subject (customer_mail h clean ics)
       = str "Thanks! We received your request " ++ em_dash ++ str " "
         ++ brand (get_health h).
Proof.
  unfold get_health. cbn [health_ok brand].
  assert (B : BRAND_NAME h
              = match BRAND_NAME_var (h_env h) with
                | Some (c :: s) => c :: s
                | _ => str "Pressure Washing"
                end).
  { unfold BRAND_NAME. destruct (BRAND_NAME_var (h_env h)) as [[ | c s] | ];
      reflexivity. }
  split; [reflexivity | ].
  split.
  { rewrite B. destruct (BRAND_NAME_var (h_env h)) as [[ | c s] | ];
      cbv; discriminate. }
  split.
  { intros s E Hs. rewrite B, E. destruct s; congruence. }
  split.
  { intros [E | E]; rewrite B, E; reflexivity. }
  intros clean ics. reflexivity.
Qed.

(** X18: a payload that passes the page's check of the required fields is
    never answered with [Missing required fields.] by the server, and every
    record that the server adds for it has a non-empty name, email, phone,
    address, service, date and time. *)
Theorem X18_page_check_covers_server h db b :
  existsb field_blank (required b) = false ->
  fst (serve h db (Some b)) <> Ok (json_error 400 "Missing required fields.")
  /\ forall r, In r (w_db (snd (serve h db (Some b)))) ->
       In r db
       \/ (r_name r <> [] /\ r_email r <> [] /\ r_phone r <> []
           /\ r_address r <> [] /\ r_serviceType r <> []
           /\ r_preferredDate r <> [] /\ r_preferredTime r <> []).
Proof.
  intros Hreq. pose proof (required_not_missing b Hreq) as Hm. split.
  - destruct (honeypot_filled b) eqn:H1.
    { rewrite (serve_honeypot h db (Some b) H1). discriminate. }
    destruct (isEmail (email b)) eqn:H3.
    2:{ rewrite (serve_bad_email h db (Some b) H1 Hm H3). discriminate. }
    destruct (isPhone (phone b)) eqn:H4.
    2:{ rewrite (serve_bad_phone h db (Some b) H1 Hm H3 H4). discriminate. }
    assert (Hv : valid_submission b = true)
      by (unfold valid_submission; rewrite H1, Hm, H3, H4; reflexivity).
    destruct (valid_response h db b Hv) as [E | E]; rewrite E; discriminate.
  - intros r Hin.
    destruct (serve_db_cases h db (Some b))
      as [[E _] | (b' & Eb & _ & _ & _ & E & _)]; rewrite E in Hin.
    + left. exact Hin.
    + injection Eb as <-. apply in_app_or in Hin as [Hin | [<- | []]].
      * left. exact Hin.
      * right.
        apply required_filled in Hreq as (H1 & H2 & H3 & H4 & H5 & H6 & H7).
        cbn [booking_row r_name r_email r_phone r_address r_serviceType
               r_preferredDate r_preferredTime sanitize clean_name clean_email
               clean_phone clean_address clean_serviceType clean_preferredDate
               clean_preferredTime].
        repeat split; first [apply filled_small | apply filled_text];
          assumption.
Qed.

Lemma X18_page_check_covers_server_witness :
  existsb field_blank (required jo) = false
  /\ fst (serve good_host [] (Some jo))
     <> Ok (json_error 400 "Missing required fields.").
Proof.
  split; [reflexivity | ].
  apply (X18_page_check_covers_server good_host [] jo). reflexivity.
Defined.

(** X19: whatever the payload and whatever the request gives, the submit
    listener leaves the button enabled; it sends at most one request, and
    exactly one when the required fields are filled; it resets the form
    exactly when a request was sent and its answer says [ok]; and the status
    is shown in the success colour at the end exactly when the form was
    reset. *)
Theorem X19_submit_listener fetch payload :
  last_disabled (submit fetch payload) true = false
  /\ List.length (filter is_fetch (submit fetch payload))
     = (if existsb field_blank (required payload) then 0%nat else 1%nat)
  /\ (existsb is_reset (submit fetch payload) = true
      <-> existsb field_blank (required payload) = false
          /\ exists e, fetch payload = Json true e)
  /\ exists msg,
       last_status (submit fetch payload) None
       = Some (msg, existsb is_reset (submit fetch payload)).
Proof.
  unfold submit.
  destruct (existsb field_blank (required payload)).
  - cbn. repeat split; try discriminate.
    + intros [F _]. discriminate F.
    + eexists. reflexivity.
  - destruct (fetch payload) as [ | [ | ] e]; cbn; repeat split;
      try discriminate; try (eexists; reflexivity).
    + intros [_ [e F]]. discriminate F.
    + intros [_ [e' F]]. discriminate F.
Qed.

(** X20: the page in front of the booking server.  For a payload that passes
    the page's check, the server always answers, and the status shown at the
    end is [Thanks! We received your request.] in the success colour when the
    answer says [ok], and otherwise the server's own error text, which is one
    of [Invalid email address.], [Invalid phone number.] and
    [Server error.]; the page's fallback texts are never shown. *)
Theorem X20_page_shows_server_answer h db b :
  existsb field_blank (required b) = false ->
  exists r,
    fst (serve h db (Some b)) = Ok r
    /\ last_status (submit (via_server h db) b) None
       = Some (match error r with
               | None => str "Thanks! We received your request."
               | Some e => e
               end, ok r)
    /\ (ok r = false ->
        In (error r) [Some (str "Invalid email address.");
                      Some (str "Invalid phone number.");
                      Some (str "Server error.")]).
Proof.
  intros Hreq. pose proof (required_not_missing b Hreq) as Hm.
  unfold submit, via_server. rewrite Hreq.
  assert (R : exists r, fst (serve h db (Some b)) = Ok r
                /\ In r [json_ok 200 "Thanks!";
                         json_error 400 "Invalid email address.";
                         json_error 400 "Invalid phone number.";
                         json_ok 200 "Booking received.";
                         json_error 500 "Server error."]).
  { destruct (honeypot_filled b) eqn:H1.
    { rewrite (serve_honeypot h db (Some b) H1). eexists.
      split; [reflexivity | simpl; auto]. }
    destruct (isEmail (email b)) eqn:H3.
    2:{ rewrite (serve_bad_email h db (Some b) H1 Hm H3). eexists.
        split; [reflexivity | simpl; auto]. }
    destruct (isPhone (phone b)) eqn:H4.
    2:{ rewrite (serve_bad_phone h db (Some b) H1 Hm H3 H4). eexists.
        split; [reflexivity | simpl; auto]. }
    assert (Hv : valid_submission b = true)
      by (unfold valid_submission; rewrite H1, Hm, H3, H4; reflexivity).
    destruct (valid_response h db b Hv) as [E | E]; rewrite E; eexists;
      (split; [reflexivity | simpl; auto 6]). }
  destruct R as (r & E & Hin). exists r. rewrite E. split; [reflexivity | ].
  cbn [In] in Hin.
  repeat (destruct Hin as [<- | Hin]); [ .. | destruct Hin];
    cbn; (split; [reflexivity | ]); intros F; try discriminate F; auto.
Qed.

Lemma X20_page_shows_server_answer_witness :
  existsb field_blank (required jo) = false
  /\ exists r,
       fst (serve good_host [] (Some jo)) = Ok r
       /\ last_status (submit (via_server good_host []) jo) None
          = Some (match error r with
                  | None => str "Thanks! We received your request."
                  | Some e => e
                  end, ok r)
       /\ (ok r = false ->
           In (error r) [Some (str "Invalid email address.");
                         Some (str "Invalid phone number.");
                         Some (str "Server error.")]).
Proof.
  split; [reflexivity | ].
  apply (X20_page_shows_server_answer good_host [] jo). reflexivity.
Defined.
